(** * facerecog: the live-analysis client, embedded and checked against its specification

    The development embeds the React components of the repository that the
    specification talks about:

    - [Camera]          (components/Camera.tsx): camera effect, overlay render
                        loop, capture loop;
    - [CameraAnalysis]  (pages/CameraAnalysis.tsx): camera start/stop, the
                        one-second processing interval, [processFrame];
    - [GroupAnalysis]   (pages/GroupAnalysis.tsx): [handleSubmit] and the
                        result list;
    - [Analysis]        (pages/Analysis.tsx) and [FaceRegistration]
                        (pages/FaceRegistration.tsx): image selection,
                        registration and identification requests.

    [JS] and [Media] hold the browser primitives the components call,
    [Spec] the formulas of the specification that the code is compared
    with, [Samples] the concrete states of the evaluations.

    Conventions.  A React component is a record of its state cells; an event
    handler is a function from that record to the next one, returning the
    network requests it issues.  The part of an [async] handler before its
    first [await] is one function, the part after it (run when the request
    settles) another.  A render-time constant that a callback captures is a
    field of an explicit closure record.  JavaScript numbers are idealised
    as exact rationals ([Q]); every concrete evaluation below uses values
    that are exactly representable as doubles. *)

From Stdlib Require Import ZArith QArith Qround Qabs List String Ascii Lia Bool.
From Stdlib Require Import DecimalString.
From stdpp Require Import gmap.
Import ListNotations.

#[local] Open Scope string_scope.

(** ** Browser and language primitives used by the components *)

Module JS.

(** Truthiness of a [string | null] value: [null] and the empty string are
    falsy. *)
Definition truthy (v : option string) : bool :=
  match v with
  | None => false
  | Some s => negb (String.eqb s "")
  end.

(** Decimal digits of a non-negative integer. *)
Definition digits (n : Z) : string :=
  NilZero.string_of_uint (N.to_uint (Z.to_N n)).

Fixpoint zeros (k : nat) : string :=
  match k with
  | O => ""
  | S k' => "0" ++ zeros k'
  end.

(** [Number.prototype.toFixed(f)] (ECMA-262, 21.1.3.3) on an exact value:
    the sign is split off, [n] is the integer nearest to [x * 10^f] (the
    larger one on a tie), its digits are left-padded with zeros to [f + 1]
    characters and the point is put before the last [f] of them.  The
    branch for [x >= 10^21] is not modelled. *)
Definition toFixed (x : Q) (f : nat) : string :=
  let sign := match Qcompare x 0 with Lt => "-" | _ => "" end in
  let a := Qabs x in
  let n := Qfloor (a * inject_Z (10 ^ Z.of_nat f) + (1 # 2)) in
  let m := digits n in
  match f with
  | O => sign ++ m
  | _ =>
      let m' := zeros (S f - String.length m) ++ m in
      let k := String.length m' in
      sign ++ substring 0 (k - f) m' ++ "." ++ substring (k - f) f m'
  end.

(** [HTMLCanvasElement.toDataURL('image/jpeg')] (HTML, 4.12.5): a canvas
    whose bitmap has no pixels serialises to the string [data:,]; otherwise
    the result is a JPEG data URL of the bitmap, here the base64 text
    [pixels] of whatever was last drawn. *)
Definition toDataURL (width height : N) (pixels : string) : string :=
  if ((width =? 0) || (height =? 0))%N then "data:,"
  else "data:image/jpeg;base64," ++ pixels.

(** Text is held as its UTF-8 bytes.  [String.prototype.trim] (ECMA-262,
    22.1.3.32) strips the code points of WhiteSpace and LineTerminator
    (12.2, 12.3): TAB, LF, VT, FF, CR, SP; NBSP (U+00A0); U+1680,
    U+2000..U+200A, LS (U+2028), PS (U+2029), U+202F, U+205F, U+3000 and
    ZWNBSP (U+FEFF).  In UTF-8 the first six take one byte, NBSP two and
    the others three. *)
Definition oneByteSpace (c : ascii) : bool :=
  match c with
  | " "%char | "009"%char | "010"%char | "011"%char | "012"%char | "013"%char => true
  | _ => false
  end.

Definition twoByteSpace (c1 c2 : ascii) : bool :=
  ((N_of_ascii c1 =? 194) && (N_of_ascii c2 =? 160))%N.

Definition threeByteSpace (c1 c2 c3 : ascii) : bool :=
  let a := N_of_ascii c1 in
  let b := N_of_ascii c2 in
  let c := N_of_ascii c3 in
  ((a =? 225) && (b =? 154) && (c =? 128)
   || (a =? 226) && (b =? 128)
      && ((128 <=? c) && (c <=? 138) || (c =? 168) || (c =? 169) || (c =? 175))
   || (a =? 226) && (b =? 129) && (c =? 159)
   || (a =? 227) && (b =? 128) && (c =? 128)
   || (a =? 239) && (b =? 187) && (c =? 191))%N.

(** The number of bytes of the white-space code point at the head of a
    text, 0 if it does not start with one. *)
Definition whiteSpace (s : string) : nat :=
  match s with
  | String c1 s1 =>
      if oneByteSpace c1 then 1
      else match s1 with
           | String c2 s2 =>
               if twoByteSpace c1 c2 then 2
               else match s2 with
                    | String c3 _ => if threeByteSpace c1 c2 c3 then 3 else 0
                    | EmptyString => 0
                    end
           | EmptyString => 0
           end
  | EmptyString => 0
  end.

(** The text without its first [k] bytes. *)
Fixpoint skip (k : nat) (s : string) : string :=
  match k, s with
  | S k', String _ s' => skip k' s'
  | _, _ => s
  end.

Fixpoint trimStart (s : string) : string :=
  match s with
  | String c1 s1 =>
      if oneByteSpace c1 then trimStart s1
      else match s1 with
           | String c2 s2 =>
               if twoByteSpace c1 c2 then trimStart s2
               else match s2 with
                    | String c3 s3 =>
                        if threeByteSpace c1 c2 c3 then trimStart s3 else s
                    | EmptyString => s
                    end
           | EmptyString => s
           end
  | EmptyString => EmptyString
  end.

(** The text consists of white-space code points only. *)
Fixpoint blank (s : string) : bool :=
  match s with
  | String c1 s1 =>
      if oneByteSpace c1 then blank s1
      else match s1 with
           | String c2 s2 =>
               if twoByteSpace c1 c2 then blank s2
               else match s2 with
                    | String c3 s3 => threeByteSpace c1 c2 c3 && blank s3
                    | EmptyString => false
                    end
           | EmptyString => false
           end
  | EmptyString => true
  end.

(** The text without its longest suffix of white-space code points (a
    suffix that starts inside a code point starts with a continuation
    byte and is not [blank]). *)
Fixpoint trimEnd (s : string) : string :=
  match s with
  | String c s' => if blank s then EmptyString else String c (trimEnd s')
  | EmptyString => EmptyString
  end.

(** [String.prototype.trim]. *)
Definition trim (s : string) : string := trimEnd (trimStart s).

End JS.

(** A rational from an unsigned DOM dimension ([videoWidth], [canvas.width]). *)
Definition N2Q (n : N) : Q := inject_Z (Z.of_N n).

(** Canvas 2D drawing calls, in the order they are issued. *)
Inductive DrawOp : Type :=
| ClearRect (x y w h : Q)
| DrawImage (x y : Q) (size : option (Q * Q))
| StrokeRect (style : string) (x y w h : Q)
| FillRect (style : string) (x y w h : Q)
| FillText (style font text : string) (x y : Q).

(** ** Camera hardware *)

Module Media.

(** [MediaStreamTrack.readyState]. *)
Inductive ReadyState : Type := live | ended.

(** A [MediaStream], by the ids of its tracks ([stream.getTracks()]).  The
    tracks themselves are shared objects: they live in a store that maps
    every track handed out so far to its state. *)
Definition MediaStream : Type := list nat.

(** [stream.getTracks().forEach(track => track.stop())]. *)
Definition stopTracks (stream : MediaStream) (t : gmap nat ReadyState)
  : gmap nat ReadyState :=
  fold_right (fun id acc => <[id := ended]> acc) t stream.

(** A successful [getUserMedia]: [n] new live tracks with the ids
    [first, first + 1, ...]. *)
Definition newStream (first n : nat) : MediaStream := seq first n.

Definition grantTracks (stream : MediaStream) (t : gmap nat ReadyState)
  : gmap nat ReadyState :=
  fold_right (fun id acc => <[id := live]> acc) t stream.

(** The tracks with an id below [bound] that are live. *)
Definition liveTracks (t : gmap nat ReadyState) (bound : nat) : list nat :=
  List.filter (fun id => match t !! id with
                         | Some live => true
                         | _ => false
                         end) (seq 0 bound).

End Media.

(** ** components/Camera.tsx *)

Module Camera.

(** [interface DetectedFace]. *)
Record DetectedFace : Type := {
  name : string;
  confidence : Q;
  box : Q * Q * Q * Q
}.

(** The [<video>] and [<canvas>] elements behind [videoRef] and
    [canvasRef]; [ctx2d] tells whether [getContext('2d')] yields a context,
    [pixels] stands for the current video frame. *)
Record Video : Type := {
  videoWidth : N;
  videoHeight : N;
  pixels : string
}.

Record Canvas : Type := {
  width : N;
  height : N;
  ctx2d : bool
}.

(** The label text of [drawDetections]:
    [`${face.name} (${(face.confidence * 100).toFixed(1)}%)`]. *)
Definition label (face : DetectedFace) : string :=
  name face ++ " (" ++ JS.toFixed (confidence face * 100) 1 ++ "%)".

(** [const scale = canvasRef.current!.width / videoRef.current!.videoWidth]. *)
Definition scale (canvas : Canvas) (video : Video) : Q :=
  N2Q (width canvas) / N2Q (videoWidth video).

(** The three drawing calls of one [detectedFaces.forEach] iteration. *)
Definition drawFace (canvas : Canvas) (video : Video) (face : DetectedFace)
  : list DrawOp :=
  let '(x, y, w, h) := box face in
  let scale := scale canvas video in
  [ StrokeRect "#00ff00" (x * scale) (y * scale) (w * scale) (h * scale);
    FillRect "#00ff00" (x * scale) ((y * scale) - 20) 200 20;
    FillText "#000000" "16px Arial" (label face) (x * scale + 5) ((y * scale) - 5) ].

(** [drawDetections], one pass of the animation loop. *)
Definition drawDetections (canvasRef : option Canvas) (videoRef : option Video)
    (detectedFaces : list DetectedFace) : list DrawOp :=
  match canvasRef, videoRef with
  | Some canvas, Some video =>
      if negb (ctx2d canvas) then []
      else
        ClearRect 0 0 (N2Q (width canvas)) (N2Q (height canvas))
        :: DrawImage 0 0 (Some (N2Q (width canvas), N2Q (height canvas)))
        :: flat_map (drawFace canvas video) detectedFaces
  | _, _ => []
  end.

(** The rectangles stroked by a list of drawing calls. *)
Definition strokedRects (ops : list DrawOp) : list (Q * Q * Q * Q) :=
  flat_map (fun op => match op with
                      | StrokeRect _ x y w h => [(x, y, w, h)]
                      | _ => []
                      end) ops.

(** The texts written by a list of drawing calls. *)
Definition texts (ops : list DrawOp) : list string :=
  flat_map (fun op => match op with
                      | FillText _ _ t _ _ => [t]
                      | _ => []
                      end) ops.

(** State of the capture loop: the [isProcessing] cell, the two refs, and
    the images handed to the [onCapture] prop so far (latest first). *)
Record State : Type := {
  isActive : bool;
  continuousProcessing : bool;
  isProcessing : bool;
  videoRef : option Video;
  canvasRef : option Canvas;
  captured : list string
}.

(** [captureAndProcess]. *)
Definition captureAndProcess (s : State) : State :=
  match videoRef s, canvasRef s with
  | Some video, Some canvas =>
      if isProcessing s then s
      else if ctx2d canvas then
        let canvas' := {| width := videoWidth video;
                          height := videoHeight video;
                          ctx2d := true |} in
        let imageData := JS.toDataURL (width canvas') (height canvas') (pixels video) in
        {| isActive := isActive s;
           continuousProcessing := continuousProcessing s;
           isProcessing := false;
           videoRef := videoRef s;
           canvasRef := Some canvas';
           captured := imageData :: captured s |}
      else
        {| isActive := isActive s;
           continuousProcessing := continuousProcessing s;
           isProcessing := true;
           videoRef := videoRef s;
           canvasRef := canvasRef s;
           captured := captured s |}
  | _, _ => s
  end.

(** [processFrame], the interval callback of the capture loop. *)
Definition processFrame (s : State) : State :=
  if negb (isProcessing s) && continuousProcessing s
     && match videoRef s with Some _ => true | None => false end
     && isActive s
  then captureAndProcess s
  else s.

(** *** The camera effect ([useEffect(..., [isActive])]) *)

(** One run of the effect: its local variable [stream], and whether its
    [getUserMedia] call is still waiting for the user. *)
Record EffectRun : Type := {
  stream : option Media.MediaStream;
  waiting : bool
}.

(** The camera side of the component: whether it is mounted, the track
    store, the [srcObject] of the video element ([None]: [videoRef.current]
    is not set), every run of the effect so far (the current one last),
    and the [error] cell. *)
Record Source : Type := {
  mountedSource : bool;
  tracks : gmap nat Media.ReadyState;
  nextTrack : nat;
  srcObject : option (option Media.MediaStream);
  runs : list EffectRun;
  error : option string
}.

(** The clean-up function of a run. *)
Definition cleanup (r : EffectRun) (t : gmap nat Media.ReadyState)
  : gmap nat Media.ReadyState :=
  match stream r with
  | Some st => Media.stopTracks st t
  | None => t
  end.

(** The body of the effect: [startCamera()] asks for the camera only if
    [isActive]. *)
Definition startRun (isActive : bool) : EffectRun :=
  {| stream := None; waiting := isActive |}.

Definition mountSource (isActive : bool) : Source :=
  {| mountedSource := true; tracks := ∅; nextTrack := 0; srcObject := Some None;
     runs := [startRun isActive]; error := None |}.

(** [isActive] changes; the user grants or refuses the camera to the
    [getUserMedia] call of a run; the component unmounts. *)
Inductive SourceEvent : Type :=
| SetActive (isActive : bool)
| Granted (run : nat) (n : nat)
| Denied (run : nat)
| UnmountSource.

(** The clean-up of the current run. *)
Definition cleanupLast (src : Source) : gmap nat Media.ReadyState :=
  match last (runs src) with
  | Some r => cleanup r (tracks src)
  | None => tracks src
  end.

Fixpoint setNth {A : Type} (i : nat) (x : A) (l : list A) : list A :=
  match l, i with
  | [], _ => []
  | _ :: l', O => x :: l'
  | y :: l', S i' => y :: setNth i' x l'
  end.

Definition sourceStep (e : SourceEvent) (src : Source) : Source :=
  match e with
  | SetActive isActive =>
      if mountedSource src then
        {| mountedSource := true;
           tracks := cleanupLast src; nextTrack := nextTrack src;
           srcObject := srcObject src;
           runs := (runs src ++ [startRun isActive])%list; error := error src |}
      else src
  | Granted i n =>
      match nth_error (runs src) i with
      | Some r =>
          if waiting r then
            let st := Media.newStream (nextTrack src) n in
            {| mountedSource := mountedSource src;
               tracks := Media.grantTracks st (tracks src);
               nextTrack := nextTrack src + n;
               srcObject := match srcObject src with
                            | Some _ => Some (Some st)
                            | None => None
                            end;
               runs := setNth i {| stream := Some st; waiting := false |} (runs src);
               error := error src |}
          else src
      | None => src
      end
  | Denied i =>
      match nth_error (runs src) i with
      | Some r =>
          if waiting r then
            {| mountedSource := mountedSource src;
               tracks := tracks src; nextTrack := nextTrack src;
               srcObject := srcObject src;
               runs := setNth i {| stream := None; waiting := false |} (runs src);
               error := if mountedSource src
                        then Some "Failed to access camera. Please make sure you have granted camera permissions."
                        else error src |}
          else src
      | None => src
      end
  | UnmountSource =>
      if mountedSource src then
        {| mountedSource := false;
           tracks := cleanupLast src; nextTrack := nextTrack src;
           srcObject := None; runs := runs src; error := error src |}
      else src
  end.

Definition sourceRun (trace : list SourceEvent) (src : Source) : Source :=
  fold_left (fun st e => sourceStep e st) trace src.

End Camera.

(** ** HTTP requests as the call sites build them *)

(** Values of the JSON request bodies. *)
Inductive JValue : Type :=
| JString (s : string)
| JStrings (l : list string).

(** One [fetch] / [axios.post] call.  [timeout] is the time limit the call
    site configures (an axios [timeout] option, or an abort signal handed to
    [fetch]); [None] stands for a call site that configures none. *)
Record Request : Type := {
  url : string;
  body : list (string * JValue);
  timeout : option N
}.

(** [a || b] on an optional string. *)
Definition orDefault (a : option string) (b : string) : string :=
  match a with
  | Some s => if String.eqb s "" then b else s
  | None => b
  end.

Fixpoint lookupKey (k : string) (o : list (string * JValue)) : option JValue :=
  match o with
  | [] => None
  | (k', v) :: o' => if String.eqb k k' then Some v else lookupKey k o'
  end.

(** ** pages/GroupAnalysis.tsx *)

Module GroupAnalysis.

Inductive Mode : Type := analysis | verification.

Record Face : Type := {
  name : string;
  confidence : Q;
  box : Q * Q * Q * Q
}.

(** [type ResultResponse = AnalysisResponse | VerificationResponse]: the
    fields of both shapes, those of one shape only being optional. *)
Record ResultResponse : Type := {
  success : bool;
  faces : list Face;
  total_faces : option Z;
  identified_count : option Z;
  message : option string;
  verified : option bool;
  missing_users : option (list string);
  extra_users : option (list string)
}.

Record State : Type := {
  mode : Mode;
  imageBase64 : option string;
  results : option ResultResponse;
  isProcessing : bool;
  error : option string;
  requiredUsers : list string;
  registeredUsers : list string
}.

Definition setError (e : option string) (s : State) : State :=
  {| mode := mode s; imageBase64 := imageBase64 s; results := results s;
     isProcessing := isProcessing s; error := e;
     requiredUsers := requiredUsers s; registeredUsers := registeredUsers s |}.

Definition setResults (r : option ResultResponse) (s : State) : State :=
  {| mode := mode s; imageBase64 := imageBase64 s; results := r;
     isProcessing := isProcessing s; error := error s;
     requiredUsers := requiredUsers s; registeredUsers := registeredUsers s |}.

Definition setIsProcessing (b : bool) (s : State) : State :=
  {| mode := mode s; imageBase64 := imageBase64 s; results := results s;
     isProcessing := b; error := error s;
     requiredUsers := requiredUsers s; registeredUsers := registeredUsers s |}.

Definition setMode (m : Mode) (s : State) : State :=
  {| mode := m; imageBase64 := imageBase64 s; results := results s;
     isProcessing := isProcessing s; error := error s;
     requiredUsers := requiredUsers s; registeredUsers := registeredUsers s |}.

Definition setRequiredUsers (us : list string) (s : State) : State :=
  {| mode := mode s; imageBase64 := imageBase64 s; results := results s;
     isProcessing := isProcessing s; error := error s;
     requiredUsers := us; registeredUsers := registeredUsers s |}.

Definition setImageBase64 (i : option string) (s : State) : State :=
  {| mode := mode s; imageBase64 := i; results := results s;
     isProcessing := isProcessing s; error := error s;
     requiredUsers := requiredUsers s; registeredUsers := registeredUsers s |}.

(** The [onChange] handler of a required-user check box. *)
Definition toggleUser (user : string) (checked : bool) (s : State) : State :=
  if checked then setRequiredUsers (requiredUsers s ++ [user])%list s
  else setRequiredUsers
         (List.filter (fun u => negb (String.eqb u user)) (requiredUsers s)) s.

Definition endpoint (m : Mode) : string :=
  match m with
  | analysis => "http://localhost:5001/api/analyze-group"
  | verification => "http://localhost:5001/api/verify-group"
  end.

(** [requestData]: the image, and [required_users] in verification mode. *)
Definition requestData (m : Mode) (image : string) (users : list string)
  : list (string * JValue) :=
  ("image", JString image)
  :: match m with
     | verification => [("required_users", JStrings users)]
     | analysis => []
     end.

(** [handleSubmit] up to its [await]: the next state and the request it
    posts, if any. *)
Definition handleSubmit (s : State) : State * option Request :=
  if negb (JS.truthy (imageBase64 s)) then
    (setError (Some "Please select an image or capture one from the camera") s, None)
  else
    match mode s, requiredUsers s with
    | verification, [] =>
        (setError (Some "Please select at least one required user for verification") s,
         None)
    | _, _ =>
        let s' := setResults None (setError None (setIsProcessing true s)) in
        let image := match imageBase64 s with Some i => i | None => "" end in
        (s', Some {| url := endpoint (mode s);
                     body := requestData (mode s) image (requiredUsers s);
                     timeout := None |})
    end.

(** How the posted request settles: a 2xx response with its body, an
    error response with the [message] of its body, no response at all, or
    a failure while setting the request up. *)
Inductive Outcome : Type :=
| Responded (data : ResultResponse)
| ErrorStatus (msg : option string)
| NoResponse
| SetupFailed.

(** [handleSubmit] after its [await]; [m] is the mode the handler was
    started in. *)
Definition handleSubmit_settled (m : Mode) (o : Outcome) (s : State) : State :=
  let s' :=
    match o with
    | Responded data =>
        if success data then setResults (Some data) s
        else setError
               (Some (orDefault (message data)
                        match m with
                        | analysis => "An error occurred during analysis"
                        | verification => "An error occurred during verification"
                        end)) s
    | ErrorStatus msg =>
        setError (Some (orDefault msg "An error occurred during group analysis")) s
    | NoResponse =>
        setError (Some "No response received from the server. Please check your network connection.") s
    | SetupFailed =>
        setError (Some "An unexpected error occurred. Please try again.") s
    end in
  setIsProcessing false s'.

(** The confidence text of a result row:
    [`${(face.confidence * 100).toFixed(2)}% confidence`]. *)
Definition confidenceText (face : Face) : string :=
  JS.toFixed (confidence face * 100) 2 ++ "% confidence".

End GroupAnalysis.

(** ** pages/Analysis.tsx *)

Module Analysis.

Inductive Mode : Type := register | identify.

(** [interface FaceResult]; it is the value handed to the camera overlay as
    a [Camera.DetectedFace]. *)
Record FaceResult : Type := {
  name : string;
  confidence : Q;
  box : Q * Q * Q * Q;
  distance : option Q
}.

Definition toDetectedFace (f : FaceResult) : Camera.DetectedFace :=
  {| Camera.name := name f; Camera.confidence := confidence f;
     Camera.box := box f |}.

(** [FaceRegistrationResponse | FaceIdentificationResponse]. *)
Record Response : Type := {
  success : bool;
  message : option string;
  results : option (list FaceResult);
  num_images_processed : option Z;
  total_faces : option Z;
  identified_count : option Z;
  faces : option (list FaceResult)
}.

Record State : Type := {
  isProcessing : bool;
  result : option Response;
  error : option string;
  successMsg : option string;
  selectedImages : list string;
  maxImagesReached : bool;
  detectedFaces : list FaceResult;
  nameField : string;
  mode : Mode;
  continuousProcessing : bool;
  isCameraActive : bool;
  imagePreview : option string
}.

Definition initial : State :=
  {| isProcessing := false; result := None; error := None; successMsg := None;
     selectedImages := []; maxImagesReached := false; detectedFaces := [];
     nameField := ""; mode := identify; continuousProcessing := false;
     isCameraActive := false; imagePreview := None |}.

Definition setError (e : option string) (s : State) : State :=
  {| isProcessing := isProcessing s; result := result s; error := e;
     successMsg := successMsg s; selectedImages := selectedImages s;
     maxImagesReached := maxImagesReached s; detectedFaces := detectedFaces s;
     nameField := nameField s; mode := mode s;
     continuousProcessing := continuousProcessing s;
     isCameraActive := isCameraActive s; imagePreview := imagePreview s |}.

Definition setIsProcessing (b : bool) (s : State) : State :=
  {| isProcessing := b; result := result s; error := error s;
     successMsg := successMsg s; selectedImages := selectedImages s;
     maxImagesReached := maxImagesReached s; detectedFaces := detectedFaces s;
     nameField := nameField s; mode := mode s;
     continuousProcessing := continuousProcessing s;
     isCameraActive := isCameraActive s; imagePreview := imagePreview s |}.

Definition setResult (r : option Response) (s : State) : State :=
  {| isProcessing := isProcessing s; result := r; error := error s;
     successMsg := successMsg s; selectedImages := selectedImages s;
     maxImagesReached := maxImagesReached s; detectedFaces := detectedFaces s;
     nameField := nameField s; mode := mode s;
     continuousProcessing := continuousProcessing s;
     isCameraActive := isCameraActive s; imagePreview := imagePreview s |}.

Definition setSuccess (m : option string) (s : State) : State :=
  {| isProcessing := isProcessing s; result := result s; error := error s;
     successMsg := m; selectedImages := selectedImages s;
     maxImagesReached := maxImagesReached s; detectedFaces := detectedFaces s;
     nameField := nameField s; mode := mode s;
     continuousProcessing := continuousProcessing s;
     isCameraActive := isCameraActive s; imagePreview := imagePreview s |}.

Definition setSelectedImages (l : list string) (s : State) : State :=
  {| isProcessing := isProcessing s; result := result s; error := error s;
     successMsg := successMsg s; selectedImages := l;
     maxImagesReached := maxImagesReached s; detectedFaces := detectedFaces s;
     nameField := nameField s; mode := mode s;
     continuousProcessing := continuousProcessing s;
     isCameraActive := isCameraActive s; imagePreview := imagePreview s |}.

Definition setMaxImagesReached (b : bool) (s : State) : State :=
  {| isProcessing := isProcessing s; result := result s; error := error s;
     successMsg := successMsg s; selectedImages := selectedImages s;
     maxImagesReached := b; detectedFaces := detectedFaces s;
     nameField := nameField s; mode := mode s;
     continuousProcessing := continuousProcessing s;
     isCameraActive := isCameraActive s; imagePreview := imagePreview s |}.

Definition setDetectedFaces (l : list FaceResult) (s : State) : State :=
  {| isProcessing := isProcessing s; result := result s; error := error s;
     successMsg := successMsg s; selectedImages := selectedImages s;
     maxImagesReached := maxImagesReached s; detectedFaces := l;
     nameField := nameField s; mode := mode s;
     continuousProcessing := continuousProcessing s;
     isCameraActive := isCameraActive s; imagePreview := imagePreview s |}.

Definition setName (n : string) (s : State) : State :=
  {| isProcessing := isProcessing s; result := result s; error := error s;
     successMsg := successMsg s; selectedImages := selectedImages s;
     maxImagesReached := maxImagesReached s; detectedFaces := detectedFaces s;
     nameField := n; mode := mode s;
     continuousProcessing := continuousProcessing s;
     isCameraActive := isCameraActive s; imagePreview := imagePreview s |}.

Definition setMode (m : Mode) (s : State) : State :=
  {| isProcessing := isProcessing s; result := result s; error := error s;
     successMsg := successMsg s; selectedImages := selectedImages s;
     maxImagesReached := maxImagesReached s; detectedFaces := detectedFaces s;
     nameField := nameField s; mode := m;
     continuousProcessing := continuousProcessing s;
     isCameraActive := isCameraActive s; imagePreview := imagePreview s |}.

Definition setImagePreview (p : option string) (s : State) : State :=
  {| isProcessing := isProcessing s; result := result s; error := error s;
     successMsg := successMsg s; selectedImages := selectedImages s;
     maxImagesReached := maxImagesReached s; detectedFaces := detectedFaces s;
     nameField := nameField s; mode := mode s;
     continuousProcessing := continuousProcessing s;
     isCameraActive := isCameraActive s; imagePreview := p |}.

(** The [forEach] of [handleImageUpload]: [selected] is the
    [selectedImages] of the render the handler belongs to, [newImages] the
    local array of the handler.  A file passing the test gets a reader; the
    loop never adds to [newImages]. *)
Fixpoint acceptFiles (selected newImages : list string) (fileArray : list string)
  : list string :=
  match fileArray with
  | [] => []
  | file :: rest =>
      if (length selected + length newImages <? 5)%nat
      then file :: acceptFiles selected newImages rest
      else acceptFiles selected newImages rest
  end.

(** [handleImageUpload]: the files whose readers are started.  A file is
    given by the data URL its reader produces. *)
Definition handleImageUpload (s : State) (files : option (list string)) : list string :=
  match files with
  | None => []
  | Some fileArray => acceptFiles (selectedImages s) [] fileArray
  end.

(** [reader.onloadend] of one accepted file; [snapshot] is the state of the
    render in which [handleImageUpload] ran (its [imagePreview] is the one
    the callback tests), [s] the state at the time the read completes. *)
Definition onloadend (snapshot : State) (base64Image : string) (s : State) : State :=
  let updatedImages := (selectedImages s ++ [base64Image])%list in
  let s1 := setMaxImagesReached (5 <=? length updatedImages)%nat
              (setSelectedImages updatedImages s) in
  if negb (JS.truthy (imagePreview snapshot))
  then setImagePreview (Some base64Image) s1
  else s1.

(** [prevImages.filter((_, index) => index !== indexToRemove)]. *)
Fixpoint removeAt {A : Type} (i : nat) (l : list A) : list A :=
  match l, i with
  | [], _ => []
  | _ :: l', O => l'
  | x :: l', S i' => x :: removeAt i' l'
  end.

(** A [FileReader] that [handleImageUpload] has started and whose read
    has not ended: the state of the render the handler belonged to, and the
    data URL the read produces. *)
Record Reader : Type := {
  startedIn : State;
  dataURL : string
}.

(** The readers one call of [handleImageUpload] starts. *)
Definition startReaders (s : State) (files : option (list string)) : list Reader :=
  map (fun file => {| startedIn := s; dataURL := file |}) (handleImageUpload s files).

(** The read at position [i] of those pending ends: its [onloadend] runs
    on the state of that time.  Reads end one at a time, in any order. *)
Definition readEnd (i : nat) (pending : list Reader) (s : State)
  : list Reader * State :=
  match nth_error pending i with
  | Some r => (removeAt i pending, onloadend (startedIn r) (dataURL r) s)
  | None => (pending, s)
  end.

(** Pending reads end with no other event in between: each entry of
    [order] names the read that ends next by its position among those
    still pending, taken modulo their number (so that every list of
    positions is an order). *)
Fixpoint readAll (order : list nat) (pending : list Reader) (s : State) : State :=
  match order, pending with
  | i :: order', _ :: _ =>
      let (pending', s') := readEnd (i mod length pending) pending s in
      readAll order' pending' s'
  | _, _ => s
  end.

(** [removeImage]. *)
Definition removeImage (indexToRemove : nat) (s : State) : State :=
  let s1 := setMaxImagesReached false
              (setSelectedImages (removeAt indexToRemove (selectedImages s)) s) in
  match nth_error (selectedImages s) indexToRemove, imagePreview s with
  | Some img, Some p =>
      if String.eqb img p
      then setImagePreview
             (if (1 <? length (selectedImages s))%nat
              then nth_error (selectedImages s) 0 else None) s1
      else s1
  | _, _ => s1
  end.

(** [handleCameraCapture]. *)
Definition handleCameraCapture (imageData : string) (s : State) : State :=
  setError None (setSelectedImages [imageData] (setImagePreview (Some imageData) s)).

(** [handleRegisterFace] up to its [await]. *)
Definition handleRegisterFace (s : State) : State * option Request :=
  if String.eqb (JS.trim (nameField s)) "" then
    (setError (Some "Please enter a name") s, None)
  else
    match selectedImages s with
    | [] => (setError (Some "Please upload at least one image") s, None)
    | _ =>
        (setSuccess None (setError None (setIsProcessing true s)),
         Some {| url := "http://localhost:5001/api/register-face";
                 body := [("name", JString (JS.trim (nameField s)));
                          ("images", JStrings (selectedImages s))];
                 timeout := None |})
    end.

(** [handleIdentifyFace] up to its [await]. *)
Definition handleIdentifyFace (s : State) : State * option Request :=
  if negb (JS.truthy (imagePreview s)) then
    (setError (Some "Please select an image or capture one from camera") s, None)
  else
    let image := match imagePreview s with Some i => i | None => "" end in
    (setResult None (setError None (setIsProcessing true s)),
     Some {| url := "http://localhost:5001/api/identify-face";
             body := [("image", JString image)];
             timeout := None |}).

(** [handleIdentifyFace] after its [await]: [Some data] is a 2xx response,
    [None] a rejected request. *)
Definition handleIdentifyFace_settled (o : option Response) (s : State) : State :=
  let s' :=
    match o with
    | Some data =>
        if success data then
          let s1 := setResult (Some data) s in
          match results data with
          | Some rs => setDetectedFaces rs s1
          | None => s1
          end
        else setError (Some (orDefault (message data) "Identification failed")) s
    | None => setError (Some "Failed to identify face. Please try again.") s
    end in
  setIsProcessing false s'.

(** The form's [handleSubmit]. *)
Definition handleSubmit (s : State) : State * option Request :=
  match selectedImages s with
  | [] =>
      if negb (JS.truthy (imagePreview s)) then
        (setError (Some "Please select an image or capture one from camera") s, None)
      else match mode s with
           | register => handleRegisterFace s
           | identify => handleIdentifyFace s
           end
  | _ => match mode s with
         | register => handleRegisterFace s
         | identify => handleIdentifyFace s
         end
  end.

(** The line under a face's name in [renderResults]:
    [Confidence: {face.confidence.toFixed(2)}%] for a named face. *)
Definition confidenceLine (face : FaceResult) : string :=
  if negb (String.eqb (name face) "Unknown")
  then "Confidence: " ++ JS.toFixed (confidence face) 2 ++ "%"
  else "No match found".

(** The confidence lines [renderResults] shows: those of [result.faces],
    then those of [result.results]. *)
Definition renderResults (s : State) : list string :=
  match result s with
  | None => []
  | Some r =>
      (map confidenceLine (match faces r with Some l => l | None => [] end)
       ++ map confidenceLine (match results r with Some l => l | None => [] end))%list
  end.

Definition setIsCameraActive (b : bool) (s : State) : State :=
  {| isProcessing := isProcessing s; result := result s; error := error s;
     successMsg := successMsg s; selectedImages := selectedImages s;
     maxImagesReached := maxImagesReached s; detectedFaces := detectedFaces s;
     nameField := nameField s; mode := mode s;
     continuousProcessing := continuousProcessing s;
     isCameraActive := b; imagePreview := imagePreview s |}.

(** The [Use Camera] button: [setInputMethod('camera')] and
    [setIsCameraActive(true)].  The two cells change together ([Upload
    Image] resets both), so [isCameraActive] also tells that the input
    method is the camera. *)
Definition useCamera (s : State) : State := setIsCameraActive true s.

(** The drawing calls of one animation frame of the
    [<Camera isActive={isCameraActive} detectedFaces={detectedFaces} />]
    the page renders in camera mode. *)
Definition cameraOverlay (canvas : Camera.Canvas) (video : Camera.Video) (s : State)
  : list DrawOp :=
  if isCameraActive s
  then Camera.drawDetections (Some canvas) (Some video)
         (map toDetectedFace (detectedFaces s))
  else [].

End Analysis.

(** ** pages/FaceRegistration.tsx *)

Module FaceRegistration.

Record State : Type := {
  isProcessing : bool;
  nameField : string;
  message : string;
  selectedImages : list string;
  maxImagesReached : bool;
  error : option string
}.

Definition initial : State :=
  {| isProcessing := false; nameField := ""; message := "";
     selectedImages := []; maxImagesReached := false; error := None |}.

(** [handleImageUpload]: the same loop as on the analysis page. *)
Definition handleImageUpload (s : State) (files : option (list string)) : list string :=
  match files with
  | None => []
  | Some fileArray => Analysis.acceptFiles (selectedImages s) [] fileArray
  end.

(** [reader.onloadend] of one accepted file. *)
Definition onloadend (base64Image : string) (s : State) : State :=
  let updatedImages := (selectedImages s ++ [base64Image])%list in
  {| isProcessing := isProcessing s; nameField := nameField s;
     message := message s; selectedImages := updatedImages;
     maxImagesReached := (5 <=? length updatedImages)%nat; error := error s |}.

(** The read at position [i] of those pending ends ([pending] holds the
    data URLs of the reads that [handleImageUpload] has started): its
    [onloadend] runs on the state of that time.  Reads end one at a time,
    in any order. *)
Definition readEnd (i : nat) (pending : list string) (s : State)
  : list string * State :=
  match nth_error pending i with
  | Some base64Image => (Analysis.removeAt i pending, onloadend base64Image s)
  | None => (pending, s)
  end.

(** Pending reads end with no other event in between, in the order given
    as on the analysis page. *)
Fixpoint readAll (order : list nat) (pending : list string) (s : State) : State :=
  match order, pending with
  | i :: order', _ :: _ =>
      let (pending', s') := readEnd (i mod length pending) pending s in
      readAll order' pending' s'
  | _, _ => s
  end.

(** [removeImage]. *)
Definition removeImage (indexToRemove : nat) (s : State) : State :=
  {| isProcessing := isProcessing s; nameField := nameField s;
     message := message s;
     selectedImages := Analysis.removeAt indexToRemove (selectedImages s);
     maxImagesReached := false; error := error s |}.

Definition setError (e : option string) (s : State) : State :=
  {| isProcessing := isProcessing s; nameField := nameField s;
     message := message s; selectedImages := selectedImages s;
     maxImagesReached := maxImagesReached s; error := e |}.

(** [handleSubmit] up to its [await]. *)
Definition handleSubmit (s : State) : State * option Request :=
  match selectedImages s with
  | [] => (setError (Some "Please upload at least one image") s, None)
  | _ =>
      if String.eqb (nameField s) "" then
        (setError (Some "Please enter a name") s, None)
      else
        ({| isProcessing := true; nameField := nameField s;
            message := message s; selectedImages := selectedImages s;
            maxImagesReached := maxImagesReached s; error := error s |},
         Some {| url := "http://localhost:5001/api/register-face";
                 body := [("images", JStrings (selectedImages s));
                          ("name", JString (nameField s))];
                 timeout := None |})
  end.

End FaceRegistration.

(** ** pages/CameraAnalysis.tsx *)

Module CameraAnalysis.

Import Media.

Record Video : Type := {
  videoWidth : N;
  videoHeight : N;
  pixels : string;
  srcObject : option MediaStream
}.

(** The overlay canvas; [drawn] lists what is on its bitmap, oldest first. *)
Record Canvas : Type := {
  width : N;
  height : N;
  ctx2d : bool;
  drawn : list DrawOp
}.

(** One entry of [data.faces] and the parsed response body ([any] in the
    source): the fields the component reads, absent ones being [None]. *)
Record Face : Type := {
  name : option string;
  userId : option string;
  box : option (Q * Q * Q * Q)
}.

Record Data : Type := {
  success : option bool;
  message : option string;
  faces : option (list Face);
  count : option Z;
  authenticated : option bool;
  missingUsers : option (list string)
}.

(** What a [processFrame] closure captures from the render that created
    it: the values of the effect's dependencies
    [[type, requiredUsers, isProcessing]]; [c_usersRef] is the identity of
    the [requiredUsers] array, which is what React compares. *)
Record Closure : Type := {
  c_type : option string;
  c_requiredUsers : list string;
  c_usersRef : nat;
  c_isProcessing : bool
}.

(** An outstanding [fetch]: the request, the closure whose [processFrame]
    awaits it, and the id of the interval whose tick issued it. *)
Record Pending : Type := {
  request : Request;
  closure : Closure;
  issuedBy : nat
}.

(** The component: hardware tracks handed out by [getUserMedia] so far and
    the number of [getUserMedia] calls still waiting for the user; the two
    refs; the route parameter and the state cells; the armed interval (its
    id and the closure it calls) and the number of intervals created; the
    outstanding requests; the [console.error] lines; the number of frames
    encoded with [toDataURL]. *)
Record State : Type := {
  mounted : bool;
  tracks : gmap nat ReadyState;
  nextTrack : nat;
  cameraRequests : nat;
  videoRef : option Video;
  canvasRef : option Canvas;
  type_ : option string;
  requiredUsers : list string;
  usersRef : nat;
  isProcessing : bool;
  results : option Data;
  interval : option (nat * Closure);
  timers : nat;
  inflight : list Pending;
  console : list string;
  encoded : nat
}.

Definition with_mounted (v : bool) (s : State) : State :=
  {| mounted := v; tracks := tracks s; nextTrack := nextTrack s;
     cameraRequests := cameraRequests s; videoRef := videoRef s;
     canvasRef := canvasRef s; type_ := type_ s;
     requiredUsers := requiredUsers s; usersRef := usersRef s;
     isProcessing := isProcessing s; results := results s;
     interval := interval s; timers := timers s; inflight := inflight s;
     console := console s; encoded := encoded s |}.

Definition with_tracks (v : gmap nat ReadyState) (s : State) : State :=
  {| mounted := mounted s; tracks := v; nextTrack := nextTrack s;
     cameraRequests := cameraRequests s; videoRef := videoRef s;
     canvasRef := canvasRef s; type_ := type_ s;
     requiredUsers := requiredUsers s; usersRef := usersRef s;
     isProcessing := isProcessing s; results := results s;
     interval := interval s; timers := timers s; inflight := inflight s;
     console := console s; encoded := encoded s |}.

Definition with_nextTrack (v : nat) (s : State) : State :=
  {| mounted := mounted s; tracks := tracks s; nextTrack := v;
     cameraRequests := cameraRequests s; videoRef := videoRef s;
     canvasRef := canvasRef s; type_ := type_ s;
     requiredUsers := requiredUsers s; usersRef := usersRef s;
     isProcessing := isProcessing s; results := results s;
     interval := interval s; timers := timers s; inflight := inflight s;
     console := console s; encoded := encoded s |}.

Definition with_cameraRequests (v : nat) (s : State) : State :=
  {| mounted := mounted s; tracks := tracks s; nextTrack := nextTrack s;
     cameraRequests := v; videoRef := videoRef s; canvasRef := canvasRef s;
     type_ := type_ s; requiredUsers := requiredUsers s;
     usersRef := usersRef s; isProcessing := isProcessing s;
     results := results s; interval := interval s; timers := timers s;
     inflight := inflight s; console := console s; encoded := encoded s |}.

Definition with_videoRef (v : option Video) (s : State) : State :=
  {| mounted := mounted s; tracks := tracks s; nextTrack := nextTrack s;
     cameraRequests := cameraRequests s; videoRef := v;
     canvasRef := canvasRef s; type_ := type_ s;
     requiredUsers := requiredUsers s; usersRef := usersRef s;
     isProcessing := isProcessing s; results := results s;
     interval := interval s; timers := timers s; inflight := inflight s;
     console := console s; encoded := encoded s |}.

Definition with_canvasRef (v : option Canvas) (s : State) : State :=
  {| mounted := mounted s; tracks := tracks s; nextTrack := nextTrack s;
     cameraRequests := cameraRequests s; videoRef := videoRef s;
     canvasRef := v; type_ := type_ s; requiredUsers := requiredUsers s;
     usersRef := usersRef s; isProcessing := isProcessing s;
     results := results s; interval := interval s; timers := timers s;
     inflight := inflight s; console := console s; encoded := encoded s |}.

Definition with_type (v : option string) (s : State) : State :=
  {| mounted := mounted s; tracks := tracks s; nextTrack := nextTrack s;
     cameraRequests := cameraRequests s; videoRef := videoRef s;
     canvasRef := canvasRef s; type_ := v;
     requiredUsers := requiredUsers s; usersRef := usersRef s;
     isProcessing := isProcessing s; results := results s;
     interval := interval s; timers := timers s; inflight := inflight s;
     console := console s; encoded := encoded s |}.

Definition with_requiredUsers (v : list string) (s : State) : State :=
  {| mounted := mounted s; tracks := tracks s; nextTrack := nextTrack s;
     cameraRequests := cameraRequests s; videoRef := videoRef s;
     canvasRef := canvasRef s; type_ := type_ s; requiredUsers := v;
     usersRef := usersRef s; isProcessing := isProcessing s;
     results := results s; interval := interval s; timers := timers s;
     inflight := inflight s; console := console s; encoded := encoded s |}.

Definition with_usersRef (v : nat) (s : State) : State :=
  {| mounted := mounted s; tracks := tracks s; nextTrack := nextTrack s;
     cameraRequests := cameraRequests s; videoRef := videoRef s;
     canvasRef := canvasRef s; type_ := type_ s;
     requiredUsers := requiredUsers s; usersRef := v;
     isProcessing := isProcessing s; results := results s;
     interval := interval s; timers := timers s; inflight := inflight s;
     console := console s; encoded := encoded s |}.

Definition with_isProcessing (v : bool) (s : State) : State :=
  {| mounted := mounted s; tracks := tracks s; nextTrack := nextTrack s;
     cameraRequests := cameraRequests s; videoRef := videoRef s;
     canvasRef := canvasRef s; type_ := type_ s;
     requiredUsers := requiredUsers s; usersRef := usersRef s;
     isProcessing := v; results := results s; interval := interval s;
     timers := timers s; inflight := inflight s; console := console s;
     encoded := encoded s |}.

Definition with_results (v : option Data) (s : State) : State :=
  {| mounted := mounted s; tracks := tracks s; nextTrack := nextTrack s;
     cameraRequests := cameraRequests s; videoRef := videoRef s;
     canvasRef := canvasRef s; type_ := type_ s;
     requiredUsers := requiredUsers s; usersRef := usersRef s;
     isProcessing := isProcessing s; results := v; interval := interval s;
     timers := timers s; inflight := inflight s; console := console s;
     encoded := encoded s |}.

Definition with_interval (v : option (nat * Closure)) (s : State) : State :=
  {| mounted := mounted s; tracks := tracks s; nextTrack := nextTrack s;
     cameraRequests := cameraRequests s; videoRef := videoRef s;
     canvasRef := canvasRef s; type_ := type_ s;
     requiredUsers := requiredUsers s; usersRef := usersRef s;
     isProcessing := isProcessing s; results := results s; interval := v;
     timers := timers s; inflight := inflight s; console := console s;
     encoded := encoded s |}.

Definition with_timers (v : nat) (s : State) : State :=
  {| mounted := mounted s; tracks := tracks s; nextTrack := nextTrack s;
     cameraRequests := cameraRequests s; videoRef := videoRef s;
     canvasRef := canvasRef s; type_ := type_ s;
     requiredUsers := requiredUsers s; usersRef := usersRef s;
     isProcessing := isProcessing s; results := results s;
     interval := interval s; timers := v; inflight := inflight s;
     console := console s; encoded := encoded s |}.

Definition with_inflight (v : list Pending) (s : State) : State :=
  {| mounted := mounted s; tracks := tracks s; nextTrack := nextTrack s;
     cameraRequests := cameraRequests s; videoRef := videoRef s;
     canvasRef := canvasRef s; type_ := type_ s;
     requiredUsers := requiredUsers s; usersRef := usersRef s;
     isProcessing := isProcessing s; results := results s;
     interval := interval s; timers := timers s; inflight := v;
     console := console s; encoded := encoded s |}.

Definition with_console (v : list string) (s : State) : State :=
  {| mounted := mounted s; tracks := tracks s; nextTrack := nextTrack s;
     cameraRequests := cameraRequests s; videoRef := videoRef s;
     canvasRef := canvasRef s; type_ := type_ s;
     requiredUsers := requiredUsers s; usersRef := usersRef s;
     isProcessing := isProcessing s; results := results s;
     interval := interval s; timers := timers s; inflight := inflight s;
     console := v; encoded := encoded s |}.

Definition with_encoded (v : nat) (s : State) : State :=
  {| mounted := mounted s; tracks := tracks s; nextTrack := nextTrack s;
     cameraRequests := cameraRequests s; videoRef := videoRef s;
     canvasRef := canvasRef s; type_ := type_ s;
     requiredUsers := requiredUsers s; usersRef := usersRef s;
     isProcessing := isProcessing s; results := results s;
     interval := interval s; timers := timers s; inflight := inflight s;
     console := console s; encoded := v |}.

(** React drops state updates of an unmounted component. *)
Definition setIsProcessing (b : bool) (s : State) : State :=
  if mounted s then with_isProcessing b s else s.

Definition setResults (d : Data) (s : State) : State :=
  if mounted s then with_results (Some d) s else s.

Definition consoleError (line : string) (s : State) : State :=
  with_console (console s ++ [line])%list s.

(** *** Camera *)

(** [stopCamera]. *)
Definition stopCamera (s : State) : State :=
  match videoRef s with
  | Some video =>
      match srcObject video with
      | Some stream => with_tracks (stopTracks stream (tracks s)) s
      | None => s
      end
  | None => s
  end.

(** [startCamera] after its [await], when the user grants access:
    [getUserMedia] hands out a stream of [n] live tracks, which is attached
    to the video element if [videoRef.current] is set. *)
Definition startCamera_granted (n : nat) (s : State) : State :=
  let stream := newStream (nextTrack s) n in
  let t := grantTracks stream (tracks s) in
  let s1 := with_nextTrack (nextTrack s + n)
              (with_cameraRequests (pred (cameraRequests s)) (with_tracks t s)) in
  match videoRef s1 with
  | Some video =>
      with_videoRef (Some {| videoWidth := videoWidth video;
                             videoHeight := videoHeight video;
                             pixels := pixels video;
                             srcObject := Some stream |}) s1
  | None => s1
  end.

(** [startCamera] after its [await], when access is refused. *)
Definition startCamera_denied (s : State) : State :=
  consoleError "Error accessing camera:"
    (with_cameraRequests (pred (cameraRequests s)) s).

(** The tracks handed out so far that are still live. *)
Definition liveTracks (s : State) : list nat :=
  Media.liveTracks (tracks s) (nextTrack s).

(** *** Capture and processing *)

(** [captureFrame]: the state (the canvas is resized, which clears it, and
    the video frame is drawn on it) and the returned data URL or [null]. *)
Definition captureFrame (s : State) : State * option string :=
  match videoRef s, canvasRef s with
  | Some video, Some canvas =>
      if ctx2d canvas then
        let canvas' := {| width := videoWidth video;
                          height := videoHeight video;
                          ctx2d := true;
                          drawn := [DrawImage 0 0 None] |} in
        (with_encoded (S (encoded s)) (with_canvasRef (Some canvas') s),
         Some (JS.toDataURL (width canvas') (height canvas') (pixels video)))
      else (s, None)
  | _, _ => (s, None)
  end.

(** The [switch (type)] of [processFrame]: the endpoint and whether
    [requiredUsers] is added to the payload; [None] is the [default] branch,
    which throws. *)
Definition route (type : option string) : option (string * bool) :=
  match type with
  | Some t =>
      if String.eqb t "face" then Some ("/api/identify-face", false)
      else if String.eqb t "group" then Some ("/api/group-authentication", true)
      else if String.eqb t "crowd" then Some ("/api/crowd-count", false)
      else None
  | None => None
  end.

(** The [fetch] of [processFrame]: method, headers and body only. *)
Definition frameRequest (endpoint : string) (withUsers : bool) (frame : string)
    (users : list string) : Request :=
  {| url := "http://localhost:5001" ++ endpoint;
     body := ("image", JString frame)
             :: (if withUsers then [("requiredUsers", JStrings users)] else []);
     timeout := None |}.

(** [processFrame] up to its [await], called by interval [timer] with the
    closure [c]. *)
Definition processFrame (c : Closure) (timer : nat) (s : State) : State :=
  let (s1, frame) := captureFrame s in
  if negb (JS.truthy frame) || c_isProcessing c then s1
  else
    match route (c_type c), frame with
    | Some (endpoint, withUsers), Some image =>
        let p := {| request := frameRequest endpoint withUsers image
                                 (c_requiredUsers c);
                    closure := c;
                    issuedBy := timer |} in
        with_inflight (inflight s1 ++ [p])%list (setIsProcessing true s1)
    | _, _ =>
        setIsProcessing false
          (consoleError "Error processing frame: Invalid analysis type"
             (setIsProcessing true s1))
    end.

(** How a [fetch] settles: it rejects (no response), or it resolves with a
    response whose [ok] flag and JSON body are given ([None]: the body is
    not JSON). *)
Inductive Outcome : Type :=
| Rejected
| Response (ok : bool) (json : option Data).

(** One iteration of [data.faces.forEach]: the two drawing calls, or
    [None] when reading [box[0]] throws. *)
Definition drawFace (face : Face) : option (list DrawOp) :=
  match box face with
  | Some (x, y, w, h) =>
      let style := if JS.truthy (userId face) then "#00ff00" else "#ff0000" in
      Some [ StrokeRect style x y w h;
             FillText style "16px Arial"
               (orDefault (name face) "Unknown") x (y - 5) ]
  | None => None
  end.

(** The [forEach] loop: the calls made, and whether it threw. *)
Fixpoint drawFaces (l : list Face) : list DrawOp * bool :=
  match l with
  | [] => ([], false)
  | face :: rest =>
      match drawFace face with
      | Some ops => let (ops', threw) := drawFaces rest in ((ops ++ ops')%list, threw)
      | None => ([], true)
      end
  end.

(** The text of a count, [`Count: ${data.count}`]. *)
Definition countText (n : Z) : string :=
  "Count: " ++ (if (n <? 0)%Z then "-" else "") ++ JS.digits (Z.abs n).

(** The "Draw results on canvas" block; [type] is the closure's. *)
Definition drawResults (type : option string) (data : Data) (s : State)
  : State * bool :=
  match canvasRef s with
  | Some canvas =>
      if ctx2d canvas then
        let (ops, threw) :=
          match faces data with
          | Some l => drawFaces l
          | None => ([], false)
          end in
        let ops' :=
          if threw then ops
          else match type, count data with
               | Some t, Some n =>
                   if String.eqb t "crowd" && negb (n =? 0)%Z
                   then (ops ++ [FillText "#00ff00" "24px Arial" (countText n) 10 30])%list
                   else ops
               | _, _ => ops
               end in
        (with_canvasRef (Some {| width := width canvas; height := height canvas;
                                 ctx2d := true;
                                 drawn := (drawn canvas ++ ops')%list |}) s,
         threw)
      else (s, false)
  | None => (s, false)
  end.

(** [processFrame] after its [await], for the request [p]. *)
Definition processFrame_settled (p : Pending) (o : Outcome) (s : State) : State :=
  let failed (s : State) := consoleError "Error processing frame:" s in
  let s' :=
    match o with
    | Rejected => failed s
    | Response false _ => failed s
    | Response true None => failed s
    | Response true (Some data) =>
        let (s2, threw) := drawResults (c_type (closure p)) data (setResults data s) in
        if threw then failed s2 else s2
    end in
  setIsProcessing false s'.

(** *** The interval effect *)

(** The closure a render creates. *)
Definition closureOf (s : State) : Closure :=
  {| c_type := type_ s; c_requiredUsers := requiredUsers s;
     c_usersRef := usersRef s; c_isProcessing := isProcessing s |}.

Definition eqType (a b : option string) : bool :=
  match a, b with
  | Some x, Some y => String.eqb x y
  | None, None => true
  | _, _ => false
  end.

(** Whether a dependency of the effect differs from the one the armed
    closure was created with. *)
Definition depsChanged (c : Closure) (s : State) : bool :=
  negb (eqType (c_type c) (type_ s))
  || negb (c_usersRef c =? usersRef s)%nat
  || negb (Bool.eqb (c_isProcessing c) (isProcessing s)).

(** A committed render: when a dependency changed, the effect's clean-up
    clears the armed interval and the effect arms a new one with the
    closure of this render. *)
Definition commit (s : State) : State :=
  if mounted s then
    match interval s with
    | Some (_, c) =>
        if depsChanged c s
        then with_timers (S (timers s))
               (with_interval (Some (timers s, closureOf s)) s)
        else s
    | None => s
    end
  else s.

(** Unmounting: the clean-ups [stopCamera()] and [clearInterval(interval)]
    run and the refs are cleared.  [detachedFirst] tells whether the refs
    are already cleared when the clean-ups run (passive clean-ups of React
    17 and later) or only afterwards. *)
Definition unmount (detachedFirst : bool) (s : State) : State :=
  let s1 := if detachedFirst then s else stopCamera s in
  with_mounted false
    (with_interval None (with_canvasRef None (with_videoRef None s1))).

(** *** Events *)

Inductive Event : Type :=
| Tick
| Commit
| Settle (i : nat) (o : Outcome)
| Navigate (type : option string)
| SetRequiredUsers (users : list string)
| VideoFrame (w h : N) (px : string)
| CameraGranted (n : nat)
| CameraDenied
| Unmount (detachedFirst : bool).

Fixpoint removeNth {A : Type} (i : nat) (l : list A) : list A :=
  match l, i with
  | [], _ => []
  | _ :: l', O => l'
  | x :: l', S i' => x :: removeNth i' l'
  end.

Definition step (e : Event) (s : State) : State :=
  match e with
  | Tick =>
      match interval s with
      | Some (timer, c) => processFrame c timer s
      | None => s
      end
  | Commit => commit s
  | Settle i o =>
      match nth_error (inflight s) i with
      | Some p => processFrame_settled p o (with_inflight (removeNth i (inflight s)) s)
      | None => s
      end
  | Navigate type => if mounted s then with_type type s else s
  | SetRequiredUsers users =>
      if mounted s
      then with_usersRef (S (usersRef s)) (with_requiredUsers users s)
      else s
  | VideoFrame w h px =>
      match videoRef s with
      | Some video =>
          with_videoRef (Some {| videoWidth := w; videoHeight := h; pixels := px;
                                 srcObject := srcObject video |}) s
      | None => s
      end
  | CameraGranted n =>
      match cameraRequests s with
      | O => s
      | S _ => startCamera_granted n s
      end
  | CameraDenied =>
      match cameraRequests s with
      | O => s
      | S _ => startCamera_denied s
      end
  | Unmount detachedFirst => if mounted s then unmount detachedFirst s else s
  end.

Definition run (trace : list Event) (s : State) : State :=
  fold_left (fun st e => step e st) trace s.

(** The component after its first committed render: both refs attached
    (a video that has no frame yet, a canvas of the default size),
    [startCamera()] waiting for [getUserMedia], the interval armed. *)
Definition initial (type : option string) : State :=
  {| mounted := true;
     tracks := ∅;
     nextTrack := 0;
     cameraRequests := 1;
     videoRef := Some {| videoWidth := 0; videoHeight := 0; pixels := "";
                         srcObject := None |};
     canvasRef := Some {| width := 300; height := 150; ctx2d := true;
                          drawn := [] |};
     type_ := type;
     requiredUsers := [];
     usersRef := 0;
     isProcessing := false;
     results := None;
     interval := Some (0%nat, {| c_type := type; c_requiredUsers := [];
                                 c_usersRef := 0; c_isProcessing := false |});
     timers := 1;
     inflight := [];
     console := [];
     encoded := 0 |}.

(** A trace in which every tick comes directly after a committed render. *)
Fixpoint committed (afterCommit : bool) (trace : list Event) : bool :=
  match trace with
  | [] => true
  | Tick :: rest => afterCommit && committed false rest
  | Commit :: rest => committed true rest
  | _ :: rest => committed false rest
  end.

(** A trace in which no request settles. *)
Definition unanswered (trace : list Event) : bool :=
  forallb (fun e => match e with Settle _ _ => false | _ => true end) trace.

(** The armed closure saw the current busy flag. *)
Definition fresh (s : State) : Prop :=
  match interval s with
  | Some (_, c) => c_isProcessing c = isProcessing s
  | None => True
  end.

(** At most one request is outstanding, the busy flag is set while one is,
    and only a mounted component has an interval. *)
Definition singleFlight (s : State) : Prop :=
  (length (inflight s) <= 1)%nat
  /\ (inflight s <> [] -> isProcessing s = true)
  /\ (interval s <> None -> mounted s = true).

(** The outcomes that make [processFrame] throw: no response, a response
    that is not [ok], a body that is not JSON. *)
Definition failure (o : Outcome) : bool :=
  match o with
  | Rejected => true
  | Response false _ => true
  | Response true None => true
  | Response true (Some _) => false
  end.

End CameraAnalysis.

(** ** Concrete states and responses used in the evaluations *)

Module Samples.

Import CameraAnalysis.

(** A response body naming one face. *)
Definition aliceSeen : Data :=
  {| success := Some true; message := None;
     faces := Some [{| name := Some "alice"; userId := Some "u1";
                       box := Some (1, 2, 3, 4)%Q |}];
     count := None; authenticated := None; missingUsers := None |}.

(** The live page for the route parameter [type], its video element showing
    a 640x480 picture. *)
Definition watching (type : string) : State :=
  step (VideoFrame 640 480 "AAAA") (initial (Some type)).

(** The request a tick of [watching "face"] is waiting for. *)
Definition faceRequest : Pending :=
  {| request := frameRequest "/api/identify-face" false
                  "data:image/jpeg;base64,AAAA" [];
     closure := {| c_type := Some "face"; c_requiredUsers := [];
                   c_usersRef := 0; c_isProcessing := false |};
     issuedBy := 0 |}.

(** The ticks of ten seconds, each after a committed render. *)
Definition tenSeconds : list Event := concat (repeat [Commit; Tick] 10).

(** A camera canvas and video of the same size. *)
Definition vgaCanvas : Camera.Canvas :=
  {| Camera.width := 640; Camera.height := 480; Camera.ctx2d := true |}.

Definition vgaVideo : Camera.Video :=
  {| Camera.videoWidth := 640; Camera.videoHeight := 480; Camera.pixels := "" |}.

(** The analysis page in camera mode after a capture, and after the
    identify-face response for that capture named one face with confidence
    [c]. *)
Definition captured : Analysis.State :=
  Analysis.handleCameraCapture "data:image/jpeg;base64,AAAA"
    (Analysis.useCamera Analysis.initial).

Definition identified (c : Q) : Analysis.State :=
  let face := {| Analysis.name := "alice"; Analysis.confidence := c;
                 Analysis.box := (0, 0, 64, 64)%Q; Analysis.distance := None |} in
  let data := {| Analysis.success := true; Analysis.message := None;
                 Analysis.results := Some [face];
                 Analysis.num_images_processed := None;
                 Analysis.total_faces := None;
                 Analysis.identified_count := None;
                 Analysis.faces := None |} in
  Analysis.handleIdentifyFace_settled (Some data)
    (fst (Analysis.handleIdentifyFace captured)).

(** Six image files of one selection. *)
Definition sixFiles : list string := ["f1"; "f2"; "f3"; "f4"; "f5"; "f6"].

End Samples.

(** ** The specification's formulas, for comparison with the code *)

Module Spec.

(** Box scaling as the specification words it: a box [(x, y, w, h)] of a
    native frame [(W, H)] shown on a display surface [(W', H')] is at
    [(x·W'/W, y·H'/H, w·W'/W, h·H'/H)]. *)
Definition scaledBox (W H W' H' : Q) (b : Q * Q * Q * Q) : Q * Q * Q * Q :=
  let '(x, y, w, h) := b in
  (x * W' / W, y * H' / H, w * W' / W, h * H' / H)%Q.

End Spec.

(** Equality of rectangles as numbers, component by component. *)
Definition rectEq (a b : Q * Q * Q * Q) : Prop :=
  let '(x1, y1, w1, h1) := a in
  let '(x2, y2, w2, h2) := b in
  (x1 == x2 /\ y1 == y2 /\ w1 == w2 /\ h1 == h2)%Q.

(** A box with all four numbers multiplied by one factor. *)
Definition scaleBy (k : Q) (b : Q * Q * Q * Q) : Q * Q * Q * Q :=
  let '(x, y, w, h) := b in (x * k, y * k, w * k, h * k)%Q.

(** ** Further code of the components *)

(** *** Strings *)

Module Text.

(** [String.prototype.split(sep)] for a one-character separator: the pieces
    between the separators, empty ones included; the empty string gives one
    empty piece. *)
Fixpoint split (sep : ascii) (s : string) : list string :=
  match s with
  | EmptyString => [EmptyString]
  | String c rest =>
      match split sep rest with
      | piece :: pieces =>
          if Ascii.eqb c sep then EmptyString :: piece :: pieces
          else String c piece :: pieces
      | [] => [String c EmptyString]
      end
  end.

(** [Array.prototype.join(sep)]. *)
Fixpoint join (sep : ascii) (pieces : list string) : string :=
  match pieces with
  | [] => EmptyString
  | [piece] => piece
  | piece :: rest => piece ++ String sep (join sep rest)
  end.

(** The number of occurrences of a character. *)
Fixpoint occurrences (c : ascii) (s : string) : nat :=
  match s with
  | EmptyString => 0
  | String d rest => (if Ascii.eqb d c then 1 else 0) + occurrences c rest
  end.

(** The text starts with a white-space code point. *)
Definition startsWithSpace (s : string) : bool :=
  negb (JS.whiteSpace s =? 0)%nat.

(** The text is one white-space code point. *)
Definition oneSpace (s : string) : bool :=
  negb (JS.whiteSpace s =? 0)%nat && (JS.whiteSpace s =? String.length s)%nat.

(** The text ends with a white-space code point. *)
Fixpoint endsWithSpace (s : string) : bool :=
  match s with
  | EmptyString => false
  | String _ rest => oneSpace s || endsWithSpace rest
  end.

(** [Array.prototype.includes] on strings. *)
Definition includes (x : string) (l : list string) : bool :=
  existsb (String.eqb x) l.

(** The text of an integer in a template literal. *)
Definition ofZ (n : Z) : string :=
  (if (n <? 0)%Z then "-" else "") ++ JS.digits (Z.abs n).

End Text.

(** *** pages/GroupAnalysis.tsx: inputs, the page as a whole, the result views *)

Module GroupPage.

Import GroupAnalysis.

Definition setRegisteredUsers (us : list string) (s : State) : State :=
  {| mode := mode s; imageBase64 := imageBase64 s; results := results s;
     isProcessing := isProcessing s; error := error s;
     requiredUsers := requiredUsers s; registeredUsers := us |}.

(** The component as first rendered. *)
Definition initial : State :=
  {| mode := analysis; imageBase64 := None; results := None;
     isProcessing := false; error := None; requiredUsers := [];
     registeredUsers := [] |}.

(** [fetchUsers] after its [await]: [Some (success, users)] is the body of
    the response, [None] a rejected request (logged only). *)
Definition fetchUsers_settled (resp : option (bool * list string)) (s : State) : State :=
  match resp with
  | Some (true, users) => setRegisteredUsers users s
  | _ => s
  end.

(** [handleFileChange] once the reader has loaded the file ([None]: no file
    was chosen). *)
Definition handleFileChange (file : option string) (s : State) : State :=
  match file with
  | Some base64String => setError None (setImageBase64 (Some base64String) s)
  | None => s
  end.

(** [captureImage]; [webcam] is [webcamRef.current] with the result of its
    [getScreenshot()]. *)
Definition captureImage (webcam : option (option string)) (s : State) : State :=
  match webcam with
  | Some imageSrc => if JS.truthy imageSrc then setImageBase64 imageSrc s else s
  | None => s
  end.

(** A click on the check box of [user]: the box shows
    [requiredUsers.includes(user)] and the click inverts it. *)
Definition clickUser (user : string) (s : State) : State :=
  toggleUser user (negb (Text.includes user (requiredUsers s))) s.

(** The page with its network side: the modes of the [handleSubmit] calls
    that still await their response, and every request posted so far. *)
Record Page : Type := {
  state : State;
  awaiting : list Mode;
  posted : list Request
}.

(** What the user and the network can do.  A check box exists for the
    registered users in verification mode only, and the submit button is
    disabled while [isProcessing]; a click that the rendered page does not
    offer is no event. *)
Inductive Event : Type :=
| Click (user : string)
| SwitchMode (m : Mode)
| FileChosen (file : option string)
| Capture (webcam : option (option string))
| Submit
| Settle (o : Outcome).

Definition isVerification (m : Mode) : bool :=
  match m with verification => true | analysis => false end.

Definition step (e : Event) (p : Page) : Page :=
  let s := state p in
  match e with
  | Click user =>
      if isVerification (mode s) && Text.includes user (registeredUsers s)
      then {| state := clickUser user s; awaiting := awaiting p; posted := posted p |}
      else p
  | SwitchMode m =>
      {| state := setMode m s; awaiting := awaiting p; posted := posted p |}
  | FileChosen file =>
      {| state := handleFileChange file s; awaiting := awaiting p; posted := posted p |}
  | Capture webcam =>
      {| state := captureImage webcam s; awaiting := awaiting p; posted := posted p |}
  | Submit =>
      if isProcessing s then p
      else
        match handleSubmit s with
        | (s', Some r) =>
            {| state := s'; awaiting := (awaiting p ++ [mode s])%list;
               posted := (posted p ++ [r])%list |}
        | (s', None) =>
            {| state := s'; awaiting := awaiting p; posted := posted p |}
        end
  | Settle o =>
      match awaiting p with
      | m :: rest =>
          {| state := handleSubmit_settled m o s; awaiting := rest;
             posted := posted p |}
      | [] => p
      end
  end.

Definition run (trace : list Event) (p : Page) : Page :=
  fold_left (fun q e => step e q) trace p.

(** The page once the registered users have been fetched. *)
Definition loaded (users : list string) : Page :=
  {| state := fetchUsers_settled (Some (true, users)) initial;
     awaiting := []; posted := [] |}.

(** A row of a result list: the name column and the confidence column. *)
Definition analysisRow (face : Face) : string * string :=
  if String.eqb (name face) "Unknown"
  then ("Unrecognized Face", "No match found")
  else ("Matched " ++ name face, confidenceText face).

Definition verificationRow (face : Face) : string * string :=
  (if String.eqb (name face) "Unknown" then "Unrecognized Face"
   else "Matched " ++ name face,
   confidenceText face).

(** What the "Verification Results" block shows: the verdict line, the rows
    of the faces ([None]: the text "No faces identified"), and the lists
    under "Missing Users:" and "Additional Users Detected:" ([None]: the
    heading is not rendered). *)
Record VerificationView : Type := {
  verdict : string;
  faceRows : option (list (string * string));
  missingList : option (list string);
  extraList : option (list string)
}.

Definition shownList (l : option (list string)) : option (list string) :=
  match l with
  | Some (u :: us) => Some (u :: us)
  | _ => None
  end.

(** The block rendered for [results && mode === 'verification']. *)
Definition verificationView (s : State) : option VerificationView :=
  match results s, mode s with
  | Some r, verification =>
      Some {| verdict := match verified r with
                         | Some true => "Verification Successful"
                         | _ => "Verification Failed"
                         end;
              faceRows := match faces r with
                          | [] => None
                          | l => Some (map verificationRow l)
                          end;
              missingList := shownList (missing_users r);
              extraList := shownList (extra_users r) |}
  | _, _ => None
  end.

(** The block rendered for [results && mode === 'analysis']: the number in
    "Found N faces in the image" and the rows. *)
Definition analysisView (s : State) : option (nat * option (list (string * string))) :=
  match results s, mode s with
  | Some r, analysis =>
      Some (length (faces r),
            match faces r with
            | [] => None
            | l => Some (map analysisRow l)
            end)
  | _, _ => None
  end.

(** A request that, if it goes to the verify-group endpoint, names at least
    one user, no user twice, and only users of the list [users]. *)
Definition namesRegistered (users : list string) (r : Request) : Prop :=
  url r = endpoint verification ->
  exists us,
    lookupKey "required_users" (body r) = Some (JStrings us)
    /\ us <> []
    /\ List.NoDup us
    /\ (forall u, In u us -> In u users).

(** The chosen users are registered users, each chosen once; at most one
    submission awaits its response, and the busy flag is set while one
    does; the requests posted so far name registered users only. *)
Definition wellFormed (users : list string) (p : Page) : Prop :=
  registeredUsers (state p) = users
  /\ List.NoDup (requiredUsers (state p))
  /\ (forall u, In u (requiredUsers (state p)) -> In u users)
  /\ (length (awaiting p) <= 1)%nat
  /\ (awaiting p <> [] -> isProcessing (state p) = true)
  /\ Forall (namesRegistered users) (posted p).

End GroupPage.

(** *** pages/CameraAnalysis.tsx: the required-users field *)

Module CameraPage.

(** The [onChange] of the "Required Users" field:
    [e.target.value.split(',').map(id => id.trim())]. *)
Definition parseUsers (value : string) : list string :=
  map JS.trim (Text.split ","%char value).

(** The event it raises on the page. *)
Definition onChange (value : string) : CameraAnalysis.Event :=
  CameraAnalysis.SetRequiredUsers (parseUsers value).

(** A face that has a [box]. *)
Definition hasBox (face : CameraAnalysis.Face) : bool :=
  match CameraAnalysis.box face with Some _ => true | None => false end.

(** The faces before the first one without a [box]. *)
Fixpoint boxed (l : list CameraAnalysis.Face) : list CameraAnalysis.Face :=
  match l with
  | [] => []
  | face :: rest => if hasBox face then face :: boxed rest else []
  end.

(** The drawing calls of a face that has a [box]. *)
Definition faceOps (face : CameraAnalysis.Face) : list DrawOp :=
  match CameraAnalysis.drawFace face with
  | Some ops => ops
  | None => []
  end.

(** No event of the trace unmounts the page. *)
Definition staysMounted (trace : list CameraAnalysis.Event) : bool :=
  forallb (fun e => match e with
                    | CameraAnalysis.Unmount _ => false
                    | _ => true
                    end) trace.

(** Every route parameter a trace navigates to is one [processFrame] has no
    endpoint for. *)
Definition unknownTypes (trace : list CameraAnalysis.Event) : bool :=
  forallb (fun e => match e with
                    | CameraAnalysis.Navigate t =>
                        match CameraAnalysis.route t with
                        | None => true
                        | Some _ => false
                        end
                    | _ => true
                    end) trace.

(** The count text drawn for a response: only for the type [crowd] and a
    count that is present and not zero. *)
Definition countOps (type : option string) (count : option Z) : list DrawOp :=
  match type, count with
  | Some t, Some n =>
      if String.eqb t "crowd" && negb (n =? 0)%Z
      then [FillText "#00ff00" "24px Arial" (CameraAnalysis.countText n) 10 30]
      else []
  | _, _ => []
  end.

(** Every live track belongs to the stream attached to the video element,
    the page is mounted with its video element, and while [startCamera]
    still waits no track has been handed out. *)
Definition cameraHeld (s : CameraAnalysis.State) : Prop :=
  CameraAnalysis.mounted s = true
  /\ (exists video, CameraAnalysis.videoRef s = Some video)
  /\ (forall id, CameraAnalysis.tracks s !! id = Some Media.live ->
        exists video stream,
          CameraAnalysis.videoRef s = Some video
          /\ CameraAnalysis.srcObject video = Some stream
          /\ In id stream)
  /\ (CameraAnalysis.cameraRequests s <= 1)%nat
  /\ (CameraAnalysis.cameraRequests s = 1%nat -> CameraAnalysis.tracks s = ∅).

(** Nothing is outstanding, the page is idle, and neither the route
    parameter nor the armed closure has an endpoint. *)
Definition idleUnknown (s : CameraAnalysis.State) : Prop :=
  CameraAnalysis.inflight s = []
  /\ CameraAnalysis.isProcessing s = false
  /\ CameraAnalysis.route (CameraAnalysis.type_ s) = None
  /\ (CameraAnalysis.mounted s = true -> CameraAnalysis.interval s <> None)
  /\ match CameraAnalysis.interval s with
     | Some (_, c) =>
         CameraAnalysis.route (CameraAnalysis.c_type c) = None
         /\ CameraAnalysis.c_isProcessing c = false
     | None => True
     end.

(** An outstanding request as [processFrame] builds it: for the endpoint of
    the closure's type, with a data URL as image and the closure's required
    users. *)
Definition shaped (p : CameraAnalysis.Pending) : Prop :=
  exists endpoint withUsers tail,
    CameraAnalysis.route (CameraAnalysis.c_type (CameraAnalysis.closure p))
    = Some (endpoint, withUsers)
    /\ CameraAnalysis.request p
       = CameraAnalysis.frameRequest endpoint withUsers ("data:" ++ tail)
           (CameraAnalysis.c_requiredUsers (CameraAnalysis.closure p)).

End CameraPage.

(** *** components/Camera.tsx: grants that arrive in time *)

Module CameraTiming.

(** A trace of the camera effect in which the component stays mounted and
    [getUserMedia] is only ever answered for the current run of the effect;
    [runs] is the number of runs so far. *)
Fixpoint timely (runs : nat) (trace : list Camera.SourceEvent) : bool :=
  match trace with
  | [] => true
  | Camera.SetActive _ :: rest => timely (S runs) rest
  | Camera.Granted i _ :: rest => (S i =? runs)%nat && timely runs rest
  | Camera.Denied i :: rest => (S i =? runs)%nat && timely runs rest
  | Camera.UnmountSource :: _ => false
  end.

(** The component is mounted and every live track belongs to the stream of
    the current run of the effect, which has no stream while its
    [getUserMedia] call still waits. *)
Definition streamsHeld (src : Camera.Source) : Prop :=
  Camera.mountedSource src = true
  /\ exists earlier current,
      Camera.runs src = (earlier ++ [current])%list
      /\ (Camera.waiting current = true -> Camera.stream current = None)
      /\ (forall id, Camera.tracks src !! id = Some Media.live ->
            exists st, Camera.stream current = Some st /\ In id st).

End CameraTiming.

(** *** pages/Analysis.tsx: registration response, the image list *)

Module AnalysisPage.

Import Analysis.

(** The text of [response.data.num_images_processed] in the success
    message. *)
Definition numText (n : option Z) : string :=
  match n with
  | Some k => Text.ofZ k
  | None => "undefined"
  end.

(** [handleRegisterFace] after its [await]; [name] is the name field as the
    handler's render saw it, [Some data] a 2xx response, [None] a rejected
    request. *)
Definition handleRegisterFace_settled (name : string) (o : option Response)
    (s : State) : State :=
  let s' :=
    match o with
    | Some data =>
        if success data then
          let s1 := setSuccess
                      (Some ("Successfully registered " ++ name ++ " using "
                             ++ numText (num_images_processed data) ++ " images"))
                      (setResult (Some data) s) in
          let s2 := match results data with
                    | Some rs => setDetectedFaces rs s1
                    | None => s1
                    end in
          setMaxImagesReached false
            (setImagePreview None (setSelectedImages [] (setName "" s2)))
        else setError (Some (orDefault (message data) "Registration failed")) s
    | None => setError (Some "Failed to register face. Please try again.") s
    end in
  setIsProcessing false s'.

(** The page while the input method is [upload].  A submission that was
    posted awaits its response as the call of the handler that posted it;
    [handleRegisterFace] keeps the name field of its render for the success
    message. *)
Inductive Call : Type :=
| RegisterCall (name : string)
| IdentifyCall.

(** The state, the reads that have not ended, the calls that await their
    response and every request posted so far. *)
Record Page : Type := {
  state : State;
  reading : list Reader;
  awaiting : list Call;
  posted : list Request
}.

(** What the user, the file readers and the network can do.  The file
    input takes any number of files and is disabled while
    [maxImagesReached]; the reads it starts end later, one at a time and
    in any order ([ReadEnd i]: the read at position [i] of those pending),
    with other events in between.  There is a remove button for each image
    shown; a click that the rendered page does not offer is no event.  The
    remove buttons stand inside the form and have no [type], so that a click
    on one also raises the form's submit event: it is a [Remove] and a
    [Submit] (in either order, as [removeImage] and [handleSubmit] write
    different cells).  A submission can therefore come while an earlier one
    is processed, although the submit button itself is disabled then.
    Responses arrive in any order: [Settle i o] answers the call at
    position [i] of those awaiting. *)
Inductive Event : Type :=
| TypeName (value : string)
| SwitchMode (m : Mode)
| Select (files : list string)
| ReadEnd (i : nat)
| Remove (index : nat)
| Submit
| Settle (i : nat) (o : option Response).

Definition settle (c : Call) (o : option Response) (s : State) : State :=
  match c with
  | RegisterCall name => handleRegisterFace_settled name o s
  | IdentifyCall => handleIdentifyFace_settled o s
  end.

Definition with_state (s : State) (p : Page) : Page :=
  {| state := s; reading := reading p; awaiting := awaiting p; posted := posted p |}.

Definition step (e : Event) (p : Page) : Page :=
  let s := state p in
  match e with
  | TypeName value => with_state (setName value s) p
  | SwitchMode m => with_state (setMode m s) p
  | Select files =>
      if maxImagesReached s then p
      else {| state := s;
              reading := (reading p ++ startReaders s (Some files))%list;
              awaiting := awaiting p; posted := posted p |}
  | ReadEnd i =>
      let (pending, s') := readEnd i (reading p) s in
      {| state := s'; reading := pending; awaiting := awaiting p;
         posted := posted p |}
  | Remove index =>
      if (index <? length (selectedImages s))%nat
      then with_state (removeImage index s) p
      else p
  | Submit =>
      match handleSubmit s with
      | (s', Some r) =>
          {| state := s'; reading := reading p;
             awaiting := (awaiting p
                          ++ [match mode s with
                              | register => RegisterCall (nameField s)
                              | identify => IdentifyCall
                              end])%list;
             posted := (posted p ++ [r])%list |}
      | (s', None) => with_state s' p
      end
  | Settle i o =>
      match nth_error (awaiting p) i with
      | Some c =>
          {| state := settle c o s; reading := reading p;
             awaiting := removeAt i (awaiting p); posted := posted p |}
      | None => p
      end
  end.

Definition run (trace : list Event) (p : Page) : Page :=
  fold_left (fun q e => step e q) trace p.

Definition opened : Page :=
  {| state := initial; reading := []; awaiting := []; posted := [] |}.

(** An event that, if it is a selection, holds at most one file and comes
    when no read is pending. *)
Definition single (e : Event) (p : Page) : bool :=
  match e with
  | Select files => (length files <=? 1)%nat && (length (reading p) =? 0)%nat
  | _ => true
  end.

(** Every selection of the trace is such. *)
Fixpoint oneAtATime (trace : list Event) (p : Page) : bool :=
  match trace with
  | [] => true
  | e :: rest => single e p && oneAtATime rest (step e p)
  end.

(** The images of a request body. *)
Definition imagesOf (r : Request) : list string :=
  match lookupKey "images" (body r) with
  | Some (JStrings l) => l
  | _ => []
  end.

(** The image list obeys the limit, the flag says whether it is reached,
    at most one read is pending and there is room for its image, and every
    [register-face] request posted carried one to five images. *)
Definition withinLimit (images : list string) (flag : bool) (pending : nat)
    (requests : list Request) : Prop :=
  (length images + pending <= 5)%nat
  /\ flag = (5 <=? length images)%nat
  /\ (pending <= 1)%nat
  /\ Forall (fun r => url r = "http://localhost:5001/api/register-face"%string ->
                      (1 <= length (imagesOf r) <= 5)%nat) requests.

Definition limit (p : Page) : Prop :=
  withinLimit (selectedImages (state p)) (maxImagesReached (state p))
    (length (reading p)) (posted p).

(** One file after the other is selected before any read ends; then the
    reads end in selection order. *)
Definition hasty (files : list string) : list Event :=
  (map (fun file => Select [file]) files ++ repeat (ReadEnd 0) (length files))%list.

End AnalysisPage.

(** *** pages/FaceRegistration.tsx: the response, the image list *)

Module RegistrationPage.

Import FaceRegistration.

(** [handleSubmit] after its [await]; [name] is the name field as the
    handler's render saw it, [Some (success, message)] the parsed body of
    the response, [None] a rejected request or a body that is not JSON. *)
Definition handleSubmit_settled (name : string) (o : option (bool * option string))
    (s : State) : State :=
  let s' :=
    match o with
    | Some (true, _) =>
        {| isProcessing := isProcessing s; nameField := "";
           message := "Successfully registered " ++ name;
           selectedImages := []; maxImagesReached := false; error := error s |}
    | Some (false, msg) => setError (Some (orDefault msg "Registration failed")) s
    | None => setError (Some "Failed to register face. Please try again.") s
    end in
  {| isProcessing := false; nameField := nameField s'; message := message s';
     selectedImages := selectedImages s'; maxImagesReached := maxImagesReached s';
     error := error s' |}.

(** The state, the data URLs of the reads that have not ended, the
    submissions that await their response (each with the name field of its
    render) and every request posted so far. *)
Record Page : Type := {
  state : State;
  reading : list string;
  awaiting : list string;
  posted : list Request
}.

(** What the user, the file readers and the network can do.  As on the
    analysis page, the file input takes any number of files and is disabled
    while [maxImagesReached], its reads end later in any order, the remove
    buttons are submit buttons of the form (a click is a [Remove] and a
    [Submit], so a submission can come while an earlier one is processed),
    and responses arrive in any order. *)
Inductive Event : Type :=
| TypeName (value : string)
| Select (files : list string)
| ReadEnd (i : nat)
| Remove (index : nat)
| Submit
| Settle (i : nat) (o : option (bool * option string)).

Definition setName (value : string) (s : State) : State :=
  {| isProcessing := isProcessing s; nameField := value; message := message s;
     selectedImages := selectedImages s; maxImagesReached := maxImagesReached s;
     error := error s |}.

Definition with_state (s : State) (p : Page) : Page :=
  {| state := s; reading := reading p; awaiting := awaiting p; posted := posted p |}.

Definition step (e : Event) (p : Page) : Page :=
  let s := state p in
  match e with
  | TypeName value => with_state (setName value s) p
  | Select files =>
      if maxImagesReached s then p
      else {| state := s;
              reading := (reading p ++ handleImageUpload s (Some files))%list;
              awaiting := awaiting p; posted := posted p |}
  | ReadEnd i =>
      let (pending, s') := readEnd i (reading p) s in
      {| state := s'; reading := pending; awaiting := awaiting p;
         posted := posted p |}
  | Remove index =>
      if (index <? length (selectedImages s))%nat
      then with_state (removeImage index s) p
      else p
  | Submit =>
      match handleSubmit s with
      | (s', Some r) =>
          {| state := s'; reading := reading p;
             awaiting := (awaiting p ++ [nameField s])%list;
             posted := (posted p ++ [r])%list |}
      | (s', None) => with_state s' p
      end
  | Settle i o =>
      match nth_error (awaiting p) i with
      | Some name =>
          {| state := handleSubmit_settled name o s; reading := reading p;
             awaiting := Analysis.removeAt i (awaiting p); posted := posted p |}
      | None => p
      end
  end.

Definition run (trace : list Event) (p : Page) : Page :=
  fold_left (fun q e => step e q) trace p.

Definition opened : Page :=
  {| state := initial; reading := []; awaiting := []; posted := [] |}.

(** An event that, if it is a selection, holds at most one file and comes
    when no read is pending. *)
Definition single (e : Event) (p : Page) : bool :=
  match e with
  | Select files => (length files <=? 1)%nat && (length (reading p) =? 0)%nat
  | _ => true
  end.

(** Every selection of the trace is such. *)
Fixpoint oneAtATime (trace : list Event) (p : Page) : bool :=
  match trace with
  | [] => true
  | e :: rest => single e p && oneAtATime rest (step e p)
  end.

Definition limit (p : Page) : Prop :=
  AnalysisPage.withinLimit (selectedImages (state p)) (maxImagesReached (state p))
    (length (reading p)) (posted p).

Definition hasty (files : list string) : list Event :=
  (map (fun file => Select [file]) files ++ repeat (ReadEnd 0) (length files))%list.

End RegistrationPage.

(** *** pages/CrowdAnalysis.tsx *)

Module CrowdAnalysis.

(** [interface CrowdAnalysisResult]. *)
Record CrowdAnalysisResult : Type := {
  success : bool;
  total_count : option Z;
  message : option string;
  annotated_image : option string
}.

Record State : Type := {
  imageBase64 : option string;
  result : option CrowdAnalysisResult;
  isProcessing : bool;
  error : option string
}.

Definition initial : State :=
  {| imageBase64 := None; result := None; isProcessing := false; error := None |}.

(** [handleFileUpload] once the reader has loaded the file. *)
Definition handleFileUpload (file : option string) (s : State) : State :=
  match file with
  | Some base64String =>
      {| imageBase64 := Some base64String; result := result s;
         isProcessing := isProcessing s; error := None |}
  | None => s
  end.

(** [captureImage]. *)
Definition captureImage (webcam : option (option string)) (s : State) : State :=
  match webcam with
  | Some imageSrc =>
      if JS.truthy imageSrc
      then {| imageBase64 := imageSrc; result := result s;
              isProcessing := isProcessing s; error := error s |}
      else s
  | None => s
  end.

(** [handleSubmit] up to its [await]. *)
Definition handleSubmit (s : State) : State * option Request :=
  if negb (JS.truthy (imageBase64 s)) then
    ({| imageBase64 := imageBase64 s; result := result s;
        isProcessing := isProcessing s;
        error := Some "Please upload an image or capture one from the camera" |},
     None)
  else
    let image := match imageBase64 s with Some i => i | None => "" end in
    ({| imageBase64 := imageBase64 s; result := None; isProcessing := true;
        error := None |},
     Some {| url := "http://localhost:5001/api/crowd-count";
             body := [("image", JString image)];
             timeout := None |}).

(** [handleSubmit] after its [await]: [Some data] is a 2xx response, [None]
    a rejected request. *)
Definition handleSubmit_settled (o : option CrowdAnalysisResult) (s : State) : State :=
  match o with
  | Some data =>
      if success data then
        {| imageBase64 := imageBase64 s; result := Some data;
           isProcessing := false; error := error s |}
      else
        {| imageBase64 := imageBase64 s; result := result s;
           isProcessing := false;
           error := Some (orDefault (message data) "Crowd counting failed") |}
  | None =>
      {| imageBase64 := imageBase64 s; result := result s; isProcessing := false;
         error := Some "An error occurred during crowd analysis" |}
  end.

(** [resetAnalysis]. *)
Definition resetAnalysis (s : State) : State :=
  {| imageBase64 := None; result := None; isProcessing := isProcessing s;
     error := None |}.

(** Whether the "Crowd Analysis Results" panel ([result && result.success])
    and the "Analysis Error" panel ([error]) are rendered. *)
Definition showsResult (s : State) : bool :=
  match result s with
  | Some r => success r
  | None => false
  end.


(** Whether the submit button is enabled
    ([disabled={!imageBase64 || isProcessing}]). *)
Definition canSubmit (s : State) : bool :=
  JS.truthy (imageBase64 s) && negb (isProcessing s).

End CrowdAnalysis.

(* ================================================================== *)
(** * Theorems *)

#[local] Open Scope Q_scope.

(** ** Formatting *)

Example toFixed_samples :
  JS.toFixed 9500 1 = "9500.0"%string /\
  JS.toFixed (3 # 4) 2 = "0.75"%string /\
  JS.toFixed (1 # 256) 2 = "0.00"%string /\
  JS.toFixed (- (1 # 1024)) 1 = "-0.0"%string /\
  JS.toFixed (247 # 2) 0 = "124"%string.
Proof. repeat split; vm_compute; reflexivity. Qed.

(** ** Overlay rendering (Camera.drawDetections) *)

Section BoxScaling.

Import Camera.

Lemma strokedRects_drawFace canvas video face :
  strokedRects (drawFace canvas video face)
  = [scaleBy (scale canvas video) (box face)].
Proof.
  unfold drawFace, scaleBy. destruct (box face) as [[[x y] w] h]. reflexivity.
Qed.

Lemma strokedRects_app ops1 ops2 :
  strokedRects (ops1 ++ ops2) = (strokedRects ops1 ++ strokedRects ops2)%list.
Proof. unfold strokedRects. apply flat_map_app. Qed.

Lemma strokedRects_faces canvas video faces :
  strokedRects (flat_map (drawFace canvas video) faces)
  = map (fun f => scaleBy (scale canvas video) (box f)) faces.
Proof.
  induction faces as [|f faces IH]; [reflexivity|].
  cbn [flat_map map]. rewrite strokedRects_app, strokedRects_drawFace, IH.
  reflexivity.
Qed.

(** With a 2D context, the stroked rectangles are the boxes in order, each
    multiplied by the single factor [canvas.width / video.videoWidth]. *)
Lemma strokedRects_drawDetections canvas video faces :
  ctx2d canvas = true ->
  strokedRects (drawDetections (Some canvas) (Some video) faces)
  = map (fun f => scaleBy (scale canvas video) (box f)) faces.
Proof.
  intros Hctx. unfold drawDetections. rewrite Hctx. cbn [negb].
  change (strokedRects (flat_map (drawFace canvas video) faces)
          = map (fun f => scaleBy (scale canvas video) (box f)) faces).
  apply strokedRects_faces.
Qed.

Lemma N2Q_nonzero n : (0 < n)%N -> ~ N2Q n == 0.
Proof.
  intros Hn. unfold N2Q, Qeq. simpl. lia.
Qed.

Lemma Forall2_map_same {A B : Type} (R : B -> B -> Prop) (f g : A -> B) l :
  (forall a, R (f a) (g a)) -> Forall2 R (map f l) (map g l).
Proof. intros H. induction l; simpl; constructor; auto. Qed.

(** C7 fails as stated: on a 4x2 canvas showing a 2x2 video the box
    [(1,1,1,1)] is stroked at [(2,2,2,2)], while the stated formula gives
    [(2,1,2,1)]. *)
Lemma box_scaling_not_per_axis :
  let canvas := {| width := 4; height := 2; ctx2d := true |} in
  let video := {| videoWidth := 2; videoHeight := 2; pixels := "" |} in
  let face := {| name := "a"; confidence := 1; box := (1, 1, 1, 1) |} in
  strokedRects (drawDetections (Some canvas) (Some video) [face])
    = [scaleBy (4 / 2) (1, 1, 1, 1)]
  /\ rectEq (scaleBy (4 / 2) (1, 1, 1, 1)) (2, 2, 2, 2)
  /\ ~ rectEq (scaleBy (4 / 2) (1, 1, 1, 1))
        (Spec.scaledBox (N2Q (videoWidth video)) (N2Q (videoHeight video))
           (N2Q (width canvas)) (N2Q (height canvas)) (box face)).
Proof.
  cbv zeta. split; [reflexivity|]. split.
  - vm_compute. repeat split; reflexivity.
  - vm_compute. intros (_ & H & _). discriminate H.
Qed.

(** On the live page the canvas is given the size of the native frame at
    every capture, and a box is stroked with its own numbers. *)
Lemma page_box_unscaled (s : CameraAnalysis.State) (frame : string)
    (face : CameraAnalysis.Face) (b : Q * Q * Q * Q) :
  snd (CameraAnalysis.captureFrame s) = Some frame ->
  CameraAnalysis.box face = Some b ->
  (exists video canvas,
      CameraAnalysis.videoRef s = Some video
      /\ CameraAnalysis.canvasRef (fst (CameraAnalysis.captureFrame s)) = Some canvas
      /\ CameraAnalysis.width canvas = CameraAnalysis.videoWidth video
      /\ CameraAnalysis.height canvas = CameraAnalysis.videoHeight video)
  /\ exists ops, CameraAnalysis.drawFace face = Some ops /\ strokedRects ops = [b].
Proof.
  intros Hframe Hbox. split.
  - unfold CameraAnalysis.captureFrame in *.
    destruct (CameraAnalysis.videoRef s) as [video|]; [|discriminate].
    destruct (CameraAnalysis.canvasRef s) as [canvas|]; [|discriminate].
    destruct (CameraAnalysis.ctx2d canvas); [|discriminate].
    eexists _, _. cbn. repeat split; reflexivity.
  - unfold CameraAnalysis.drawFace. rewrite Hbox.
    destruct b as [[[x y] w] h]. eexists. split; reflexivity.
Qed.

(** C7, amended: the camera overlay strokes every box multiplied by the one
    factor [s = W'/W] (canvas width over native width) in all four numbers;
    this is the per-axis formula of the specification whenever the canvas
    keeps the native aspect ratio ([W'·H = H'·W]), and it is the box itself
    when the canvas width equals the native width. *)
Theorem box_scaling_uniform (canvas : Canvas) (video : Video)
    (faces : list DetectedFace) :
  ctx2d canvas = true ->
  (0 < videoWidth video)%N ->
  let W := N2Q (videoWidth video) in
  let H := N2Q (videoHeight video) in
  let W' := N2Q (width canvas) in
  let H' := N2Q (height canvas) in
  let drawn := strokedRects (drawDetections (Some canvas) (Some video) faces) in
  drawn = map (fun f => scaleBy (W' / W) (box f)) faces
  /\ ((0 < videoHeight video)%N -> W' * H == H' * W ->
      Forall2 rectEq drawn (map (fun f => Spec.scaledBox W H W' H' (box f)) faces))
  /\ (width canvas = videoWidth video ->
      Forall2 rectEq drawn (map box faces)).
Proof.
  intros Hctx HW W H W' H' drawn.
  assert (Hdrawn : drawn = map (fun f => scaleBy (W' / W) (box f)) faces)
    by (apply strokedRects_drawDetections; assumption).
  assert (HW0 : ~ W == 0) by (apply N2Q_nonzero; assumption).
  split; [exact Hdrawn|]. split.
  - intros HH Hasp. rewrite Hdrawn.
    assert (HH0 : ~ H == 0) by (apply N2Q_nonzero; assumption).
    apply Forall2_map_same. intros f.
    destruct (box f) as [[[x y] w] h]. unfold scaleBy, Spec.scaledBox, rectEq.
    assert (Hs : W' / W == H' / H).
    { apply (Qmult_inj_r _ _ (W * H)).
      - intros E. apply Qmult_integral in E. tauto.
      - transitivity (W' * H); [field; assumption|].
        rewrite Hasp. field; assumption. }
    repeat split.
    + field; assumption.
    + rewrite Hs. field; assumption.
    + field; assumption.
    + rewrite Hs. field; assumption.
  - intros Heq. rewrite Hdrawn.
    rewrite <- (map_id faces) at 2. rewrite map_map.
    apply Forall2_map_same. intros f.
    destruct (box f) as [[[x y] w] h]. unfold scaleBy, rectEq.
    assert (Hs : W' / W == 1).
    { unfold W', W. rewrite Heq. field. exact HW0. }
    repeat split; rewrite Hs; ring.
Qed.

Lemma box_scaling_uniform_witness :
  let faces := [{| name := "a"; confidence := 1; box := (1, 1, 1, 1) |}] in
  let wide := {| width := 4; height := 2; ctx2d := true |} in
  let small := {| videoWidth := 2; videoHeight := 1; pixels := "" |} in
  let same := {| width := 2; height := 1; ctx2d := true |} in
  Forall2 rectEq
    (strokedRects (drawDetections (Some wide) (Some small) faces))
    (map (fun f => Spec.scaledBox (N2Q 2) (N2Q 1) (N2Q 4) (N2Q 2) (box f)) faces)
  /\ Forall2 rectEq
       (strokedRects (drawDetections (Some same) (Some small) faces))
       (map box faces).
Proof.
  intros faces wide small same. split.
  - destruct (box_scaling_uniform wide small faces eq_refl eq_refl)
      as (_ & Haspect & _).
    apply Haspect; reflexivity.
  - destruct (box_scaling_uniform same small faces eq_refl eq_refl)
      as (_ & _ & Hsame).
    apply Hsame; reflexivity.
Defined.

End BoxScaling.

(** ** Confidence labels *)

Section ConfidenceLabels.

(** The overlay always formats [confidence * 100], the result list always
    formats [confidence] itself, whatever the value and wherever the face
    came from. *)
Lemma overlay_label_times_100 (face : Camera.DetectedFace) :
  Camera.label face
  = (Camera.name face ++ " (" ++ JS.toFixed (Camera.confidence face * 100) 1 ++ "%)")%string.
Proof. reflexivity. Qed.

Lemma result_line_as_is (face : Analysis.FaceResult) :
  Analysis.name face <> "Unknown"%string ->
  Analysis.confidenceLine face
  = ("Confidence: " ++ JS.toFixed (Analysis.confidence face) 2 ++ "%")%string.
Proof.
  intros Hn. unfold Analysis.confidenceLine.
  destruct (String.eqb_spec (Analysis.name face) "Unknown"); [contradiction|].
  reflexivity.
Qed.

(** C8, the code at the failing input: one identify-face response is shown
    twice by the analysis page, in the result list with the confidence as
    it is and in the camera overlay with the confidence times 100.  For a
    percentage-valued confidence of 95 the overlay reads 9500.0%; for a
    fractional confidence of 0.5 the result list reads 0.50%. *)
Theorem identify_confidence_shown_under_both_conventions :
  (Analysis.renderResults (Samples.identified 95) = ["Confidence: 95.00%"%string]
   /\ Camera.texts (Analysis.cameraOverlay Samples.vgaCanvas Samples.vgaVideo
                      (Samples.identified 95))
      = ["alice (9500.0%)"%string])
  /\ (Analysis.renderResults (Samples.identified (1 # 2))
      = ["Confidence: 0.50%"%string]
      /\ Camera.texts (Analysis.cameraOverlay Samples.vgaCanvas Samples.vgaVideo
                         (Samples.identified (1 # 2)))
         = ["alice (50.0%)"%string]).
Proof. split; split; vm_compute; reflexivity. Qed.

End ConfidenceLabels.

(** ** Image selection and registration *)

Section RegistrationImages.

(** The local [newImages] array stays empty, so the test of the upload
    loop is the same for every file of one selection. *)
Lemma acceptFiles_all selected files :
  (length selected < 5)%nat ->
  Analysis.acceptFiles selected [] files = files.
Proof.
  intros Hlt. induction files as [|f files IH]; [reflexivity|].
  cbn [Analysis.acceptFiles length]. rewrite Nat.add_0_r.
  destruct (Nat.ltb_spec (length selected) 5); [|lia].
  now rewrite IH.
Qed.

Lemma acceptFiles_none selected files :
  (5 <= length selected)%nat ->
  Analysis.acceptFiles selected [] files = [].
Proof.
  intros Hge. induction files as [|f files IH]; [reflexivity|].
  cbn [Analysis.acceptFiles length]. rewrite Nat.add_0_r.
  destruct (Nat.ltb_spec (length selected) 5); [lia|]. exact IH.
Qed.

Lemma removeAt_length {A : Type} (i : nat) (l : list A) :
  (i < length l)%nat -> length (Analysis.removeAt i l) = pred (length l).
Proof.
  revert i. induction l as [|a l IH]; intros i Hi; cbn in *; [lia|].
  destruct i as [|i]; cbn; [reflexivity|].
  rewrite IH by lia. destruct l; cbn in *; lia.
Qed.

Lemma removeAt_beyond {A : Type} (i : nat) (l : list A) :
  (length l <= i)%nat -> Analysis.removeAt i l = l.
Proof.
  revert i. induction l as [|a l IH]; intros i Hi; [destruct i; reflexivity|].
  cbn in Hi. destruct i as [|i]; [lia|]. cbn. rewrite IH by lia. reflexivity.
Qed.

Lemma removeAt_nth {A : Type} (i j : nat) (l : list A) :
  nth_error (Analysis.removeAt i l) j
  = if (j <? i)%nat then nth_error l j else nth_error l (S j).
Proof.
  revert i j. induction l as [|a l IH]; intros i j.
  - destruct (j <? i)%nat; destruct i, j; reflexivity.
  - destruct i as [|i]; [reflexivity|].
    destruct j as [|j]; [reflexivity|].
    cbn [Analysis.removeAt nth_error]. rewrite IH.
    change (S j <? S i)%nat with (j <? i)%nat. reflexivity.
Qed.

(** Taking an element out and putting it in front rearranges the list. *)
Lemma removeAt_Permutation {A : Type} (i : nat) (l : list A) (x : A) :
  nth_error l i = Some x -> Permutation (x :: Analysis.removeAt i l) l.
Proof.
  revert i. induction l as [|a l IH]; intros i Hi; [destruct i; discriminate|].
  destruct i as [|i]; cbn in *.
  - inversion Hi; subst. reflexivity.
  - etransitivity; [apply perm_swap|]. constructor. now apply IH.
Qed.

Lemma onloadend_images snapshot img s :
  Analysis.selectedImages (Analysis.onloadend snapshot img s)
  = (Analysis.selectedImages s ++ [img])%list.
Proof.
  unfold Analysis.onloadend.
  destruct (negb (JS.truthy (Analysis.imagePreview snapshot))); reflexivity.
Qed.

(** Once all pending reads have ended, in whatever order, the images they
    produced have been added. *)
Lemma readAll_images (order : list nat) :
  forall pending s,
    (length pending <= length order)%nat ->
    Permutation (Analysis.selectedImages (Analysis.readAll order pending s))
      (Analysis.selectedImages s ++ map Analysis.dataURL pending).
Proof.
  induction order as [|i order IH]; intros pending s Hlen.
  - destruct pending; [|cbn in Hlen; lia]. cbn. now rewrite app_nil_r.
  - destruct pending as [|r0 rest]; [cbn; now rewrite app_nil_r|].
    cbn [Analysis.readAll]. unfold Analysis.readEnd.
    set (pending := r0 :: rest) in *.
    assert (Hk : (i mod length pending < length pending)%nat)
      by (apply Nat.mod_upper_bound; discriminate).
    destruct (nth_error pending (i mod length pending)) as [r|] eqn:E;
      [|apply nth_error_None in E; lia].
    etransitivity; [apply IH|].
    + rewrite removeAt_length by exact Hk. cbn in Hlen |- *. lia.
    + rewrite onloadend_images, <- app_assoc. apply Permutation_app_head.
      exact (Permutation_map Analysis.dataURL (removeAt_Permutation _ _ _ E)).
Qed.

Lemma registration_readAll_images (order : list nat) :
  forall pending s,
    (length pending <= length order)%nat ->
    Permutation
      (FaceRegistration.selectedImages (FaceRegistration.readAll order pending s))
      (FaceRegistration.selectedImages s ++ pending).
Proof.
  induction order as [|i order IH]; intros pending s Hlen.
  - destruct pending; [|cbn in Hlen; lia]. cbn. now rewrite app_nil_r.
  - destruct pending as [|r0 rest]; [cbn; now rewrite app_nil_r|].
    cbn [FaceRegistration.readAll]. unfold FaceRegistration.readEnd.
    set (pending := r0 :: rest) in *.
    assert (Hk : (i mod length pending < length pending)%nat)
      by (apply Nat.mod_upper_bound; discriminate).
    destruct (nth_error pending (i mod length pending)) as [r|] eqn:E;
      [|apply nth_error_None in E; lia].
    etransitivity; [apply IH|].
    + rewrite removeAt_length by exact Hk. cbn in Hlen |- *. lia.
    + cbn [FaceRegistration.onloadend FaceRegistration.selectedImages].
      rewrite <- app_assoc. apply Permutation_app_head.
      exact (removeAt_Permutation _ _ _ E).
Qed.

(** A register-face request always carries at least one image. *)
Lemma register_request_has_image s s' r :
  Analysis.handleRegisterFace s = (s', Some r) ->
  exists img imgs, lookupKey "images" (body r) = Some (JStrings (img :: imgs)).
Proof.
  unfold Analysis.handleRegisterFace.
  destruct (String.eqb (JS.trim (Analysis.nameField s)) ""); [discriminate|].
  destruct (Analysis.selectedImages s) as [|img imgs] eqn:E; [discriminate|].
  intros H. inversion H; subst. exists img, imgs. reflexivity.
Qed.

Lemma registration_request_has_image s s' r :
  FaceRegistration.handleSubmit s = (s', Some r) ->
  exists img imgs, lookupKey "images" (body r) = Some (JStrings (img :: imgs)).
Proof.
  unfold FaceRegistration.handleSubmit.
  destruct (FaceRegistration.selectedImages s) as [|img imgs] eqn:E; [discriminate|].
  destruct (String.eqb (FaceRegistration.nameField s) ""); [discriminate|].
  intros H. inversion H; subst. exists img, imgs. reflexivity.
Qed.

(** C9, the code at the failing input: selecting six files at once on an
    empty form starts six reads, on both pages; in whatever order they end,
    six images are stored, and (the reads ending in selection order) the
    register-face request then sent carries all six. *)
Theorem one_selection_of_six_files_is_kept (a b c d e f : nat) :
  let order := [a; b; c; d; e; f] in
  let inOrder := [0; 0; 0; 0; 0; 0]%nat in
  let readers := Analysis.startReaders Analysis.initial (Some Samples.sixFiles) in
  let pending := FaceRegistration.handleImageUpload FaceRegistration.initial
                   (Some Samples.sixFiles) in
  (map Analysis.dataURL readers = Samples.sixFiles /\ pending = Samples.sixFiles)
  /\ Permutation Samples.sixFiles
       (Analysis.selectedImages (Analysis.readAll order readers Analysis.initial))
  /\ Analysis.selectedImages (Analysis.readAll inOrder readers Analysis.initial)
     = Samples.sixFiles
  /\ snd (Analysis.handleRegisterFace
            (Analysis.setName "alice"
               (Analysis.readAll inOrder readers Analysis.initial)))
     = Some {| url := "http://localhost:5001/api/register-face";
               body := [("name", JString "alice");
                        ("images", JStrings Samples.sixFiles)]%string;
               timeout := None |}
  /\ Permutation Samples.sixFiles
       (FaceRegistration.selectedImages
          (FaceRegistration.readAll order pending FaceRegistration.initial))
  /\ FaceRegistration.selectedImages
       (FaceRegistration.readAll inOrder pending FaceRegistration.initial)
     = Samples.sixFiles.
Proof.
  intros order inOrder readers pending.
  assert (Hr : map Analysis.dataURL readers = Samples.sixFiles) by reflexivity.
  assert (Hp : pending = Samples.sixFiles) by reflexivity.
  split; [split; assumption|].
  split.
  { symmetry.
    exact (readAll_images order readers Analysis.initial (Nat.le_refl 6)). }
  split; [vm_compute; reflexivity|]. split; [vm_compute; reflexivity|].
  split; [|vm_compute; reflexivity].
  symmetry.
  exact (registration_readAll_images order pending FaceRegistration.initial
           (Nat.le_refl 6)).
Qed.

End RegistrationImages.

(** ** Group analysis submission *)

Section VerificationGuard.

Import GroupAnalysis.

(** C10: a submit in verification mode with an empty required-users list
    posts nothing, sets an error message and leaves [results] as it was (so
    [null] stays [null]); and whenever [handleSubmit] posts to the
    verify-group endpoint, the body's [required_users] has at least one
    entry. *)
Theorem verification_needs_required_user (s : State) :
  (mode s = verification -> requiredUsers s = [] ->
   snd (handleSubmit s) = None
   /\ (exists msg, error (fst (handleSubmit s)) = Some msg /\ msg <> ""%string)
   /\ results (fst (handleSubmit s)) = results s
   /\ (results s = None -> results (fst (handleSubmit s)) = None))
  /\ (forall r, snd (handleSubmit s) = Some r ->
      url r = "http://localhost:5001/api/verify-group"%string ->
      exists u us,
        lookupKey "required_users" (body r) = Some (JStrings (u :: us))).
Proof.
  split.
  - intros Hm Hu. unfold handleSubmit. rewrite Hm, Hu.
    destruct (negb (JS.truthy (imageBase64 s))); cbn;
      (split; [reflexivity|]); (split; [eexists; split; [reflexivity|discriminate]|]);
      split; auto.
  - intros r. unfold handleSubmit.
    destruct (negb (JS.truthy (imageBase64 s))); [discriminate|].
    destruct (mode s) eqn:Hm.
    + cbn. intros H. inversion H; subst. cbn. discriminate.
    + destruct (requiredUsers s) as [|u us] eqn:Hu; [discriminate|].
      cbn. intros H _. inversion H; subst. exists u, us. reflexivity.
Qed.

Lemma verification_needs_required_user_witness :
  let empty :=
    {| mode := verification; imageBase64 := Some "data:image/jpeg;base64,AAAA"%string;
       results := None; isProcessing := false; error := None;
       requiredUsers := []; registeredUsers := ["alice"%string] |} in
  let chosen := toggleUser "alice" true empty in
  (snd (handleSubmit empty) = None
   /\ results (fst (handleSubmit empty)) = None)
  /\ (exists r u us,
        snd (handleSubmit chosen) = Some r
        /\ lookupKey "required_users" (body r) = Some (JStrings (u :: us))).
Proof.
  intros empty chosen. split.
  - destruct (proj1 (verification_needs_required_user empty) eq_refl eq_refl)
      as (Hnone & _ & _ & Hnull).
    split; [exact Hnone | apply Hnull; reflexivity].
  - eexists. 
    destruct (proj2 (verification_needs_required_user chosen) _ eq_refl eq_refl)
      as (u & us & H).
    exists u, us. split; [reflexivity | exact H].
Defined.

End VerificationGuard.

(** ** The processing interval of CameraAnalysis *)

Section Scheduler.

Import CameraAnalysis.

(** [captureFrame] touches the canvas and the encode counter only. *)
Lemma captureFrame_keeps (s : State) :
  let s1 := fst (captureFrame s) in
  mounted s1 = mounted s /\ inflight s1 = inflight s
  /\ isProcessing s1 = isProcessing s /\ results s1 = results s
  /\ interval s1 = interval s /\ console s1 = console s
  /\ type_ s1 = type_ s /\ requiredUsers s1 = requiredUsers s
  /\ usersRef s1 = usersRef s /\ timers s1 = timers s.
Proof.
  unfold captureFrame.
  destruct (videoRef s) as [video|]; [|cbn; tauto].
  destruct (canvasRef s) as [canvas|]; [|cbn; tauto].
  destruct (ctx2d canvas); cbn; tauto.
Qed.

(** A tick whose closure saw the busy flag set issues nothing and changes
    neither the flag nor the stored result. *)
Lemma processFrame_busy (c : Closure) (t : nat) (s : State) :
  c_isProcessing c = true ->
  processFrame c t s = fst (captureFrame s).
Proof.
  intros Hc. unfold processFrame. destruct (captureFrame s) as [s1 frame].
  rewrite Hc, orb_true_r. reflexivity.
Qed.

Lemma processFrame_singleFlight (c : Closure) (t : nat) (s : State) :
  singleFlight s -> mounted s = true ->
  c_isProcessing c = isProcessing s ->
  singleFlight (processFrame c t s).
Proof.
  intros (Hlen & Hbusy & Hint) Hm Hc.
  destruct (captureFrame_keeps s)
    as (Km & Kin & Kp & _ & Kint & _).
  destruct (c_isProcessing c) eqn:Ec.
  - rewrite processFrame_busy by assumption.
    unfold singleFlight. rewrite Km, Kin, Kp, Kint. auto.
  - assert (Hnil : inflight s = []).
    { destruct (inflight s) as [|p l] eqn:E; [reflexivity|].
      assert (isProcessing s = true) by (apply Hbusy; discriminate).
      congruence. }
    unfold processFrame. destruct (captureFrame s) as [s1 frame].
    cbn [fst] in *. rewrite Ec, orb_false_r.
    destruct (negb (JS.truthy frame)).
    { unfold singleFlight. rewrite Km, Kin, Kp, Kint. auto. }
    assert (Hm1 : mounted s1 = true) by congruence.
    unfold setIsProcessing.
    destruct (route (c_type c)) as [[endpoint withUsers]|];
      [destruct frame as [image|]|]; rewrite ?Hm1; cbn; rewrite ?Hm1; cbn;
      unfold singleFlight; cbn; rewrite ?Hm1, ?Kin, ?Kint, ?Hnil; cbn;
      repeat split; auto; try lia; try congruence.
Qed.

Lemma length_removeNth {A : Type} (i : nat) (l : list A) (x : A) :
  nth_error l i = Some x -> length (removeNth i l) = pred (length l).
Proof.
  revert i. induction l as [|y l IH]; intros [|i] H; cbn in *;
    try discriminate; [reflexivity|].
  rewrite (IH i H). destruct l; [destruct i; discriminate|reflexivity].
Qed.

(** The settled part of [processFrame] leaves the set of outstanding
    requests and the interval alone. *)
Lemma processFrame_settled_keeps (p : Pending) (o : Outcome) (s : State) :
  let s' := processFrame_settled p o s in
  inflight s' = inflight s /\ interval s' = interval s
  /\ mounted s' = mounted s
  /\ (mounted s = true -> isProcessing s' = false)
  /\ (mounted s = false -> isProcessing s' = isProcessing s
                           /\ results s' = results s).
Proof.
  unfold processFrame_settled, setIsProcessing, setResults, drawResults.
  destruct o as [|[|] [data|]]; destruct (mounted s) eqn:Hm; cbn; rewrite ?Hm;
    try (cbn; repeat split; auto; congruence).
  all: destruct (canvasRef s) as [canvas|]; cbn; rewrite ?Hm; cbn;
    try (repeat split; auto; congruence).
  all: destruct (ctx2d canvas); cbn; rewrite ?Hm; cbn;
    try (repeat split; auto; congruence).
  all: destruct (match faces data with Some l => drawFaces l | None => ([], false) end)
      as [ops threw]; destruct threw; cbn; rewrite ?Hm; cbn;
    repeat split; auto; congruence.
Qed.

Lemma step_singleFlight (e : Event) (s : State) :
  singleFlight s -> (e = Tick -> fresh s) -> singleFlight (step e s).
Proof.
  intros Hs Hfresh. pose proof Hs as (Hlen & Hbusy & Hint).
  destruct e; cbn [step].
  - destruct (interval s) as [[timer c]|] eqn:Ei; [|exact Hs].
    apply processFrame_singleFlight; [exact Hs | apply Hint; congruence |].
    specialize (Hfresh eq_refl). unfold fresh in Hfresh. now rewrite Ei in Hfresh.
  - unfold commit. destruct (mounted s) eqn:Hm; [|exact Hs].
    destruct (interval s) as [[timer c]|]; [|exact Hs].
    destruct (depsChanged c s); [|exact Hs].
    unfold singleFlight. cbn. auto.
  - destruct (nth_error (inflight s) i) as [p|] eqn:Ep; [|exact Hs].
    set (s1 := with_inflight (removeNth i (inflight s)) s).
    destruct (processFrame_settled_keeps p o s1) as (Kin & Kint & Km & _).
    assert (Hnil : inflight s1 = []).
    { unfold s1. cbn. pose proof (length_removeNth i (inflight s) p Ep) as Hl.
      destruct (removeNth i (inflight s)); [reflexivity|cbn in Hl; lia]. }
    unfold singleFlight. rewrite Kin, Kint, Km, Hnil. cbn.
    repeat split; auto; congruence.
  - destruct (mounted s); [|exact Hs]. unfold singleFlight. cbn. auto.
  - destruct (mounted s); [|exact Hs]. unfold singleFlight. cbn. auto.
  - destruct (videoRef s); [|exact Hs]. unfold singleFlight. cbn. auto.
  - destruct (cameraRequests s); [exact Hs|].
    unfold startCamera_granted. cbn.
    destruct (videoRef s); unfold singleFlight; cbn; auto.
  - destruct (cameraRequests s); [exact Hs|]. unfold singleFlight. cbn. auto.
  - destruct (mounted s) eqn:Hm; [|exact Hs].
    unfold unmount, singleFlight. destruct detachedFirst; cbn.
    + repeat split; auto; congruence.
    + unfold stopCamera. destruct (videoRef s) as [video|]; cbn;
        [destruct (srcObject video); cbn|]; repeat split; auto; congruence.
Qed.

Lemma commit_fresh (s : State) : fresh s -> fresh (commit s).
Proof.
  unfold commit, fresh. destruct (mounted s); [|auto].
  destruct (interval s) as [[timer c]|] eqn:Ei; [|rewrite Ei; auto].
  destruct (depsChanged c s); cbn; [reflexivity | rewrite Ei; auto].
Qed.

(** After a committed render the armed closure has the current flag. *)
Lemma commit_makes_fresh (s : State) :
  (interval s <> None -> mounted s = true) -> fresh (commit s).
Proof.
  intros Hint. unfold commit, fresh.
  destruct (interval s) as [[timer c]|] eqn:Ei.
  - rewrite (Hint ltac:(discriminate)).
    destruct (depsChanged c s) eqn:Ed; cbn; [reflexivity|].
    rewrite Ei. unfold depsChanged in Ed.
    apply orb_false_elim in Ed as [_ Ed]. apply negb_false_iff in Ed.
    now apply Bool.eqb_prop in Ed.
  - destruct (mounted s); rewrite Ei; exact I.
Qed.

Lemma run_singleFlight (trace : list Event) :
  forall (s : State) (afterCommit : bool),
    singleFlight s -> (afterCommit = true -> fresh s) ->
    committed afterCommit trace = true ->
    singleFlight (run trace s).
Proof.
  induction trace as [|e trace IH]; intros s b Hs Hb Hc; [exact Hs|].
  cbn [run fold_left]. change (singleFlight (run trace (step e s))).
  assert (Hstep : singleFlight (step e s)).
  { apply step_singleFlight; [exact Hs|].
    intros ->. cbn in Hc. apply andb_prop in Hc as [Hb' _]. auto. }
  destruct e; cbn [committed] in Hc;
    try (apply (IH _ false); [exact Hstep | discriminate | exact Hc]).
  - apply andb_prop in Hc as [_ Hc].
    apply (IH _ false); [exact Hstep | discriminate | exact Hc].
  - apply (IH _ true); [exact Hstep | | exact Hc].
    intros _. apply commit_makes_fresh. apply Hs.
Qed.

Lemma initial_singleFlight (type : option string) : singleFlight (initial type).
Proof. unfold singleFlight. cbn. repeat split; auto; congruence. Qed.

Lemma initial_fresh (type : option string) : fresh (initial type).
Proof. reflexivity. Qed.

(** A tick right after a committed render, with a request outstanding:
    nothing is issued, nothing is queued. *)
Lemma busy_tick_issues_nothing (s : State) :
  singleFlight s -> inflight s <> [] ->
  let s' := run [Commit; Tick] s in
  inflight s' = inflight s /\ isProcessing s' = isProcessing s
  /\ results s' = results s /\ console s' = console s.
Proof.
  intros (Hlen & Hbusy & Hint) Hne. cbn [run fold_left step].
  pose proof (commit_makes_fresh s Hint) as Hf.
  assert (Hk : inflight (commit s) = inflight s
               /\ isProcessing (commit s) = isProcessing s
               /\ results (commit s) = results s
               /\ console (commit s) = console s).
  { unfold commit. destruct (mounted s); [|auto].
    destruct (interval s) as [[timer c]|]; [|auto].
    destruct (depsChanged c s); cbn; auto. }
  destruct Hk as (K1 & K2 & K3 & K4).
  unfold fresh in Hf.
  destruct (interval (commit s)) as [[timer c]|]; [|auto].
  rewrite processFrame_busy by (rewrite Hf, K2; auto).
  destruct (captureFrame_keeps (commit s)) as (_ & C1 & C2 & C3 & _ & C4 & _).
  rewrite C1, C2, C3, C4. auto.
Qed.

(** The capture loop of the Camera component tests the flag before it
    captures: a busy tick does nothing at all. *)
Lemma camera_busy_tick_does_nothing (cam : Camera.State) :
  Camera.isProcessing cam = true -> Camera.processFrame cam = cam.
Proof. intros Hb. unfold Camera.processFrame. now rewrite Hb. Qed.

(** C1, the code at the failing input.  With the request of the first tick
    outstanding, the next tick of the page's interval encodes a second
    frame before it tests the busy flag (it submits nothing), whereas the
    capture loop of the Camera component tests the flag first.  And the
    flag a tick tests is the one its closure captured: two ticks of one
    interval with no committed render in between both find it clear and
    both submit, so that two requests are outstanding. *)
Lemma busy_tick_still_encodes :
  let s0 := Samples.watching "face" in
  let busy := run [Tick; Commit] s0 in
  ((length (inflight busy) = 1%nat /\ isProcessing busy = true /\ encoded busy = 1%nat)
   /\ encoded (step Tick busy) = 2%nat
   /\ length (inflight (step Tick busy)) = 1%nat)
  /\ length (inflight (run [Tick; Tick] s0)) = 2%nat.
Proof. vm_compute. repeat split; reflexivity. Qed.

(** X28: along every run of the page in which each tick follows a
    committed render (so that its closure has the current busy flag), at
    most one request is outstanding; and while one is outstanding, the next
    such tick issues no request and queues nothing: the outstanding
    requests, the busy flag and the stored result are as before. *)
Theorem at_most_one_in_flight (type : option string) (trace : list Event) :
  committed true trace = true ->
  let s := run trace (initial type) in
  (length (inflight s) <= 1)%nat
  /\ (inflight s <> [] ->
      inflight (run [Commit; Tick] s) = inflight s
      /\ isProcessing (run [Commit; Tick] s) = isProcessing s
      /\ results (run [Commit; Tick] s) = results s).
Proof.
  intros Hc s.
  assert (Hs : singleFlight s).
  { apply (run_singleFlight trace _ true);
      [apply initial_singleFlight | intros _; apply initial_fresh | exact Hc]. }
  split; [apply Hs|].
  intros Hne. destruct (busy_tick_issues_nothing s Hs Hne) as (H1 & H2 & H3 & _).
  auto.
Qed.

Lemma at_most_one_in_flight_witness :
  let trace := [VideoFrame 640 480 "AAAA"%string; Commit; Tick; Commit; Tick] in
  let s := run trace (initial (Some "face"%string)) in
  length (inflight s) = 1%nat
  /\ inflight (run [Commit; Tick] s) = inflight s.
Proof.
  intros trace s.
  destruct (at_most_one_in_flight (Some "face"%string) trace eq_refl)
    as (_ & Hskip).
  split; [reflexivity|].
  apply Hskip. discriminate.
Defined.

(** *** Publication of results *)

Lemma processFrame_settled_ok (p : Pending) (data : Data) (s : State) :
  mounted s = true ->
  results (processFrame_settled p (Response true (Some data)) s) = Some data.
Proof.
  intros Hm.
  unfold processFrame_settled, setIsProcessing, setResults, drawResults.
  rewrite Hm. cbn.
  destruct (canvasRef s) as [canvas|]; cbn; rewrite ?Hm; cbn; [|reflexivity].
  destruct (ctx2d canvas); cbn; rewrite ?Hm; cbn; [|reflexivity].
  destruct (match faces data with Some l => drawFaces l | None => ([], false) end)
    as [ops threw]; destruct threw; cbn; rewrite ?Hm; reflexivity.
Qed.

(** C2 fails as stated: on the group page a request posted for the required
    users [alice] by interval 1 is outstanding when the user edits the list;
    the interval is replaced (it is interval 3 by then) and the response to
    the old request is stored all the same. *)
Lemma response_of_replaced_interval_is_published :
  let before :=
    run [SetRequiredUsers ["alice"%string]; Commit; Tick; Commit;
         SetRequiredUsers ["alice"%string; "bob"%string]; Commit]
      (Samples.watching "group") in
  let after := step (Settle 0 (Response true (Some Samples.aliceSeen))) before in
  map (fun p => (issuedBy p, lookupKey "requiredUsers" (body (request p))))
    (inflight before)
    = [(1%nat, Some (JStrings ["alice"%string]))]
  /\ option_map fst (interval before) = Some 3%nat
  /\ requiredUsers before = ["alice"%string; "bob"%string]
  /\ results before = None
  /\ results after = Some Samples.aliceSeen.
Proof. vm_compute. repeat split; reflexivity. Qed.

(** C2, amended: no generation is compared when a request settles.  While
    the component is mounted, an [ok] response with a JSON body is stored
    as the result whichever interval issued the request and whatever the
    route is now; once the component is unmounted the result is left as it
    was. *)
Theorem settled_response_is_published (s : State) (i : nat) (p : Pending)
    (data : Data) :
  nth_error (inflight s) i = Some p ->
  let s' := step (Settle i (Response true (Some data))) s in
  (mounted s = true -> results s' = Some data)
  /\ (mounted s = false -> results s' = results s).
Proof.
  intros Hp s'. unfold s'. cbn [step]. rewrite Hp. split; intros Hm.
  - apply processFrame_settled_ok. exact Hm.
  - set (s1 := with_inflight (removeNth i (inflight s)) s).
    destruct (processFrame_settled_keeps p (Response true (Some data)) s1)
      as (_ & _ & _ & _ & Hun).
    destruct (Hun Hm) as [_ Hr]. exact Hr.
Qed.

Lemma settled_response_is_published_witness :
  let before :=
    run [Tick; Commit; Navigate (Some "crowd"%string); Commit]
      (Samples.watching "face") in
  let gone := step (Unmount true) before in
  results (step (Settle 0 (Response true (Some Samples.aliceSeen))) before)
  = Some Samples.aliceSeen
  /\ results (step (Settle 0 (Response true (Some Samples.aliceSeen))) gone) = None.
Proof.
  intros before gone. split.
  - destruct (settled_response_is_published before 0 Samples.faceRequest
                Samples.aliceSeen eq_refl) as [Hm _].
    apply Hm. reflexivity.
  - destruct (settled_response_is_published gone 0 Samples.faceRequest
                Samples.aliceSeen eq_refl) as [_ Hu].
    apply Hu. reflexivity.
Defined.

(** *** Requests that are never answered *)

Lemma step_keeps_busy (e : Event) (s : State) :
  match e with Settle _ _ => False | _ => True end ->
  (e = Tick -> fresh s) ->
  isProcessing s = true ->
  isProcessing (step e s) = true /\ inflight (step e s) = inflight s.
Proof.
  intros He Hf Hb. destruct e; cbn [step]; try contradiction.
  - destruct (interval s) as [[timer c]|] eqn:Ei; [|auto].
    specialize (Hf eq_refl). unfold fresh in Hf. rewrite Ei in Hf.
    rewrite processFrame_busy by congruence.
    destruct (captureFrame_keeps s) as (_ & K1 & K2 & _). rewrite K1, K2. auto.
  - unfold commit. destruct (mounted s); [|auto].
    destruct (interval s) as [[timer c]|]; [|auto].
    destruct (depsChanged c s); cbn; auto.
  - destruct (mounted s); cbn; auto.
  - destruct (mounted s); cbn; auto.
  - destruct (videoRef s); cbn; auto.
  - destruct (cameraRequests s); [auto|]. unfold startCamera_granted. cbn.
    destruct (videoRef s); cbn; auto.
  - destruct (cameraRequests s); cbn; auto.
  - destruct (mounted s); [|auto]. unfold unmount.
    destruct detachedFirst; cbn; [auto|].
    unfold stopCamera. destruct (videoRef s) as [video|]; cbn;
      [destruct (srcObject video); cbn|]; auto.
Qed.

Lemma run_keeps_busy (trace : list Event) :
  forall (s : State) (afterCommit : bool),
    singleFlight s -> (afterCommit = true -> fresh s) ->
    isProcessing s = true ->
    committed afterCommit trace = true -> unanswered trace = true ->
    isProcessing (run trace s) = true /\ inflight (run trace s) = inflight s.
Proof.
  induction trace as [|e trace IH]; intros s b Hs Hb Hbusy Hc Hu; [auto|].
  cbn [run fold_left]. change (fold_left (fun st e0 => step e0 st) trace (step e s))
    with (run trace (step e s)).
  cbn [unanswered forallb] in Hu. apply andb_prop in Hu as [He Hu].
  assert (Hfresh : e = Tick -> fresh s).
  { intros ->. cbn in Hc. apply andb_prop in Hc as [Hb' _]. auto. }
  assert (Hstep : singleFlight (step e s)) by (apply step_singleFlight; assumption).
  destruct (step_keeps_busy e s) as [K1 K2];
    [destruct e; try exact I; discriminate | exact Hfresh | exact Hbusy |].
  rewrite <- K2.
  destruct e; cbn [committed] in Hc; try discriminate He;
    try (apply (IH _ false); [exact Hstep | discriminate | exact K1 | exact Hc | exact Hu]).
  - apply andb_prop in Hc as [_ Hc].
    apply (IH _ false); [exact Hstep | discriminate | exact K1 | exact Hc | exact Hu].
  - apply (IH _ true); [exact Hstep | | exact K1 | exact Hc | exact Hu].
    intros _. apply commit_makes_fresh. apply Hs.
Qed.

(** C3 fails as stated: ten seconds (ten further ticks) after a frame was
    submitted to a backend that does not answer, the request is still
    outstanding, no error was raised and the busy flag is still set. *)
Lemma unanswered_request_outlives_ten_seconds :
  let s := run (Tick :: Samples.tenSeconds) (Samples.watching "face") in
  isProcessing s = true
  /\ map (fun p => timeout (request p)) (inflight s) = [None]
  /\ console s = [].
Proof. vm_compute. repeat split; reflexivity. Qed.

(** C3, amended: the requests are issued without a time limit (the frame
    request of the live page, the group submission and the identification
    request alike), and a request settles only when the backend answers or
    the transport fails: over any run in which each tick follows a
    committed render and no request settles, the busy flag stays set and
    the outstanding requests stay outstanding. *)
Theorem busy_until_settled (s : State) (trace : list Event) :
  singleFlight s -> fresh s -> isProcessing s = true ->
  committed true trace = true -> unanswered trace = true ->
  (isProcessing (run trace s) = true /\ inflight (run trace s) = inflight s)
  /\ (forall endpoint withUsers frame users,
        timeout (frameRequest endpoint withUsers frame users) = None)
  /\ (forall g r, snd (GroupAnalysis.handleSubmit g) = Some r -> timeout r = None)
  /\ (forall a r, snd (Analysis.handleIdentifyFace a) = Some r -> timeout r = None).
Proof.
  intros Hs Hf Hb Hc Hu. split; [|split; [|split]].
  - apply (run_keeps_busy trace s true); auto.
  - reflexivity.
  - intros g r. unfold GroupAnalysis.handleSubmit.
    destruct (negb (JS.truthy (GroupAnalysis.imageBase64 g))); [discriminate|].
    destruct (GroupAnalysis.mode g); [|destruct (GroupAnalysis.requiredUsers g)];
      cbn; intros H; inversion H; reflexivity.
  - intros a r. unfold Analysis.handleIdentifyFace.
    destruct (negb (JS.truthy (Analysis.imagePreview a))); [discriminate|].
    cbn. intros H; inversion H; reflexivity.
Qed.

Lemma busy_until_settled_witness :
  let s := run [Tick; Commit] (Samples.watching "face") in
  isProcessing (run Samples.tenSeconds s) = true
  /\ inflight (run Samples.tenSeconds s) = inflight s.
Proof.
  intros s.
  assert (Hs : singleFlight s).
  { unfold singleFlight. vm_compute. repeat split; auto. }
  assert (Hf : fresh s) by (vm_compute; reflexivity).
  exact (proj1 (busy_until_settled s Samples.tenSeconds Hs Hf eq_refl eq_refl eq_refl)).
Defined.

End Scheduler.

(** ** Frames from a video that has no picture yet *)

Section Encoder.

Import CameraAnalysis.


Lemma toDataURL_truthy (w h : N) (px : string) :
  JS.truthy (Some (JS.toDataURL w h px)) = true.
Proof.
  unfold JS.toDataURL. destruct ((w =? 0)%N || (h =? 0)%N); reflexivity.
Qed.



End Encoder.

(** ** Failed cycles *)

Section Failures.

Import CameraAnalysis.

Lemma eqType_eq (a b : option string) : eqType a b = true -> a = b.
Proof.
  destruct a, b; cbn; try discriminate; [|reflexivity].
  intros H. apply String.eqb_eq in H. now subst.
Qed.

(** A failed cycle: the stored result is untouched, one line goes to the
    console, the busy flag is cleared and the interval stays armed. *)
Lemma processFrame_settled_failure (p : Pending) (o : Outcome) (s : State) :
  mounted s = true -> failure o = true ->
  let s' := processFrame_settled p o s in
  results s' = results s
  /\ console s' = (console s ++ ["Error processing frame:"%string])%list
  /\ isProcessing s' = false
  /\ interval s' = interval s
  /\ inflight s' = inflight s
  /\ mounted s' = true
  /\ videoRef s' = videoRef s /\ canvasRef s' = canvasRef s
  /\ type_ s' = type_ s.
Proof.
  intros Hm Ho. unfold processFrame_settled, setIsProcessing.
  destruct o as [|[|] [data|]]; try discriminate Ho; cbn; rewrite Hm; cbn;
    repeat split; auto.
Qed.

(** An idle, mounted page: the tick after the next committed render
    captures a frame and posts it. *)
Lemma idle_tick_submits (s : State) (frame endpoint : string) (withUsers : bool) :
  mounted s = true -> interval s <> None -> isProcessing s = false ->
  snd (captureFrame s) = Some frame -> frame <> ""%string ->
  route (type_ s) = Some (endpoint, withUsers) ->
  exists p,
    inflight (run [Commit; Tick] s) = (inflight s ++ [p])%list
    /\ url (request p) = ("http://localhost:5001" ++ endpoint)%string
    /\ lookupKey "image" (body (request p)) = Some (JString frame)
    /\ isProcessing (run [Commit; Tick] s) = true.
Proof.
  intros Hm Hint Hidle Hframe Hne Hroute.
  cbn [run fold_left step].
  assert (Hcommit : exists timer c,
             interval (commit s) = Some (timer, c)
             /\ c_isProcessing c = false /\ c_type c = type_ s
             /\ mounted (commit s) = true
             /\ inflight (commit s) = inflight s
             /\ captureFrame (commit s)
                = (fst (captureFrame (commit s)), Some frame)
             /\ mounted (fst (captureFrame (commit s))) = true
             /\ inflight (fst (captureFrame (commit s))) = inflight s).
  { unfold commit. rewrite Hm.
    destruct (interval s) as [[timer c]|] eqn:Ei; [|congruence].
    assert (Hcap : forall s2, videoRef s2 = videoRef s -> canvasRef s2 = canvasRef s ->
                              mounted s2 = true -> inflight s2 = inflight s ->
                              captureFrame s2 = (fst (captureFrame s2), Some frame)
                              /\ mounted (fst (captureFrame s2)) = true
                              /\ inflight (fst (captureFrame s2)) = inflight s).
    { intros s2 Hv Hc Hm2 Hi2. unfold captureFrame in *. rewrite Hv, Hc.
      destruct (videoRef s) as [video|]; [|discriminate].
      destruct (canvasRef s) as [canvas|]; [|discriminate].
      destruct (ctx2d canvas); [|discriminate].
      cbn in *. inversion Hframe. auto. }
    destruct (depsChanged c s) eqn:Ed.
    - exists (timers s), (closureOf s). cbn.
      destruct (Hcap (with_timers (S (timers s))
                        (with_interval (Some (timers s, closureOf s)) s)))
        as (H1 & H2 & H3); auto.
      repeat split; auto.
    - exists timer, c. unfold depsChanged in Ed.
      apply orb_false_elim in Ed as [Ed Ep]. apply orb_false_elim in Ed as [Et _].
      apply negb_false_iff in Et, Ep. apply eqType_eq in Et.
      apply Bool.eqb_prop in Ep.
      destruct (Hcap s) as (H1 & H2 & H3); auto.
      repeat split; auto; congruence. }
  destruct Hcommit as (timer & c & Hi & Hc & Ht & Hm' & Hin & Hcap & Hm1 & Hin1).
  rewrite Hi. unfold processFrame. rewrite Hcap, Hc.
  assert (Htruthy : JS.truthy (Some frame) = true).
  { cbn. destruct (String.eqb_spec frame ""); [contradiction|reflexivity]. }
  rewrite Htruthy, Ht, Hroute. cbn [negb orb].
  unfold setIsProcessing. rewrite Hm1.
  eexists. cbn. rewrite Hin1. repeat split; reflexivity.
Qed.

(** C6 fails as stated: a cycle that ends in a network error leaves the
    result of the previous cycle in place; nothing marks the failure in
    the stored result. *)
Lemma failed_cycle_keeps_previous_result :
  let before :=
    run [Tick; Commit; Settle 0 (Response true (Some Samples.aliceSeen));
         Commit; Tick; Commit]
      (Samples.watching "face") in
  let after := step (Settle 0 Rejected) before in
  results before = Some Samples.aliceSeen
  /\ length (inflight before) = 1%nat
  /\ results after = Some Samples.aliceSeen
  /\ console after = ["Error processing frame:"%string].
Proof. vm_compute. repeat split; reflexivity. Qed.

(** C6, amended: when the request of a cycle fails (no response, a
    response that is not [ok], or a body that is not JSON) the scheduler
    leaves the stored result as it was, writes the error to the console,
    clears the busy flag and keeps its interval; the tick after the next
    committed render captures a frame and posts it again.  A response that
    is [ok] is stored as the result whatever its [success] field says. *)
Theorem failed_cycle_stays_armed (s : State) (i : nat) (p : Pending) (o : Outcome) :
  mounted s = true -> interval s <> None ->
  nth_error (inflight s) i = Some p -> failure o = true ->
  let s' := step (Settle i o) s in
  (results s' = results s
   /\ console s' = (console s ++ ["Error processing frame:"%string])%list
   /\ isProcessing s' = false
   /\ interval s' = interval s
   /\ inflight s' = removeNth i (inflight s))
  /\ (forall frame endpoint withUsers,
        snd (captureFrame s) = Some frame -> frame <> ""%string ->
        route (type_ s) = Some (endpoint, withUsers) ->
        exists p',
          inflight (run [Commit; Tick] s') = (inflight s' ++ [p'])%list
          /\ url (request p') = ("http://localhost:5001" ++ endpoint)%string
          /\ lookupKey "image" (body (request p')) = Some (JString frame))
  /\ (forall data,
        results (step (Settle i (Response true (Some data))) s) = Some data).
Proof.
  intros Hm Hint Hp Ho s'. unfold s'. cbn [step]. rewrite Hp.
  set (s1 := with_inflight (removeNth i (inflight s)) s).
  destruct (processFrame_settled_failure p o s1 Hm Ho)
    as (K1 & K2 & K3 & K4 & K5 & K6 & K7 & K8 & K9).
  split; [repeat split; assumption|]. split.
  - intros frame endpoint withUsers Hframe Hne Hroute.
    destruct (idle_tick_submits (processFrame_settled p o s1) frame endpoint withUsers)
      as (p' & H1 & H2 & H3 & _); auto.
    + rewrite K4. exact Hint.
    + unfold captureFrame in *. rewrite K7, K8. cbn [videoRef canvasRef s1 with_inflight].
      destruct (videoRef s) as [video|]; [|discriminate].
      destruct (canvasRef s) as [canvas|]; [|discriminate].
      destruct (ctx2d canvas); [|discriminate]. cbn in *. exact Hframe.
    + rewrite K9. exact Hroute.
    + exists p'. auto.
  - intros data. apply processFrame_settled_ok. exact Hm.
Qed.

Lemma failed_cycle_stays_armed_witness :
  let before := run [Tick; Commit] (Samples.watching "face") in
  let after := step (Settle 0 (Response false None)) before in
  isProcessing after = false
  /\ results after = None
  /\ exists p', inflight (run [Commit; Tick] after) = [p'].
Proof.
  intros before after.
  destruct (failed_cycle_stays_armed before 0 Samples.faceRequest
              (Response false None) eq_refl ltac:(discriminate) eq_refl eq_refl)
    as ((Hr & _ & Hb & _ & _) & Hnext & _).
  split; [exact Hb|]. split; [exact Hr|].
  destruct (Hnext "data:image/jpeg;base64,AAAA"%string
              "/api/identify-face"%string false eq_refl ltac:(discriminate) eq_refl)
    as (p' & H & _).
  exists p'. exact H.
Defined.

End Failures.

(** ** Releasing the camera *)

Section FrameSource.

Import CameraAnalysis.

Lemma lookup_stopTracks (stream : Media.MediaStream)
    (t : gmap nat Media.ReadyState) (id : nat) :
  Media.stopTracks stream t !! id
  = if decide (id ∈ stream) then Some Media.ended else t !! id.
Proof.
  induction stream as [|a stream IH].
  - rewrite decide_False by apply not_elem_of_nil. reflexivity.
  - change (Media.stopTracks (a :: stream) t)
      with (<[a := Media.ended]> (Media.stopTracks stream t)).
    rewrite lookup_insert, IH.
    repeat destruct (decide _); try reflexivity; exfalso;
      match goal with
      | n : _ ∉ _ :: _ |- _ =>
          apply n; apply elem_of_cons; ((left; congruence) || (right; assumption))
      | e : _ ∈ _ :: _ |- _ =>
          apply elem_of_cons in e as [?|?]; (congruence || contradiction)
      end.
Qed.

(** Stopping the tracks of a stream twice is stopping them once. *)
Lemma stopTracks_idempotent (stream : Media.MediaStream)
    (t : gmap nat Media.ReadyState) :
  Media.stopTracks stream (Media.stopTracks stream t) = Media.stopTracks stream t.
Proof.
  apply map_eq. intros id. rewrite !lookup_stopTracks.
  destruct (decide (id ∈ stream)); reflexivity.
Qed.

(** [stopCamera] can be called again: the second call changes nothing. *)
Lemma stopCamera_idempotent (s : State) :
  stopCamera (stopCamera s) = stopCamera s.
Proof.
  unfold stopCamera. destruct (videoRef s) as [video|] eqn:Ev; [|now rewrite Ev].
  destruct (srcObject video) as [stream|] eqn:Es; cbn; rewrite Ev, ?Es; [|reflexivity].
  unfold with_tracks. cbn. now rewrite stopTracks_idempotent.
Qed.

Lemma stopCamera_iter (n : nat) (s : State) :
  Nat.iter (S n) stopCamera s = stopCamera s.
Proof.
  induction n as [|n IH]; [reflexivity|].
  change (Nat.iter (S (S n)) stopCamera s) with (stopCamera (Nat.iter (S n) stopCamera s)).
  rewrite IH. apply stopCamera_idempotent.
Qed.

(** With no stream attached to the video element, or no video element,
    [stopCamera] does nothing. *)
Lemma stopCamera_never_started (s : State) :
  match videoRef s with
  | Some video => srcObject video = None
  | None => True
  end ->
  stopCamera s = s.
Proof.
  unfold stopCamera. destruct (videoRef s) as [video|]; [|reflexivity].
  intros ->. reflexivity.
Qed.

(** Every track of the stream attached to the video element is ended by
    [stopCamera]. *)
Lemma stopCamera_ends_attached (s : State) (video : Video)
    (stream : Media.MediaStream) (id : nat) :
  videoRef s = Some video -> srcObject video = Some stream -> id ∈ stream ->
  tracks (stopCamera s) !! id = Some Media.ended.
Proof.
  intros Hv Hs Hin. unfold stopCamera. rewrite Hv, Hs. cbn.
  rewrite lookup_stopTracks. now rewrite decide_True.
Qed.

(** On the usual path the camera is released when the clean-up still sees
    the video element, and stays on when the ref is already cleared. *)
Example unmount_after_grant :
  liveTracks (run [CameraGranted 2; Unmount false] (initial (Some "face"%string))) = []
  /\ liveTracks (run [CameraGranted 2; Unmount true] (initial (Some "face"%string)))
     = [0; 1]%nat.
Proof. vm_compute. split; reflexivity. Qed.

(** C5, the code at the failing input: the page is left while
    [getUserMedia] still waits for the user, who then grants access.  The
    clean-up has already run; the new track is live, it is attached to no
    video element, and no number of [stopCamera] calls ends it.  The
    camera effect of the Camera component loses a stream in the same way,
    on unmount as well as when [isActive] is switched off and on again
    before the first grant. *)
Theorem camera_granted_after_teardown_stays_live
    (type : option string) (detachedFirst : bool) (calls : nat) :
  let s := run [Unmount detachedFirst; CameraGranted 1] (initial type) in
  liveTracks (Nat.iter calls stopCamera s) = [0%nat]
  /\ (let src := Camera.sourceRun [Camera.UnmountSource; Camera.Granted 0 1]
                   (Camera.mountSource true) in
      Media.liveTracks (Camera.tracks src) (Camera.nextTrack src) = [0%nat])
  /\ (let src := Camera.sourceRun
                   [Camera.SetActive false; Camera.Granted 0 1;
                    Camera.SetActive true; Camera.Granted 2 1;
                    Camera.UnmountSource]
                   (Camera.mountSource true) in
      Media.liveTracks (Camera.tracks src) (Camera.nextTrack src) = [0%nat]).
Proof.
  intros s. split; [|split; vm_compute; reflexivity].
  assert (Hnone : videoRef s = None) by (destruct detachedFirst; reflexivity).
  assert (Hstop : stopCamera s = s) by (apply stopCamera_never_started; now rewrite Hnone).
  assert (Hiter : Nat.iter calls stopCamera s = s).
  { destruct calls as [|n]; [reflexivity|]. now rewrite stopCamera_iter. }
  rewrite Hiter. destruct detachedFirst; vm_compute; reflexivity.
Qed.

End FrameSource.

(** * Further properties of the code *)

(** ** Strings *)

Section TextFacts.

Lemma split_not_nil (sep : ascii) (s : string) : Text.split sep s <> [].
Proof.
  induction s as [|c rest IH]; cbn; [discriminate|].
  destruct (Text.split sep rest) as [|piece pieces]; [discriminate|].
  destruct (Ascii.eqb c sep); discriminate.
Qed.

Lemma length_split (sep : ascii) (s : string) :
  length (Text.split sep s) = S (Text.occurrences sep s).
Proof.
  induction s as [|c rest IH]; cbn; [reflexivity|].
  pose proof (split_not_nil sep rest) as Hne.
  destruct (Text.split sep rest) as [|piece pieces]; [contradiction|].
  destruct (Ascii.eqb c sep); cbn in *; lia.
Qed.

Lemma join_cons (sep : ascii) (piece : string) (pieces : list string) :
  pieces <> [] ->
  Text.join sep (piece :: pieces) = (piece ++ String sep (Text.join sep pieces))%string.
Proof. destruct pieces; [contradiction|reflexivity]. Qed.

(** Joining the pieces of a split with the separator gives the string back. *)
Lemma join_split (sep : ascii) (s : string) : Text.join sep (Text.split sep s) = s.
Proof.
  induction s as [|c rest IH]; [reflexivity|].
  cbn [Text.split]. pose proof (split_not_nil sep rest) as Hne.
  destruct (Text.split sep rest) as [|piece pieces]; [contradiction|].
  destruct (Ascii.eqb_spec c sep) as [->|Hc].
  - rewrite join_cons by discriminate. rewrite IH. reflexivity.
  - destruct pieces as [|piece' pieces'].
    + cbn in *. now rewrite IH.
    + rewrite join_cons by discriminate.
      rewrite join_cons in IH by discriminate.
      rewrite <- IH. reflexivity.
Qed.

(** One step of [trimStart] and of [blank], by the code point at the head. *)
Lemma trimStart_step (s : string) :
  JS.trimStart s
  = if (JS.whiteSpace s =? 0)%nat then s
    else JS.trimStart (JS.skip (JS.whiteSpace s) s).
Proof.
  destruct s as [|c1 s1]; [reflexivity|]. cbn [JS.trimStart JS.whiteSpace].
  destruct (JS.oneByteSpace c1); [reflexivity|].
  destruct s1 as [|c2 s2]; [reflexivity|].
  destruct (JS.twoByteSpace c1 c2); [reflexivity|].
  destruct s2 as [|c3 s3]; [reflexivity|].
  destruct (JS.threeByteSpace c1 c2 c3); reflexivity.
Qed.

Lemma blank_step (s : string) :
  JS.blank s
  = match s with
    | EmptyString => true
    | _ => negb (JS.whiteSpace s =? 0)%nat && JS.blank (JS.skip (JS.whiteSpace s) s)
    end.
Proof.
  destruct s as [|c1 s1]; [reflexivity|]. cbn [JS.blank JS.whiteSpace].
  destruct (JS.oneByteSpace c1); [reflexivity|].
  destruct s1 as [|c2 s2]; [reflexivity|].
  destruct (JS.twoByteSpace c1 c2); [reflexivity|].
  destruct s2 as [|c3 s3]; [reflexivity|].
  destruct (JS.threeByteSpace c1 c2 c3); reflexivity.
Qed.

Lemma whiteSpace_le (s : string) : (JS.whiteSpace s <= String.length s)%nat.
Proof.
  destruct s as [|c1 [|c2 [|c3 s3]]]; cbn; repeat destruct (_ : bool); cbn; lia.
Qed.

Lemma length_skip (k : nat) (s : string) :
  (k <= String.length s)%nat ->
  String.length (JS.skip k s) = (String.length s - k)%nat.
Proof.
  revert s. induction k as [|k IH]; intros s Hk; cbn.
  - destruct s; cbn; lia.
  - destruct s as [|c s']; cbn in *; [lia|]. apply IH. lia.
Qed.

Lemma skip_shorter (s : string) :
  JS.whiteSpace s <> 0%nat ->
  (String.length (JS.skip (JS.whiteSpace s) s) < String.length s)%nat.
Proof.
  intros Hne. pose proof (whiteSpace_le s). rewrite length_skip by assumption. lia.
Qed.

Lemma skip_all (s : string) : JS.skip (String.length s) s = EmptyString.
Proof. induction s as [|c s IH]; [reflexivity | exact IH]. Qed.

(** A white-space code point at the head stays there when text is
    appended. *)
Lemma whiteSpace_app (a b : string) :
  JS.whiteSpace a <> 0%nat ->
  JS.whiteSpace (a ++ b) = JS.whiteSpace a
  /\ JS.skip (JS.whiteSpace a) (a ++ b) = (JS.skip (JS.whiteSpace a) a ++ b)%string.
Proof.
  destruct a as [|c1 [|c2 [|c3 a3]]]; simpl;
    repeat match goal with
           | |- context [if ?x then _ else _] => destruct x
           end;
    simpl; intros H; try (now elim H); split; reflexivity.
Qed.

(** Induction on the number of bytes. *)
Lemma string_length_ind (P : string -> Prop) :
  (forall s, (forall t, (String.length t < String.length s)%nat -> P t) -> P s) ->
  forall s, P s.
Proof.
  intros Hstep s.
  assert (H : forall n t, (String.length t < n)%nat -> P t).
  { induction n as [|n IH]; intros t Ht; [lia|].
    apply Hstep. intros u Hu. apply IH. lia. }
  apply (H (S (String.length s))). lia.
Qed.

Lemma trimStart_no_leading_space (s : string) :
  Text.startsWithSpace (JS.trimStart s) = false.
Proof.
  unfold Text.startsWithSpace.
  induction s as [s IH] using string_length_ind.
  rewrite trimStart_step. destruct (JS.whiteSpace s =? 0)%nat eqn:E.
  - now rewrite E.
  - apply IH, skip_shorter. now apply Nat.eqb_neq.
Qed.

Lemma trimStart_blank (s : string) :
  JS.blank s = true <-> JS.trimStart s = EmptyString.
Proof.
  induction s as [s IH] using string_length_ind.
  rewrite trimStart_step, blank_step. destruct s as [|c s']; [cbn; tauto|].
  destruct (JS.whiteSpace (String c s') =? 0)%nat eqn:E; cbn [negb andb].
  - split; discriminate.
  - apply IH, skip_shorter. now apply Nat.eqb_neq.
Qed.

(** White-space texts put together give a white-space text. *)
Lemma blank_app (a b : string) :
  JS.blank a = true -> JS.blank b = true -> JS.blank (a ++ b) = true.
Proof.
  induction a as [a IH] using string_length_ind. intros Ha Hb.
  destruct a as [|c a']; [exact Hb|].
  rewrite blank_step in Ha. apply andb_prop in Ha as [Hw Ha].
  apply negb_true_iff, Nat.eqb_neq in Hw.
  destruct (whiteSpace_app (String c a') b Hw) as [E1 E2].
  change (String c a' ++ b)%string with (String c (a' ++ b)).
  rewrite blank_step. cbv iota.
  change (String c (a' ++ b)) with (String c a' ++ b)%string.
  rewrite E1, E2. apply andb_true_intro. split.
  - apply negb_true_iff, Nat.eqb_neq. exact Hw.
  - apply IH; [now apply skip_shorter | exact Ha | exact Hb].
Qed.

Lemma oneSpace_blank (s : string) : Text.oneSpace s = true -> JS.blank s = true.
Proof.
  unfold Text.oneSpace. intros H. apply andb_prop in H as [Hw Hl].
  apply Nat.eqb_eq in Hl. rewrite blank_step. destruct s as [|c s']; [reflexivity|].
  rewrite Hw, Hl, skip_all. reflexivity.
Qed.

(** [trimEnd] cuts off a white-space text and nothing else. *)
Lemma trimEnd_split (s : string) :
  exists w, s = (JS.trimEnd s ++ w)%string /\ JS.blank w = true.
Proof.
  induction s as [|c s' IH]; [exists EmptyString; split; reflexivity|].
  cbn [JS.trimEnd]. destruct (JS.blank (String c s')) eqn:E.
  - exists (String c s'). split; [reflexivity | exact E].
  - destruct IH as (w & Hs & Hw). exists w. split; [|exact Hw].
    change (String c (JS.trimEnd s') ++ w)%string with (String c (JS.trimEnd s' ++ w)).
    now rewrite <- Hs.
Qed.

Lemma trimEnd_blank (s : string) :
  JS.blank (JS.trimEnd s) = true -> JS.trimEnd s = EmptyString.
Proof.
  intros H. destruct (trimEnd_split s) as (w & Hs & Hw).
  assert (Hb : JS.blank s = true) by (rewrite Hs; now apply blank_app).
  destruct s as [|c s']; [reflexivity|]. cbn [JS.trimEnd]. now rewrite Hb.
Qed.

Lemma trimEnd_keeps_head (s : string) :
  Text.startsWithSpace s = false -> Text.startsWithSpace (JS.trimEnd s) = false.
Proof.
  unfold Text.startsWithSpace. intros Hs.
  apply negb_false_iff, Nat.eqb_eq in Hs. apply negb_false_iff, Nat.eqb_eq.
  destruct (Nat.eq_dec (JS.whiteSpace (JS.trimEnd s)) 0%nat) as [|Hne]; [assumption|].
  destruct (trimEnd_split s) as (w & Hw & _).
  destruct (whiteSpace_app (JS.trimEnd s) w Hne) as [E _].
  rewrite <- Hw in E. congruence.
Qed.

Lemma trimEnd_no_trailing_space (s : string) :
  Text.endsWithSpace (JS.trimEnd s) = false.
Proof.
  induction s as [|c s' IH]; [reflexivity|].
  pose proof (trimEnd_blank (String c s')) as Hb. revert Hb.
  cbn [JS.trimEnd]. destruct (JS.blank (String c s')); [reflexivity|].
  intros Hb. cbn [Text.endsWithSpace]. rewrite IH, orb_false_r.
  destruct (Text.oneSpace (String c (JS.trimEnd s'))) eqn:E; [|reflexivity].
  apply oneSpace_blank in E. discriminate (Hb E).
Qed.

(** A trimmed text neither starts nor ends with white space. *)
Lemma trim_clean (s : string) :
  Text.startsWithSpace (JS.trim s) = false /\ Text.endsWithSpace (JS.trim s) = false.
Proof.
  unfold JS.trim. split.
  - apply trimEnd_keeps_head, trimStart_no_leading_space.
  - apply trimEnd_no_trailing_space.
Qed.

(** Trimming gives the empty text exactly for texts of white space. *)
Lemma trim_empty_iff_blank (s : string) :
  JS.trim s = EmptyString <-> JS.blank s = true.
Proof.
  unfold JS.trim. split.
  - intros H. apply trimStart_blank.
    destruct (trimEnd_split (JS.trimStart s)) as (w & Hs & Hw).
    rewrite H in Hs. change (EmptyString ++ w)%string with w in Hs.
    pose proof (trimStart_no_leading_space s) as Hl.
    unfold Text.startsWithSpace in Hl. rewrite Hs in Hl |- *.
    rewrite blank_step in Hw. destruct w as [|c w']; [reflexivity|].
    rewrite Hl in Hw. discriminate.
  - intros H. apply trimStart_blank in H. now rewrite H.
Qed.

Lemma includes_In (x : string) (l : list string) :
  Text.includes x l = true <-> In x l.
Proof.
  unfold Text.includes. rewrite existsb_exists. split.
  - intros (y & Hy & E). apply String.eqb_eq in E. now subst.
  - intros H. exists x. split; [exact H | apply String.eqb_refl].
Qed.

Lemma orDefault_not_empty (a : option string) (b : string) :
  b <> EmptyString -> orDefault a b <> EmptyString.
Proof.
  intros Hb. unfold orDefault. destruct a as [s|]; [|exact Hb].
  destruct (String.eqb_spec s ""); [exact Hb | assumption].
Qed.

End TextFacts.

(** ** The group analysis page *)

Section GroupPageFacts.

Import GroupAnalysis.
Import GroupPage.

Lemma handleSubmit_posted (s : State) (r : Request) :
  snd (handleSubmit s) = Some r ->
  (JS.truthy (imageBase64 s) = true
   /\ (mode s = analysis \/ requiredUsers s <> []))
  /\ url r = endpoint (mode s)
  /\ option_map JString (imageBase64 s) = lookupKey "image" (body r)
  /\ lookupKey "required_users" (body r)
     = match mode s with
       | verification => Some (JStrings (requiredUsers s))
       | analysis => None
       end
  /\ isProcessing (fst (handleSubmit s)) = true
  /\ error (fst (handleSubmit s)) = None
  /\ results (fst (handleSubmit s)) = None.
Proof.
  unfold handleSubmit.
  destruct (imageBase64 s) as [image|] eqn:Ei; cbn [JS.truthy negb];
    [destruct (String.eqb image "") eqn:Ee; cbn [negb]|]; [discriminate| |discriminate].
  destruct (mode s) eqn:Em; [|destruct (requiredUsers s) as [|u us] eqn:Eu]; cbn.
  - intros H. inversion H; subst. cbn. repeat split; auto.
  - discriminate.
  - intros H. inversion H; subst. cbn.
    split; [split; [reflexivity | right; discriminate]|]. repeat split; reflexivity.
Qed.

(** X1: [handleSubmit] posts a request exactly when an image is present and,
    in verification mode, at least one required user is chosen.  The
    request goes to the endpoint of the mode and carries the image; it
    carries [required_users] (the chosen users) in verification mode and no
    such key in analysis mode.  Posting sets the busy flag and clears the
    previous result and error. *)
Theorem group_submit_posts_iff (s : State) :
  (snd (handleSubmit s) <> None <->
     JS.truthy (imageBase64 s) = true
     /\ (mode s = analysis \/ requiredUsers s <> []))
  /\ (forall r, snd (handleSubmit s) = Some r ->
        url r = endpoint (mode s)
        /\ option_map JString (imageBase64 s) = lookupKey "image" (body r)
        /\ lookupKey "required_users" (body r)
           = match mode s with
             | verification => Some (JStrings (requiredUsers s))
             | analysis => None
             end
        /\ isProcessing (fst (handleSubmit s)) = true
        /\ error (fst (handleSubmit s)) = None
        /\ results (fst (handleSubmit s)) = None).
Proof.
  split.
  - split.
    + intros H. destruct (snd (handleSubmit s)) as [r|] eqn:E; [|congruence].
      exact (proj1 (handleSubmit_posted s r E)).
    + intros [Hi Hm]. unfold handleSubmit. rewrite Hi. cbn [negb].
      destruct (mode s); [discriminate|].
      destruct (requiredUsers s); [|discriminate].
      destruct Hm as [Hm|Hm]; [discriminate Hm | now elim Hm].
  - intros r H. exact (proj2 (handleSubmit_posted s r H)).
Qed.

Lemma group_submit_posts_iff_witness :
  let s := {| mode := verification;
              imageBase64 := Some "data:image/jpeg;base64,AAAA"%string;
              results := None; isProcessing := false; error := None;
              requiredUsers := ["alice"%string];
              registeredUsers := ["alice"%string; "bob"%string] |} in
  exists r, snd (handleSubmit s) = Some r
            /\ url r = "http://localhost:5001/api/verify-group"%string
            /\ lookupKey "required_users" (body r) = Some (JStrings ["alice"%string]).
Proof.
  intros s. eexists. split; [reflexivity|].
  destruct (proj2 (group_submit_posts_iff s) _ eq_refl) as (Hu & _ & Hr & _).
  split; [exact Hu | exact Hr].
Defined.

(** X2: when a posted submission settles, the busy flag is cleared and the
    page holds either a result or an error message, never both and never
    neither: the result is stored exactly for a response whose [success] is
    true, and every other outcome leaves a non-empty error message. *)
Theorem group_cycle_result_or_error (s s1 : State) (r : Request) (o : Outcome) :
  handleSubmit s = (s1, Some r) ->
  let s2 := handleSubmit_settled (mode s) o s1 in
  isProcessing s2 = false
  /\ match o with
     | Responded data =>
         if success data
         then results s2 = Some data /\ error s2 = None
         else results s2 = None /\ exists msg, error s2 = Some msg /\ msg <> ""%string
     | _ => results s2 = None /\ exists msg, error s2 = Some msg /\ msg <> ""%string
     end.
Proof.
  intros Hs s2.
  assert (H1 : results s1 = None /\ error s1 = None).
  { pose proof (handleSubmit_posted s r) as H.
    rewrite Hs in H. cbn in H. destruct (H eq_refl) as (_ & _ & _ & _ & _ & He & Hr).
    auto. }
  destruct H1 as [Hr He]. unfold s2, handleSubmit_settled.
  split; [reflexivity|].
  destruct o as [data| msg | |]; cbn.
  - destruct (success data); cbn; [auto|]. split; [exact Hr|].
    eexists. split; [reflexivity|].
    apply orDefault_not_empty. destruct (mode s); discriminate.
  - split; [exact Hr|]. eexists. split; [reflexivity|].
    apply orDefault_not_empty. discriminate.
  - split; [exact Hr|]. eexists. split; [reflexivity | discriminate].
  - split; [exact Hr|]. eexists. split; [reflexivity | discriminate].
Qed.

Lemma group_cycle_result_or_error_witness :
  let s := {| mode := analysis;
              imageBase64 := Some "data:image/jpeg;base64,AAAA"%string;
              results := None; isProcessing := false;
              error := Some "old"%string;
              requiredUsers := []; registeredUsers := [] |} in
  let s2 := handleSubmit_settled analysis NoResponse (fst (handleSubmit s)) in
  isProcessing s2 = false /\ results s2 = None.
Proof.
  intros s s2.
  destruct (group_cycle_result_or_error s (fst (handleSubmit s))
              {| url := "http://localhost:5001/api/analyze-group";
                 body := [("image"%string, JString "data:image/jpeg;base64,AAAA")];
                 timeout := None |}
              NoResponse eq_refl) as (Hb & Hr & _).
  split; [exact Hb | exact Hr].
Defined.

Lemma filter_out_absent (user : string) (l : list string) :
  ~ In user l ->
  List.filter (fun u => negb (String.eqb u user)) l = l.
Proof.
  induction l as [|a l IH]; [reflexivity|]. intros Hn. cbn.
  destruct (String.eqb_spec a user) as [->|Hne]; cbn.
  - exfalso. apply Hn. now left.
  - rewrite IH; [reflexivity|]. intros H. apply Hn. now right.
Qed.

(** X3: unchecking a user removes every occurrence of it and keeps the other
    users in their order; checking appends the user; and checking a user
    that was not chosen and unchecking it again gives the list back. *)
Theorem toggle_user_round_trip (user : string) (s : State) :
  (~ In user (requiredUsers (toggleUser user false s)))
  /\ (forall u, u <> user ->
        (In u (requiredUsers (toggleUser user false s)) <-> In u (requiredUsers s)))
  /\ requiredUsers (toggleUser user true s) = (requiredUsers s ++ [user])%list
  /\ (~ In user (requiredUsers s) ->
      requiredUsers (toggleUser user false (toggleUser user true s)) = requiredUsers s).
Proof.
  unfold toggleUser. cbn. split; [|split; [|split]].
  - intros Hin. apply filter_In in Hin as [_ Hin].
    rewrite String.eqb_refl in Hin. discriminate.
  - intros u Hu. split.
    + intros Hin. apply filter_In in Hin. tauto.
    + intros Hin. apply filter_In. split; [exact Hin|].
      destruct (String.eqb_spec u user); [contradiction | reflexivity].
  - reflexivity.
  - intros Hn. rewrite List.filter_app. cbn. rewrite String.eqb_refl. cbn.
    rewrite app_nil_r. now apply filter_out_absent.
Qed.

Lemma toggle_user_round_trip_witness :
  let s := {| mode := verification; imageBase64 := None; results := None;
              isProcessing := false; error := None;
              requiredUsers := ["alice"%string];
              registeredUsers := ["alice"%string; "bob"%string] |} in
  requiredUsers (toggleUser "bob" false (toggleUser "bob" true s)) = ["alice"%string].
Proof.
  intros s.
  destruct (toggle_user_round_trip "bob" s) as (_ & _ & _ & Hback).
  apply Hback. cbn. intros [H|[]]. discriminate H.
Defined.

Lemma handleSubmit_keeps_users (s : State) :
  requiredUsers (fst (handleSubmit s)) = requiredUsers s
  /\ registeredUsers (fst (handleSubmit s)) = registeredUsers s.
Proof.
  unfold handleSubmit. destruct (negb (JS.truthy (imageBase64 s))); [split; reflexivity|].
  destruct (mode s); [|destruct (requiredUsers s) eqn:E]; cbn; rewrite ?E;
    split; reflexivity.
Qed.

Lemma handleSubmit_settled_keeps_users (m : Mode) (o : Outcome) (s : State) :
  requiredUsers (handleSubmit_settled m o s) = requiredUsers s
  /\ registeredUsers (handleSubmit_settled m o s) = registeredUsers s
  /\ mode (handleSubmit_settled m o s) = mode s.
Proof.
  unfold handleSubmit_settled. destruct o as [data| | |]; cbn;
    [destruct (success data)|..]; repeat split; reflexivity.
Qed.

Lemma NoDup_snoc_absent (l : list string) (x : string) :
  List.NoDup l -> ~ In x l -> List.NoDup (l ++ [x]).
Proof.
  induction l as [|a l IH]; intros Hl Hx; cbn.
  - constructor; [intros []|constructor].
  - inversion Hl as [|? ? Ha Hl']; subst. constructor.
    + intros Hin. apply in_app_iff in Hin as [Hin|[Hin|[]]]; [contradiction|].
      subst. apply Hx. now left.
    + apply IH; [exact Hl'|]. intros Hin. apply Hx. now right.
Qed.

Lemma step_wellFormed (users : list string) (e : Event) (p : Page) :
  wellFormed users p -> wellFormed users (step e p).
Proof.
  intros (Hreg & Hnd & Hsub & Hlen & Hbusy & Hposted).
  destruct e as [user|m|file|webcam| |o]; cbn [step].
  - destruct (isVerification (mode (state p)) && Text.includes user (registeredUsers (state p)))
      eqn:Eg; [|repeat split; assumption].
    apply andb_prop in Eg as [_ Ein]. apply includes_In in Ein. rewrite Hreg in Ein.
    unfold wellFormed, clickUser, toggleUser. cbn [state awaiting posted].
    destruct (Text.includes user (requiredUsers (state p))) eqn:Ec; cbn [negb].
    + cbn. repeat split; auto.
      * now apply List.NoDup_filter.
      * intros u Hu. apply filter_In in Hu as [Hu _]. auto.
    + cbn. repeat split; auto.
      * apply NoDup_snoc_absent; [exact Hnd|].
        intros Hin. apply includes_In in Hin. congruence.
      * intros u Hu. apply in_app_iff in Hu as [Hu|[Hu|[]]]; [auto | now subst].
  - unfold wellFormed. cbn. repeat split; auto.
  - unfold wellFormed, handleFileChange. cbn [state awaiting posted].
    destruct file; cbn; repeat split; auto.
  - unfold wellFormed, captureImage. cbn [state awaiting posted].
    destruct webcam as [src|]; [destruct (JS.truthy src)|]; cbn; repeat split; auto.
  - destruct (isProcessing (state p)) eqn:Ep; [repeat split; auto|].
    assert (Hnil : awaiting p = []).
    { destruct (awaiting p) as [|m l] eqn:E; [reflexivity|].
      assert (Habs : false = true) by (apply Hbusy; discriminate).
      discriminate Habs. }
    destruct (handleSubmit_keeps_users (state p)) as [K1 K2].
    pose proof (fun r => handleSubmit_posted (state p) r) as Hreq.
    destruct (handleSubmit (state p)) as [s' [r|]] eqn:Es; cbn [fst snd] in *.
    + destruct (Hreq r eq_refl) as ((_ & Hguard) & Hu & _ & Hr & Hp & _).
      unfold wellFormed. cbn [state awaiting posted]. rewrite K1, K2, Hnil.
      split; [exact Hreg|]. split; [exact Hnd|]. split; [exact Hsub|].
      split; [cbn; lia|]. split; [intros _; exact Hp|].
      apply Forall_app. split; [exact Hposted|]. constructor; [|constructor].
      intros Hv. rewrite Hu in Hv.
      destruct (mode (state p)) eqn:Em; [discriminate Hv|].
      exists (requiredUsers (state p)).
      split; [exact Hr|]. split; [|split; [exact Hnd | exact Hsub]].
      destruct Hguard as [H|H]; [discriminate H | exact H].
    + unfold wellFormed. cbn [state awaiting posted]. rewrite K1, K2, Hnil.
      split; [exact Hreg|]. split; [exact Hnd|]. split; [exact Hsub|].
      split; [cbn; lia|]. split; [intros H; now contradiction H | exact Hposted].
  - destruct (awaiting p) as [|m rest] eqn:Ea.
    + unfold wellFormed. rewrite Ea.
      split; [exact Hreg|]. split; [exact Hnd|]. split; [exact Hsub|].
      split; [exact Hlen|]. split; [exact Hbusy | exact Hposted].
    + destruct (handleSubmit_settled_keeps_users m o (state p)) as (K1 & K2 & _).
      assert (Hrest : rest = []) by (destruct rest; [reflexivity | cbn in Hlen; lia]).
      unfold wellFormed. cbn [state awaiting posted]. rewrite K1, K2, Hrest.
      split; [exact Hreg|]. split; [exact Hnd|]. split; [exact Hsub|].
      split; [cbn; lia|]. split; [intros H; now contradiction H | exact Hposted].
Qed.

Lemma loaded_wellFormed (users : list string) : wellFormed users (loaded users).
Proof.
  unfold wellFormed, loaded. cbn.
  split; [reflexivity|]. split; [constructor|]. split; [intros u []|].
  split; [lia|]. split; [intros H; now contradiction H | constructor].
Qed.

Lemma run_wellFormed (users : list string) (trace : list Event) :
  forall p, wellFormed users p -> wellFormed users (run trace p).
Proof.
  induction trace as [|e trace IH]; intros p Hp; [exact Hp|].
  cbn [run fold_left]. apply IH. now apply step_wellFormed.
Qed.

(** X4: whatever the user does on the group page once the registered users
    are loaded, every request that goes to the verify-group endpoint names
    at least one user, no user twice, and registered users only. *)
Theorem verify_requests_name_registered_users (users : list string)
    (trace : list Event) (r : Request) :
  In r (posted (run trace (loaded users))) ->
  url r = "http://localhost:5001/api/verify-group"%string ->
  exists us,
    lookupKey "required_users" (body r) = Some (JStrings us)
    /\ us <> []
    /\ List.NoDup us
    /\ (forall u, In u us -> In u users).
Proof.
  intros Hin Hurl.
  destruct (run_wellFormed users trace _ (loaded_wellFormed users))
    as (_ & _ & _ & _ & _ & Hposted).
  rewrite List.Forall_forall in Hposted. exact (Hposted r Hin Hurl).
Qed.

Lemma verify_requests_name_registered_users_witness :
  let trace := [FileChosen (Some "data:image/jpeg;base64,AAAA"%string);
                SwitchMode verification; Click "bob"%string; Click "eve"%string;
                Click "alice"%string; Click "bob"%string; Submit] in
  exists us,
    map (lookupKey "required_users") (map body (posted (run trace
          (loaded ["alice"%string; "bob"%string]))))
    = [Some (JStrings us)]
    /\ us <> [] /\ (forall u, In u us -> In u ["alice"%string; "bob"%string]).
Proof.
  intros trace.
  destruct (verify_requests_name_registered_users ["alice"%string; "bob"%string] trace
              {| url := "http://localhost:5001/api/verify-group";
                 body := [("image"%string, JString "data:image/jpeg;base64,AAAA");
                          ("required_users"%string, JStrings ["alice"%string])];
                 timeout := None |})
    as (us & Hl & Hne & _ & Hsub).
  - left. reflexivity.
  - reflexivity.
  - exists us. split; [|split; assumption].
    cbn in Hl. inversion Hl; subst. reflexivity.
Defined.

(** X5: the submit button is disabled while a submission is processed, so
    at most one request of the group page is outstanding at any time, and
    the busy flag is set for as long as one is. *)
Theorem group_page_one_request_at_a_time (users : list string) (trace : list Event) :
  let p := run trace (loaded users) in
  (length (awaiting p) <= 1)%nat
  /\ (awaiting p <> [] -> isProcessing (state p) = true)
  /\ (awaiting p <> [] -> step Submit p = p).
Proof.
  intros p.
  destruct (run_wellFormed users trace _ (loaded_wellFormed users))
    as (_ & _ & _ & Hlen & Hbusy & _).
  fold p in Hlen, Hbusy. split; [exact Hlen|]. split; [exact Hbusy|].
  intros Hne. cbn [step]. now rewrite (Hbusy Hne).
Qed.

Lemma group_page_one_request_at_a_time_witness :
  let p := run [FileChosen (Some "data:image/jpeg;base64,AAAA"%string); Submit]
             (loaded ["alice"%string]) in
  awaiting p <> [] /\ isProcessing (state p) = true /\ step Submit p = p.
Proof.
  intros p.
  assert (Hne : awaiting p <> []) by (vm_compute; discriminate).
  destruct (group_page_one_request_at_a_time ["alice"%string]
              [FileChosen (Some "data:image/jpeg;base64,AAAA"%string); Submit])
    as (_ & Hb & Hs).
  split; [exact Hne|]. split; [exact (Hb Hne) | exact (Hs Hne)].
Defined.

(** X6: when a submission of the group page is answered with [success],
    the response is stored and which block the page shows is decided by the
    mode at that time, whatever the mode of the submission was (the mode
    buttons stay enabled while a request is out).  In verification mode the
    page shows the verification block and not the analysis block; its
    verdict is "Verification Successful" exactly when the response says
    [verified], and "Verification Failed" otherwise; the users listed under
    "Missing Users:" are exactly the [missing_users] of the response, the
    heading being left out when there are none, and likewise the extra
    users.  In analysis mode it shows the analysis block for the faces of
    the response and no verification block, also for the response to a
    verification request. *)
Theorem verification_view_reports (p : Page) (m : Mode) (rest : list Mode)
    (data : ResultResponse) :
  awaiting p = m :: rest ->
  success data = true ->
  let s2 := state (step (Settle (Responded data)) p) in
  mode s2 = mode (state p)
  /\ results s2 = Some data
  /\ match mode (state p) with
     | verification =>
         analysisView s2 = None
         /\ exists v,
             verificationView s2 = Some v
             /\ verdict v
                = (if match verified data with Some true => true | _ => false end
                   then "Verification Successful" else "Verification Failed")%string
             /\ (forall u, (exists l, missingList v = Some l /\ In u l)
                           <-> (exists l, missing_users data = Some l /\ In u l))
             /\ (missingList v = None
                 <-> missing_users data = None \/ missing_users data = Some [])
             /\ (forall u, (exists l, extraList v = Some l /\ In u l)
                           <-> (exists l, extra_users data = Some l /\ In u l))
     | analysis =>
         verificationView s2 = None
         /\ analysisView s2
            = Some (length (faces data),
                    match faces data with
                    | [] => None
                    | l => Some (map analysisRow l)
                    end)
     end.
Proof.
  intros Ha Hok s2.
  assert (Hs2 : s2 = setIsProcessing false (setResults (Some data) (state p))).
  { unfold s2. cbn [step]. rewrite Ha. cbn [state].
    unfold handleSubmit_settled. now rewrite Hok. }
  assert (Hm2 : mode s2 = mode (state p)) by (rewrite Hs2; reflexivity).
  assert (Hr2 : results s2 = Some data) by (rewrite Hs2; reflexivity).
  split; [exact Hm2|]. split; [exact Hr2|].
  unfold analysisView, verificationView. rewrite Hr2, Hm2.
  destruct (mode (state p)); [split; reflexivity|].
  split; [reflexivity|]. eexists. split; [reflexivity|]. cbn.
  assert (Hshown : forall (o : option (list string)) u,
             (exists l, shownList o = Some l /\ In u l)
             <-> (exists l, o = Some l /\ In u l)).
  { intros [[|a l]|] u; cbn; split; intros (l' & E & Hin); try discriminate.
    - inversion E; subst. destruct Hin.
    - exists l'. auto.
    - exists l'. auto. }
  split; [destruct (verified data) as [[|]|]; reflexivity|].
  split; [apply Hshown|]. split; [|apply Hshown].
  destruct (missing_users data) as [[|a l]|]; cbn; split; auto;
    try discriminate; intros [H|H]; discriminate.
Qed.

Lemma verification_view_reports_witness :
  let data := {| success := true;
                 faces := [{| name := "alice"; confidence := 1 # 2;
                              box := (0, 0, 64, 64) |}];
                 total_faces := None; identified_count := None;
                 message := None; verified := Some false;
                 missing_users := Some ["bob"%string];
                 extra_users := Some [] |} in
  let p := run [SwitchMode verification; Click "alice"; Click "bob";
                FileChosen (Some "data:image/jpeg;base64,AAAA"%string); Submit;
                SwitchMode analysis]
             (loaded ["alice"%string; "bob"%string]) in
  let s2 := state (step (Settle (Responded data)) p) in
  verificationView s2 = None
  /\ analysisView s2 = Some (1%nat, Some [("Matched alice", "50.00% confidence")%string]).
Proof.
  intros data p s2.
  destruct (verification_view_reports p verification [] data eq_refl eq_refl)
    as (_ & _ & Hview).
  exact Hview.
Defined.

End GroupPageFacts.

(** ** The live camera page *)

Section CameraPageFacts.

Import CameraAnalysis.
Import CameraPage.

(** X7: what the "Required Users" field stores is the list of the pieces
    between the commas of the typed text, each trimmed: one more entry than
    there are commas, never an empty list (typing nothing gives one empty
    name), no entry starting or ending with white space; joining the
    untrimmed pieces with commas gives the typed text back. *)
Theorem typed_users_are_trimmed_pieces (value : string) :
  let users := parseUsers value in
  length users = S (Text.occurrences ","%char value)
  /\ users <> []
  /\ Forall (fun u => Text.startsWithSpace u = false /\ Text.endsWithSpace u = false)
       users
  /\ Text.join ","%char (Text.split ","%char value) = value
  /\ parseUsers "" = [""%string]
  /\ parseUsers " alice ,bob,"%string = ["alice"%string; "bob"%string; ""%string].
Proof.
  intros users. unfold users, parseUsers.
  split; [now rewrite length_map, length_split|].
  split.
  { intros H. apply map_eq_nil in H. exact (split_not_nil _ _ H). }
  split.
  { apply List.Forall_forall. intros u Hu. apply in_map_iff in Hu as (x & <- & _).
    apply trim_clean. }
  split; [apply join_split|]. split; reflexivity.
Qed.

Ltac split_matches :=
  repeat match goal with
         | |- context [match ?x with _ => _ end] => destruct x eqn:?; cbn
         end.

(** [processFrame] and its settled part leave the camera alone. *)
Lemma processFrame_keeps_camera (c : Closure) (t : nat) (s : State) :
  let s' := processFrame c t s in
  mounted s' = mounted s /\ tracks s' = tracks s /\ nextTrack s' = nextTrack s
  /\ cameraRequests s' = cameraRequests s /\ videoRef s' = videoRef s.
Proof.
  assert (Hcap : let s1 := fst (captureFrame s) in
                 mounted s1 = mounted s /\ tracks s1 = tracks s
                 /\ nextTrack s1 = nextTrack s
                 /\ cameraRequests s1 = cameraRequests s /\ videoRef s1 = videoRef s).
  { unfold captureFrame. split_matches; repeat split; congruence. }
  unfold processFrame. destruct (captureFrame s) as [s1 frame].
  cbn [fst] in Hcap. destruct Hcap as (K1 & K2 & K3 & K4 & K5).
  unfold setIsProcessing, consoleError.
  destruct (negb (JS.truthy frame) || c_isProcessing c); [auto|].
  destruct (route (c_type c)) as [[endpoint withUsers]|];
    [destruct frame as [image|]|]; cbn; destruct (mounted s1) eqn:Em;
    cbn; rewrite ?Em; cbn; rewrite ?Em; cbn; repeat split; congruence.
Qed.

Lemma processFrame_settled_keeps_camera (p : Pending) (o : Outcome) (s : State) :
  let s' := processFrame_settled p o s in
  mounted s' = mounted s /\ tracks s' = tracks s /\ nextTrack s' = nextTrack s
  /\ cameraRequests s' = cameraRequests s /\ videoRef s' = videoRef s.
Proof.
  unfold processFrame_settled, setIsProcessing, setResults, drawResults.
  destruct o as [|[|] [data|]]; destruct (mounted s) eqn:Hm; cbn; rewrite ?Hm;
    try (cbn; repeat split; auto; congruence).
  all: destruct (canvasRef s) as [canvas|]; cbn; rewrite ?Hm; cbn;
    try (repeat split; auto; congruence).
  all: destruct (ctx2d canvas); cbn; rewrite ?Hm; cbn;
    try (repeat split; auto; congruence).
  all: destruct (match faces data with Some l => drawFaces l | None => ([], false) end)
      as [ops threw]; destruct threw; cbn; rewrite ?Hm; cbn;
    repeat split; auto; congruence.
Qed.

Lemma lookup_grantTracks (stream : Media.MediaStream)
    (t : gmap nat Media.ReadyState) (id : nat) :
  Media.grantTracks stream t !! id = Some Media.live ->
  In id stream \/ t !! id = Some Media.live.
Proof.
  induction stream as [|a stream IH]; [auto|].
  change (Media.grantTracks (a :: stream) t)
    with (<[a := Media.live]> (Media.grantTracks stream t)).
  destruct (Nat.eq_dec a id) as [->|Hne].
  - intros _. left. now left.
  - rewrite lookup_insert_ne by exact Hne. intros H.
    destruct (IH H) as [Hin|Hl]; [left; now right | now right].
Qed.

Lemma step_cameraHeld (e : Event) (s : State) :
  match e with Unmount _ => False | _ => True end ->
  cameraHeld s -> cameraHeld (step e s).
Proof.
  intros He (Hm & (video & Hv) & Hatt & Hle & Hwait).
  destruct e; cbn [step]; try contradiction.
  - destruct (interval s) as [[timer c]|];
      [|unfold cameraHeld; eauto 10].
    destruct (processFrame_keeps_camera c timer s) as (K1 & K2 & _ & K4 & K5).
    unfold cameraHeld. rewrite K1, K2, K4, K5. eauto 10.
  - unfold commit. rewrite Hm.
    destruct (interval s) as [[timer c]|]; [|unfold cameraHeld; eauto 10].
    destruct (depsChanged c s); unfold cameraHeld; cbn; eauto 10.
  - destruct (nth_error (inflight s) i) as [p|]; [|unfold cameraHeld; eauto 10].
    destruct (processFrame_settled_keeps_camera p o
                (with_inflight (removeNth i (inflight s)) s))
      as (K1 & K2 & _ & K4 & K5).
    unfold cameraHeld. rewrite K1, K2, K4, K5. cbn. eauto 10.
  - rewrite Hm. unfold cameraHeld. cbn. eauto 10.
  - rewrite Hm. unfold cameraHeld. cbn. eauto 10.
  - rewrite Hv. unfold cameraHeld. cbn.
    split; [exact Hm|]. split; [eauto|]. split; [|auto].
    intros id Hid. destruct (Hatt id Hid) as (v' & stream & Hv' & Hs & Hin).
    rewrite Hv in Hv'. inversion Hv'; subst v'.
    eexists _, stream. cbn. auto.
  - destruct (cameraRequests s) as [|k] eqn:Ek; [unfold cameraHeld; rewrite Ek; eauto 10|].
    assert (k = 0%nat) by lia. subst k.
    specialize (Hwait eq_refl).
    unfold startCamera_granted. cbn. rewrite Hv. unfold cameraHeld. cbn.
    rewrite Ek. cbn.
    split; [exact Hm|]. split; [eauto|]. split; [|split; [lia | discriminate]].
    intros id Hid. rewrite Hwait in Hid.
    apply lookup_grantTracks in Hid as [Hin|Hl].
    + eexists _, _. cbn. eauto.
    + rewrite lookup_empty in Hl. discriminate.
  - destruct (cameraRequests s) as [|k] eqn:Ek; [unfold cameraHeld; rewrite Ek; eauto 10|].
    unfold startCamera_denied, cameraHeld. cbn. rewrite Ek. cbn.
    split; [exact Hm|]. split; [eauto|]. split; [exact Hatt|]. split; [lia|].
    intros Hk. lia.
Qed.

Lemma run_cameraHeld (trace : list Event) :
  forall s, staysMounted trace = true -> cameraHeld s -> cameraHeld (run trace s).
Proof.
  induction trace as [|e trace IH]; intros s Ht Hs; [exact Hs|].
  cbn in Ht. apply andb_prop in Ht as [He Ht].
  cbn [run fold_left]. apply IH; [exact Ht|].
  apply step_cameraHeld; [destruct e; try exact I; discriminate | exact Hs].
Qed.

Lemma initial_cameraHeld (type : option string) : cameraHeld (initial type).
Proof.
  unfold cameraHeld. cbn. split; [reflexivity|]. split; [eauto|].
  split; [|split; [lia | reflexivity]].
  intros id H. rewrite lookup_empty in H. discriminate.
Qed.

Lemma filter_none {A : Type} (f : A -> bool) (l : list A) :
  (forall x, In x l -> f x = false) -> List.filter f l = [].
Proof.
  induction l as [|a l IH]; intros H; [reflexivity|]. cbn.
  rewrite (H a) by now left. apply IH. intros x Hx. apply H. now right.
Qed.

(** X8: as long as the page is mounted, [stopCamera] ends every live track:
    after any events that do not unmount the page, no track handed out by
    [getUserMedia] is live once [stopCamera] has run, and the same holds
    after an unmount whose clean-up still sees the video element. *)
Theorem stopCamera_releases_camera (type : option string) (trace : list Event) :
  staysMounted trace = true ->
  let s := run trace (initial type) in
  liveTracks (stopCamera s) = []
  /\ liveTracks (step (Unmount false) s) = [].
Proof.
  intros Ht s.
  destruct (run_cameraHeld trace (initial type) Ht (initial_cameraHeld type))
    as (Hm & (video & Hv) & Hatt & _).
  fold s in Hm, Hv, Hatt.
  assert (Hstop : liveTracks (stopCamera s) = []).
  { unfold liveTracks, Media.liveTracks. apply filter_none. intros id _.
    destruct (tracks (stopCamera s) !! id) as [[|]|] eqn:El; [|reflexivity..].
    exfalso. unfold stopCamera in El. rewrite Hv in El.
    destruct (srcObject video) as [stream|] eqn:Es.
    - cbn in El. rewrite lookup_stopTracks in El.
      destruct (decide (id ∈ stream)) as [Hin|Hnin]; [discriminate|].
      destruct (Hatt id El) as (v' & st' & Hv' & Hs' & Hin').
      rewrite Hv in Hv'. inversion Hv'; subst v'. rewrite Es in Hs'.
      inversion Hs'; subst st'. apply Hnin. now apply list_elem_of_In.
    - destruct (Hatt id El) as (v' & st' & Hv' & Hs' & _).
      rewrite Hv in Hv'. inversion Hv'; subst v'. congruence. }
  split; [exact Hstop|].
  cbn [step]. rewrite Hm. unfold unmount, liveTracks in *. cbn. exact Hstop.
Qed.

Lemma stopCamera_releases_camera_witness :
  liveTracks (stopCamera (run [CameraGranted 2; VideoFrame 640 480 "AAAA"%string; Tick]
                            (initial (Some "face"%string)))) = [].
Proof.
  exact (proj1 (stopCamera_releases_camera (Some "face"%string)
                  [CameraGranted 2; VideoFrame 640 480 "AAAA"%string; Tick] eq_refl)).
Defined.

End CameraPageFacts.

Section CameraPageRequests.

Import CameraAnalysis.
Import CameraPage.

Lemma step_idleUnknown (e : Event) (s : State) :
  match e with
  | Navigate t => route t = None
  | _ => True
  end ->
  idleUnknown s -> idleUnknown (step e s).
Proof.
  intros He Hs. pose proof Hs as (Hin & Hidle & Hroute & Harmed & Hclo).
  destruct e; cbn [step].
  - destruct (interval s) as [[timer c]|] eqn:Ei; [|exact Hs].
    destruct Hclo as [Hrc Hpc].
    destruct (captureFrame_keeps s)
      as (Km & Kin & Kp & _ & Kint & _ & Kt & _).
    unfold processFrame. destruct (captureFrame s) as [s1 frame]. cbn [fst] in *.
    rewrite Hpc, Hrc, orb_false_r.
    assert (Hs1 : idleUnknown s1).
    { unfold idleUnknown. rewrite Kin, Kp, Kt, Km, Kint, Ei. repeat split; auto. }
    destruct (negb (JS.truthy frame)); [exact Hs1|].
    unfold setIsProcessing, consoleError. cbn.
    destruct (mounted s1) eqn:Em1; cbn; rewrite ?Em1; cbn;
      unfold idleUnknown; cbn; rewrite ?Kin, ?Kp, ?Kt, ?Kint, ?Ei, ?Em1;
      repeat split; auto; discriminate.
  - unfold commit. destruct (mounted s) eqn:Em; [|exact Hs].
    destruct (interval s) as [[timer c]|] eqn:Ei; [|exact Hs].
    destruct (depsChanged c s); [|exact Hs].
    unfold idleUnknown. cbn. repeat split; auto; discriminate.
  - rewrite Hin. destruct i; exact Hs.
  - destruct (mounted s) eqn:Em; [|exact Hs].
    unfold idleUnknown. cbn. repeat split; auto.
  - destruct (mounted s) eqn:Em; [|exact Hs].
    unfold idleUnknown. cbn. repeat split; auto.
  - destruct (videoRef s); [|exact Hs]. unfold idleUnknown. cbn. repeat split; auto.
  - destruct (cameraRequests s); [exact Hs|].
    unfold startCamera_granted. cbn.
    destruct (videoRef s); unfold idleUnknown; cbn; repeat split; auto.
  - destruct (cameraRequests s); [exact Hs|].
    unfold idleUnknown. cbn. repeat split; auto.
  - destruct (mounted s) eqn:Em; [|exact Hs].
    unfold unmount, idleUnknown. destruct detachedFirst; cbn.
    + repeat split; auto; discriminate.
    + unfold stopCamera. destruct (videoRef s) as [video|]; cbn;
        [destruct (srcObject video); cbn|]; repeat split; auto; discriminate.
Qed.

Lemma run_idleUnknown (trace : list Event) :
  forall s, unknownTypes trace = true -> idleUnknown s -> idleUnknown (run trace s).
Proof.
  induction trace as [|e trace IH]; intros s Ht Hs; [exact Hs|].
  cbn in Ht. apply andb_prop in Ht as [He Ht].
  cbn [run fold_left]. apply IH; [exact Ht|].
  apply step_idleUnknown; [|exact Hs].
  destruct e; try exact I. destruct (route type); [discriminate | reflexivity].
Qed.

(** X9: a route parameter other than [face], [group] and [crowd] makes
    [processFrame] throw before it posts anything.  As long as the page is
    only ever given such parameters, no request is issued and the busy flag
    stays clear, whatever else happens; and each tick that captures a frame
    writes one "Invalid analysis type" line to the console. *)
Theorem unknown_type_never_submits (type : option string) (trace : list Event) :
  route type = None ->
  unknownTypes trace = true ->
  let s := run trace (initial type) in
  inflight s = []
  /\ isProcessing s = false
  /\ (forall frame, snd (captureFrame s) = Some frame -> frame <> ""%string ->
        mounted s = true ->
        console (step Tick s)
        = (console s ++ ["Error processing frame: Invalid analysis type"%string])%list
        /\ inflight (step Tick s) = []).
Proof.
  intros Hr Ht s.
  assert (Hinit : idleUnknown (initial type)).
  { unfold idleUnknown. cbn. repeat split; auto; discriminate. }
  destruct (run_idleUnknown trace _ Ht Hinit) as (Hin & Hidle & Hroute & Harmed & Hclo).
  fold s in Hin, Hidle, Hroute, Harmed, Hclo.
  split; [exact Hin|]. split; [exact Hidle|].
  intros frame Hframe Hne Hm. cbn [step].
  destruct (interval s) as [[timer c]|] eqn:Ei; [|exfalso; now apply Harmed].
  destruct Hclo as [Hrc Hpc].
  destruct (captureFrame_keeps s) as (Km & Kin & _ & _ & _ & Kc & _).
  unfold processFrame. destruct (captureFrame s) as [s1 fr]. cbn [fst snd] in *.
  subst fr. rewrite Hpc, Hrc, orb_false_r.
  assert (Htruthy : JS.truthy (Some frame) = true).
  { cbn. destruct (String.eqb_spec frame ""); [contradiction | reflexivity]. }
  rewrite Htruthy. cbn [negb]. unfold setIsProcessing, consoleError.
  rewrite Km, Hm. cbn. rewrite Km, Hm. cbn. rewrite Kc, Kin. auto.
Qed.

Lemma unknown_type_never_submits_witness :
  let s := run [VideoFrame 640 480 "AAAA"%string; Tick; Commit;
                Navigate (Some "faces"%string); Commit; Tick]
             (initial None) in
  inflight s = [] /\ isProcessing s = false.
Proof.
  intros s.
  destruct (unknown_type_never_submits None
              [VideoFrame 640 480 "AAAA"%string; Tick; Commit;
               Navigate (Some "faces"%string); Commit; Tick] eq_refl eq_refl)
    as (H1 & H2 & _).
  split; assumption.
Defined.

Lemma toDataURL_is_data_url (w h : N) (px : string) :
  exists tail, JS.toDataURL w h px = ("data:" ++ tail)%string.
Proof.
  unfold JS.toDataURL. destruct ((w =? 0)%N || (h =? 0)%N).
  - exists ","%string. reflexivity.
  - exists ("image/jpeg;base64," ++ px)%string. reflexivity.
Qed.

Lemma Forall_removeNth {A : Type} (P : A -> Prop) (i : nat) (l : list A) :
  Forall P l -> Forall P (removeNth i l).
Proof.
  revert i. induction l as [|a l IH]; intros i H; [destruct i; exact H|].
  inversion H; subst. destruct i; cbn; [assumption|]. constructor; auto.
Qed.

Lemma processFrame_shaped (c : Closure) (t : nat) (s : State) :
  Forall shaped (inflight s) -> Forall shaped (inflight (processFrame c t s)).
Proof.
  intros Hs. destruct (captureFrame_keeps s) as (_ & Kin & _).
  assert (Hframe : forall image, snd (captureFrame s) = Some image ->
                                 exists tail, image = ("data:" ++ tail)%string).
  { unfold captureFrame. destruct (videoRef s) as [video|]; [|discriminate].
    destruct (canvasRef s) as [canvas|]; [|discriminate].
    destruct (ctx2d canvas); [|discriminate]. cbn. intros image H. inversion H.
    apply toDataURL_is_data_url. }
  unfold processFrame. destruct (captureFrame s) as [s1 frame]. cbn [fst snd] in *.
  destruct (negb (JS.truthy frame) || c_isProcessing c); [now rewrite Kin|].
  unfold setIsProcessing, consoleError.
  destruct (route (c_type c)) as [[endpoint withUsers]|] eqn:Er;
    [destruct frame as [image|]|]; cbn;
    destruct (mounted s1) eqn:Em; cbn; rewrite ?Em; cbn; rewrite ?Kin; auto.
  all: apply Forall_app; split; [exact Hs|]; constructor; [|constructor];
    destruct (Hframe image eq_refl) as [tail ->];
    exists endpoint, withUsers, tail; cbn; auto.
Qed.

Lemma step_shaped (e : Event) (s : State) :
  Forall shaped (inflight s) -> Forall shaped (inflight (step e s)).
Proof.
  intros Hs. destruct e; cbn [step].
  - destruct (interval s) as [[timer c]|]; [|exact Hs].
    now apply processFrame_shaped.
  - unfold commit. destruct (mounted s); [|exact Hs].
    destruct (interval s) as [[timer c]|]; [|exact Hs].
    destruct (depsChanged c s); exact Hs.
  - destruct (nth_error (inflight s) i) as [p|]; [|exact Hs].
    destruct (processFrame_settled_keeps p o
                (with_inflight (removeNth i (inflight s)) s)) as (Kin & _).
    rewrite Kin. cbn. now apply Forall_removeNth.
  - destruct (mounted s); exact Hs.
  - destruct (mounted s); exact Hs.
  - destruct (videoRef s); exact Hs.
  - destruct (cameraRequests s); [exact Hs|]. unfold startCamera_granted. cbn.
    destruct (videoRef s); exact Hs.
  - destruct (cameraRequests s); exact Hs.
  - destruct (mounted s); [|exact Hs]. unfold unmount.
    destruct detachedFirst; cbn; [exact Hs|].
    unfold stopCamera. destruct (videoRef s) as [video|]; cbn;
      [destruct (srcObject video); cbn|]; exact Hs.
Qed.

Lemma run_shaped (trace : list Event) :
  forall s, Forall shaped (inflight s) -> Forall shaped (inflight (run trace s)).
Proof.
  induction trace as [|e trace IH]; intros s Hs; [exact Hs|].
  cbn [run fold_left]. apply IH. now apply step_shaped.
Qed.

(** X10: every request the live page ever has outstanding goes to one of
    its three endpoints, carries a data URL as [image], carries no time
    limit, and carries [requiredUsers] exactly when it goes to the
    group-authentication endpoint, the users being those of the render whose
    tick posted it. *)
Theorem frame_requests_are_well_formed (type : option string) (trace : list Event)
    (p : Pending) :
  In p (inflight (run trace (initial type))) ->
  (exists tail, lookupKey "image" (body (request p))
                = Some (JString ("data:" ++ tail)))
  /\ timeout (request p) = None
  /\ ((url (request p) = "http://localhost:5001/api/identify-face"%string
       /\ lookupKey "requiredUsers" (body (request p)) = None)
      \/ (url (request p) = "http://localhost:5001/api/crowd-count"%string
          /\ lookupKey "requiredUsers" (body (request p)) = None)
      \/ (url (request p) = "http://localhost:5001/api/group-authentication"%string
          /\ lookupKey "requiredUsers" (body (request p))
             = Some (JStrings (c_requiredUsers (closure p))))).
Proof.
  intros Hin.
  assert (Hall : Forall shaped (inflight (run trace (initial type))))
    by (apply run_shaped; constructor).
  rewrite List.Forall_forall in Hall.
  destruct (Hall p Hin) as (endpoint & withUsers & tail & Hroute & Hreq).
  rewrite Hreq. split; [exists tail; reflexivity|]. split; [reflexivity|].
  unfold route in Hroute.
  destruct (c_type (closure p)) as [t|]; [|discriminate].
  destruct (String.eqb t "face");
    [inversion Hroute; subst; left; split; reflexivity|].
  destruct (String.eqb t "group");
    [inversion Hroute; subst; right; right; split; reflexivity|].
  destruct (String.eqb t "crowd"); [|discriminate].
  inversion Hroute; subst. right; left. split; reflexivity.
Qed.

Lemma frame_requests_are_well_formed_witness :
  let trace := [VideoFrame 640 480 "AAAA"%string; onChange "alice, bob"; Commit; Tick] in
  map (fun p => lookupKey "requiredUsers" (body (request p)))
    (inflight (run trace (initial (Some "group"%string))))
  = [Some (JStrings ["alice"%string; "bob"%string])].
Proof.
  intros trace.
  set (p := {| request := frameRequest "/api/group-authentication" true
                            "data:image/jpeg;base64,AAAA"
                            ["alice"%string; "bob"%string];
               closure := {| c_type := Some "group"%string;
                             c_requiredUsers := ["alice"%string; "bob"%string];
                             c_usersRef := 1; c_isProcessing := false |};
               issuedBy := 1 |}).
  destruct (frame_requests_are_well_formed (Some "group"%string) trace p)
    as (_ & _ & [[H _]|[[H _]|[_ H]]]).
  - left. reflexivity.
  - discriminate H.
  - discriminate H.
  - change (inflight (run trace (initial (Some "group"%string)))) with [p].
    cbn [map]. now rewrite H.
Defined.

End CameraPageRequests.

Section CameraPageDrawing.

Import CameraAnalysis.
Import CameraPage.

Lemma drawFaces_boxed (l : list Face) :
  drawFaces l = (flat_map faceOps (boxed l), negb (forallb hasBox l)).
Proof.
  induction l as [|face l IH]; [reflexivity|].
  cbn [drawFaces boxed forallb].
  destruct (drawFace face) as [ops|] eqn:Ed.
  - assert (Hb : hasBox face = true).
    { unfold hasBox. unfold drawFace in Ed. destruct (box face); [reflexivity|discriminate]. }
    assert (Hops : faceOps face = ops) by (unfold faceOps; now rewrite Ed).
    rewrite Hb, IH. cbn [flat_map andb]. rewrite Hops. reflexivity.
  - assert (Hb : hasBox face = false).
    { unfold hasBox. unfold drawFace in Ed.
      destruct (box face) as [[[[x y] w] h]|]; [discriminate|reflexivity]. }
    rewrite Hb. reflexivity.
Qed.

(** X11: what an [ok] response draws on a mounted page with a canvas.  The
    result is stored and the busy flag cleared in every case.  The faces
    are drawn in order up to the first one without a [box]; if there is
    such a face, drawing stops there, the count is not drawn and one error
    line is logged; otherwise the count text follows, for the type [crowd]
    and a non-zero count only, and nothing is logged. *)
Theorem response_drawing (s : State) (i : nat) (p : Pending) (data : Data)
    (l : list Face) (canvas : Canvas) :
  mounted s = true ->
  canvasRef s = Some canvas -> ctx2d canvas = true ->
  nth_error (inflight s) i = Some p ->
  faces data = Some l ->
  let s' := step (Settle i (Response true (Some data))) s in
  let complete := forallb hasBox l in
  results s' = Some data
  /\ isProcessing s' = false
  /\ console s'
     = (console s ++ if complete then [] else ["Error processing frame:"%string])%list
  /\ option_map drawn (canvasRef s')
     = Some (drawn canvas ++ flat_map faceOps (boxed l)
             ++ if complete then countOps (c_type (closure p)) (count data) else [])%list.
Proof.
  intros Hm Hc Hctx Hp Hf s' complete. unfold s', complete. cbn [step]. rewrite Hp.
  unfold processFrame_settled, setResults, setIsProcessing, drawResults. cbn.
  rewrite Hm. cbn. rewrite Hc, Hctx, Hf, drawFaces_boxed.
  destruct (forallb hasBox l); cbn [negb].
  - unfold countOps.
    destruct (c_type (closure p)) as [t|]; [destruct (count data) as [n|]|];
      cbn; rewrite ?Hm; cbn;
      try (destruct (String.eqb t "crowd" && negb (n =? 0)%Z));
      cbn; rewrite ?Hm; cbn; rewrite ?app_nil_r; repeat split; reflexivity.
  - cbn. rewrite Hm. cbn. rewrite !app_nil_r. repeat split; reflexivity.
Qed.

Lemma response_drawing_witness :
  let before := run [Tick; Commit] (Samples.watching "crowd") in
  let data := {| success := Some true; message := None;
                 faces := Some [{| name := Some "alice"%string; userId := None;
                                   box := Some (1, 2, 3, 4) |};
                                {| name := Some "bob"%string; userId := None;
                                   box := None |}];
                 count := Some 7%Z; authenticated := None; missingUsers := None |} in
  let after := step (Settle 0 (Response true (Some data))) before in
  console after = ["Error processing frame:"%string]
  /\ option_map drawn (canvasRef after)
     = Some [DrawImage 0 0 None; StrokeRect "#ff0000" 1 2 3 4;
             FillText "#ff0000" "16px Arial" "alice" 1 (2 - 5)].
Proof.
  intros before data after.
  destruct (response_drawing before 0
              {| request := frameRequest "/api/crowd-count" false
                              "data:image/jpeg;base64,AAAA" [];
                 closure := {| c_type := Some "crowd"%string; c_requiredUsers := [];
                               c_usersRef := 0; c_isProcessing := false |};
                 issuedBy := 0 |}
              data _ {| width := 640; height := 480; ctx2d := true;
                        drawn := [DrawImage 0 0 None] |}
              eq_refl eq_refl eq_refl eq_refl eq_refl)
    as (_ & _ & Hlog & Hdrawn).
  split; [exact Hlog | exact Hdrawn].
Defined.

End CameraPageDrawing.

(** ** The camera component *)

Section CameraComponentFacts.

Import Camera.

(** X12: when the canvas gives no 2D context, the first capture sets the
    busy flag and nothing clears it: no image is ever handed to [onCapture],
    neither by that capture nor by any later tick or capture. *)
Theorem capture_without_context_sticks (s : State) (video : Video) (canvas : Canvas)
    (later : list bool) :
  videoRef s = Some video -> canvasRef s = Some canvas -> ctx2d canvas = false ->
  isProcessing s = false ->
  let stuck := captureAndProcess s in
  let final := fold_left (fun st tick => if tick : bool then processFrame st
                                         else captureAndProcess st) later stuck in
  isProcessing stuck = true
  /\ final = stuck
  /\ captured final = captured s.
Proof.
  intros Hv Hc Hctx Hidle stuck final.
  assert (Hstuck : isProcessing stuck = true /\ captured stuck = captured s
                   /\ videoRef stuck = Some video /\ canvasRef stuck = Some canvas).
  { unfold stuck, captureAndProcess. rewrite Hv, Hc, Hidle, Hctx. cbn. auto. }
  destruct Hstuck as (Hb & Hcap & Hv' & Hc').
  assert (Hfix : final = stuck).
  { unfold final. induction later as [|tick later IH]; [reflexivity|].
    cbn [fold_left].
    assert (Hsame : (if tick then processFrame stuck else captureAndProcess stuck) = stuck).
    { destruct tick.
      - unfold processFrame. now rewrite Hb.
      - unfold captureAndProcess. now rewrite Hv', Hc', Hb. }
    rewrite Hsame. exact IH. }
  split; [exact Hb|]. split; [exact Hfix|]. now rewrite Hfix.
Qed.

Lemma capture_without_context_sticks_witness :
  let s := {| isActive := true; continuousProcessing := true; isProcessing := false;
              videoRef := Some Samples.vgaVideo;
              canvasRef := Some {| width := 300; height := 150; ctx2d := false |};
              captured := [] |} in
  captured (processFrame (processFrame (captureAndProcess s))) = [].
Proof.
  intros s.
  destruct (capture_without_context_sticks s Samples.vgaVideo
              {| width := 300; height := 150; ctx2d := false |} [true; true]
              eq_refl eq_refl eq_refl eq_refl) as (_ & _ & H).
  exact H.
Defined.

(** X13: with a 2D context, a capture from the idle state hands exactly one
    image to [onCapture], the data URL of the current frame at the video's
    size; it resizes the canvas to the video and leaves the busy flag
    clear, so the next tick captures again.  A tick captures only when the
    camera is active, continuous processing is on and the video element is
    there. *)
Theorem capture_hands_over_one_frame (s : State) (video : Video) (canvas : Canvas) :
  videoRef s = Some video -> canvasRef s = Some canvas -> ctx2d canvas = true ->
  isProcessing s = false ->
  let s' := captureAndProcess s in
  captured s' = JS.toDataURL (videoWidth video) (videoHeight video) (pixels video)
                :: captured s
  /\ isProcessing s' = false
  /\ option_map width (canvasRef s') = Some (videoWidth video)
  /\ option_map height (canvasRef s') = Some (videoHeight video)
  /\ processFrame s = (if continuousProcessing s && isActive s then s' else s).
Proof.
  intros Hv Hc Hctx Hidle s'. unfold s', processFrame, captureAndProcess.
  rewrite Hv, Hc, Hidle, Hctx. cbn.
  repeat split; try reflexivity.
  destruct (continuousProcessing s), (isActive s); reflexivity.
Qed.

Lemma capture_hands_over_one_frame_witness :
  let s := {| isActive := true; continuousProcessing := true; isProcessing := false;
              videoRef := Some Samples.vgaVideo;
              canvasRef := Some {| width := 300; height := 150; ctx2d := true |};
              captured := [] |} in
  length (captured (processFrame (processFrame s))) = 2%nat.
Proof.
  intros s.
  destruct (capture_hands_over_one_frame s Samples.vgaVideo
              {| width := 300; height := 150; ctx2d := true |}
              eq_refl eq_refl eq_refl eq_refl) as (_ & _ & _ & _ & Htick).
  rewrite Htick. reflexivity.
Defined.

Lemma setNth_snoc {A : Type} (l : list A) (r x : A) :
  setNth (length l) x (l ++ [r]) = (l ++ [x])%list
  /\ nth_error (l ++ [r]) (length l) = Some r.
Proof.
  induction l as [|a l [IH1 IH2]]; [split; reflexivity|].
  cbn. rewrite IH1. split; [reflexivity | exact IH2].
Qed.

Lemma cleanup_no_live (current : EffectRun) (t : gmap nat Media.ReadyState) (id : nat) :
  (forall id, t !! id = Some Media.live ->
     exists st, stream current = Some st /\ In id st) ->
  cleanup current t !! id <> Some Media.live.
Proof.
  intros Hheld H. unfold cleanup in H.
  destruct (stream current) as [st|] eqn:Es.
  - rewrite lookup_stopTracks in H.
    destruct (decide (id ∈ st)) as [Hin|Hnin]; [discriminate|].
    destruct (Hheld id H) as (st' & E & Hin'). inversion E; subst st'.
    apply Hnin. now apply list_elem_of_In.
  - destruct (Hheld id H) as (st' & E & _). discriminate.
Qed.

Lemma sourceStep_streamsHeld (e : SourceEvent) (src : Source) (k : nat) :
  CameraTiming.streamsHeld src -> length (runs src) = k ->
  CameraTiming.timely k [e] = true ->
  CameraTiming.streamsHeld (sourceStep e src)
  /\ length (runs (sourceStep e src))
     = match e with SetActive _ => S k | _ => k end.
Proof.
  intros Hs Hk Ht. pose proof Hs as (Hm & earlier & current & Hruns & Hwait & Hheld).
  assert (Hlast : last (runs src) = Some current) by (rewrite Hruns; apply last_snoc).
  assert (Hlen : k = S (length earlier)).
  { rewrite <- Hk, Hruns, length_app. cbn. lia. }
  rewrite Hlen in Ht |- *.
  destruct e as [isActive|i n|i|]; cbn [sourceStep]; cbn in Ht; try discriminate.
  - rewrite Hm. split; [|cbn; rewrite Hruns, !length_app; cbn; lia].
    split; [reflexivity|]. exists (runs src), (startRun isActive). cbn.
    split; [reflexivity|]. split; [reflexivity|].
    intros id Hid. exfalso. unfold cleanupLast in Hid. rewrite Hlast in Hid.
    exact (cleanup_no_live current (tracks src) id Hheld Hid).
  - rewrite andb_true_r in Ht. apply Nat.eqb_eq in Ht.
    assert (Hi : i = length earlier) by lia. subst i.
    destruct (setNth_snoc earlier current
                {| stream := Some (Media.newStream (nextTrack src) n);
                   waiting := false |}) as [Hset Hnth].
    rewrite Hruns, Hnth.
    destruct (waiting current) eqn:Ew.
    + split; [|cbn; rewrite Hset, length_app; cbn; lia].
      split; [exact Hm|]. eexists earlier, _. cbn.
      split; [exact Hset|]. split; [discriminate|].
      intros id Hid. eexists. split; [reflexivity|].
      apply lookup_grantTracks in Hid as [Hin|Hl]; [exact Hin|].
      destruct (Hheld id Hl) as (st & E & _). rewrite (Hwait eq_refl) in E.
      discriminate.
    + split; [exact Hs | rewrite Hruns, length_app; cbn; lia].
  - rewrite andb_true_r in Ht. apply Nat.eqb_eq in Ht.
    assert (Hi : i = length earlier) by lia. subst i.
    destruct (setNth_snoc earlier current {| stream := None; waiting := false |})
      as [Hset Hnth].
    rewrite Hruns, Hnth.
    destruct (waiting current) eqn:Ew.
    + split; [|cbn; rewrite Hset, length_app; cbn; lia].
      split; [exact Hm|]. eexists earlier, _. cbn.
      split; [exact Hset|]. split; [reflexivity|].
      intros id Hid. destruct (Hheld id Hid) as (st & E & _).
      rewrite (Hwait eq_refl) in E. discriminate.
    + split; [exact Hs | rewrite Hruns, length_app; cbn; lia].
Qed.

Lemma sourceRun_streamsHeld (trace : list SourceEvent) :
  forall src k,
    CameraTiming.streamsHeld src -> length (runs src) = k ->
    CameraTiming.timely k trace = true ->
    CameraTiming.streamsHeld (sourceRun trace src).
Proof.
  induction trace as [|e trace IH]; intros src k Hs Hk Ht; [exact Hs|].
  cbn [sourceRun fold_left].
  assert (He : CameraTiming.timely k [e] = true
               /\ CameraTiming.timely (match e with SetActive _ => S k | _ => k end)
                    trace = true).
  { destruct e; cbn in *; try discriminate; auto;
      apply andb_prop in Ht as [H1 H2]; rewrite H1; auto. }
  destruct He as [He Hrest].
  destruct (sourceStep_streamsHeld e src k Hs Hk He) as [Hs' Hk'].
  exact (IH _ _ Hs' Hk' Hrest).
Qed.

(** X14: when [getUserMedia] is answered while the run of the effect that
    asked is still the current one, the camera is released by the next
    clean-up: after any such events, unmounting the component or changing
    [isActive] leaves no track live. *)
Theorem timely_grants_are_released (isActive : bool) (trace : list SourceEvent) :
  CameraTiming.timely 1 trace = true ->
  let src := sourceRun trace (mountSource isActive) in
  Media.liveTracks (tracks (sourceStep UnmountSource src)) (nextTrack src) = []
  /\ (forall b, Media.liveTracks (tracks (sourceStep (SetActive b) src))
                  (nextTrack src) = []).
Proof.
  intros Ht src.
  assert (Hinit : CameraTiming.streamsHeld (mountSource isActive)).
  { split; [reflexivity|]. exists [], (startRun isActive). cbn.
    split; [reflexivity|]. split; [reflexivity|].
    intros id H. rewrite lookup_empty in H. discriminate. }
  destruct (sourceRun_streamsHeld trace _ 1 Hinit eq_refl Ht)
    as (Hm & earlier & current & Hruns & _ & Hheld).
  fold src in Hm, Hruns, Hheld.
  assert (Hclean : Media.liveTracks (cleanupLast src) (nextTrack src) = []).
  { unfold Media.liveTracks. apply filter_none. intros id _.
    destruct (cleanupLast src !! id) as [[|]|] eqn:El; [|reflexivity..].
    exfalso. unfold cleanupLast in El. rewrite Hruns, last_snoc in El.
    exact (cleanup_no_live current (tracks src) id Hheld El). }
  split; [|intros b]; cbn [sourceStep]; rewrite Hm; cbn; exact Hclean.
Qed.

Lemma timely_grants_are_released_witness :
  let src := sourceRun [Granted 0 2; SetActive false; SetActive true; Granted 2 1]
               (mountSource true) in
  Media.liveTracks (tracks src) (nextTrack src) = [2%nat]
  /\ Media.liveTracks (tracks (sourceStep UnmountSource src)) (nextTrack src) = [].
Proof.
  intros src. split; [reflexivity|].
  exact (proj1 (timely_grants_are_released true
                  [Granted 0 2; SetActive false; SetActive true; Granted 2 1]
                  eq_refl)).
Defined.

End CameraComponentFacts.

(** ** The registration forms and the analysis page *)

Section FormFacts.

Lemma removeImage_images (i : nat) (s : Analysis.State) :
  Analysis.selectedImages (Analysis.removeImage i s)
  = Analysis.removeAt i (Analysis.selectedImages s)
  /\ Analysis.maxImagesReached (Analysis.removeImage i s) = false.
Proof.
  unfold Analysis.removeImage.
  destruct (nth_error (Analysis.selectedImages s) i) as [img|];
    [destruct (Analysis.imagePreview s) as [pv|];
     [destruct (String.eqb img pv)|]|]; split; reflexivity.
Qed.

(** X15: [removeImage] removes exactly the image at its index: the
    list gets one shorter, the images before the index keep their place and
    those after it move up by one; an index beyond the list changes
    nothing.  The "maximum reached" flag is cleared in both cases.  Both
    registration forms behave so. *)
Theorem remove_image_removes_that_one (i : nat) (s : Analysis.State)
    (r : FaceRegistration.State) :
  let l := Analysis.selectedImages s in
  let l' := Analysis.selectedImages (Analysis.removeImage i s) in
  let k := FaceRegistration.selectedImages r in
  let k' := FaceRegistration.selectedImages (FaceRegistration.removeImage i r) in
  (forall j, nth_error l' j = if (j <? i)%nat then nth_error l j else nth_error l (S j))
  /\ (forall j, nth_error k' j = if (j <? i)%nat then nth_error k j else nth_error k (S j))
  /\ length l' = (if (i <? length l)%nat then pred (length l) else length l)
  /\ length k' = (if (i <? length k)%nat then pred (length k) else length k)
  /\ Analysis.maxImagesReached (Analysis.removeImage i s) = false
  /\ FaceRegistration.maxImagesReached (FaceRegistration.removeImage i r) = false.
Proof.
  intros l l' k k'.
  destruct (removeImage_images i s) as [Hl' Hflag]. fold l l' in Hl'.
  assert (Hlen : forall (m : list string),
             length (Analysis.removeAt i m)
             = if (i <? length m)%nat then pred (length m) else length m).
  { intros m. destruct (Nat.ltb_spec i (length m)).
    - now apply removeAt_length.
    - now rewrite removeAt_beyond. }
  rewrite Hl'. unfold k'. cbn [FaceRegistration.removeImage FaceRegistration.selectedImages
                               FaceRegistration.maxImagesReached].
  repeat split; auto using removeAt_nth.
Qed.

End FormFacts.

(** ** Submitting the forms *)

Section SubmitFacts.

Import Analysis.

Lemma trim_not_empty (s : string) :
  String.eqb (JS.trim s) "" = false <-> JS.blank s = false.
Proof.
  split; intros H.
  - destruct (JS.blank s) eqn:E; [|reflexivity].
    apply trim_empty_iff_blank in E. rewrite E in H. discriminate.
  - destruct (String.eqb_spec (JS.trim s) ""%string) as [E|]; [|reflexivity].
    apply trim_empty_iff_blank in E. congruence.
Qed.

Lemma handleRegisterFace_posts (s s1 : State) (r : Request) :
  handleRegisterFace s = (s1, Some r) ->
  String.eqb (JS.trim (nameField s)) "" = false
  /\ selectedImages s <> []
  /\ s1 = setSuccess None (setError None (setIsProcessing true s))
  /\ r = {| url := "http://localhost:5001/api/register-face";
            body := [("name"%string, JString (JS.trim (nameField s)));
                     ("images"%string, JStrings (selectedImages s))];
            timeout := None |}.
Proof.
  unfold handleRegisterFace.
  destruct (String.eqb (JS.trim (nameField s)) ""); [discriminate|].
  destruct (selectedImages s) as [|img imgs]; [discriminate|].
  intros H. inversion H; subst.
  split; [reflexivity|]. split; [discriminate|]. split; reflexivity.
Qed.

Lemma handleIdentifyFace_posts (s s1 : State) (r : Request) :
  handleIdentifyFace s = (s1, Some r) ->
  exists image,
    imagePreview s = Some image /\ image <> ""%string
    /\ s1 = setResult None (setError None (setIsProcessing true s))
    /\ r = {| url := "http://localhost:5001/api/identify-face";
              body := [("image"%string, JString image)];
              timeout := None |}.
Proof.
  unfold handleIdentifyFace.
  destruct (imagePreview s) as [image|]; cbn [JS.truthy negb]; [|discriminate].
  destruct (String.eqb_spec image ""%string) as [|Hne]; cbn [negb]; [discriminate|].
  intros H. inversion H; subst. exists image.
  split; [reflexivity|]. split; [exact Hne|]. split; reflexivity.
Qed.

(** X16: the analysis form posts a request exactly when, in register mode,
    the name is not blank (it holds a code point that [trim] does not
    strip: the white space and line terminators of ECMAScript, NBSP and
    the other Unicode spaces included) and at least one image is selected,
    or, in identify mode, a preview image is present.  A register request
    goes to [register-face] with the selected images and the trimmed name
    (so the name sent is never empty and never starts or ends with white
    space); an identify request goes to [identify-face] with the preview
    image.  No request has a time limit. *)
Theorem analysis_submit_posts_iff (s : State) :
  (snd (handleSubmit s) <> None <->
     (mode s = register /\ JS.blank (nameField s) = false /\ selectedImages s <> [])
     \/ (mode s = identify /\ JS.truthy (imagePreview s) = true))
  /\ (forall r, snd (handleSubmit s) = Some r ->
        timeout r = None
        /\ match mode s with
           | register =>
               url r = "http://localhost:5001/api/register-face"%string
               /\ body r = [("name"%string, JString (JS.trim (nameField s)));
                            ("images"%string, JStrings (selectedImages s))]
               /\ JS.trim (nameField s) <> ""%string
               /\ Text.startsWithSpace (JS.trim (nameField s)) = false
               /\ Text.endsWithSpace (JS.trim (nameField s)) = false
           | identify =>
               url r = "http://localhost:5001/api/identify-face"%string
               /\ exists image, imagePreview s = Some image /\ image <> ""%string
                                /\ body r = [("image"%string, JString image)]
           end).
Proof.
  assert (Hreg : snd (handleRegisterFace s) <> None <->
                 JS.blank (nameField s) = false /\ selectedImages s <> []).
  { unfold handleRegisterFace.
    destruct (String.eqb (JS.trim (nameField s)) "") eqn:E.
    - split; [intros H; now elim H|]. intros [Hb _].
      apply trim_not_empty in Hb. congruence.
    - apply trim_not_empty in E.
      destruct (selectedImages s) as [|img imgs]; cbn.
      + split; [intros H; now elim H | intros [_ H]; now elim H].
      + split; [intros _; split; [exact E | discriminate] | discriminate]. }
  assert (Hid : snd (handleIdentifyFace s) <> None <->
                JS.truthy (imagePreview s) = true).
  { unfold handleIdentifyFace. destruct (JS.truthy (imagePreview s)); cbn.
    - split; [reflexivity | discriminate].
    - split; [intros H; now elim H | discriminate]. }
  assert (Hsub : handleSubmit s
                 = match mode s with
                   | register => handleRegisterFace s
                   | identify => handleIdentifyFace s
                   end
                 \/ (snd (handleSubmit s) = None
                     /\ selectedImages s = [] /\ JS.truthy (imagePreview s) = false)).
  { unfold handleSubmit. destruct (selectedImages s) as [|img imgs]; [|left; reflexivity].
    destruct (JS.truthy (imagePreview s)); cbn [negb]; [left; reflexivity|].
    right. repeat split; reflexivity. }
  split.
  - destruct Hsub as [Hsub | (Hn & Himg & Hpv)].
    + rewrite Hsub. destruct (mode s).
      * rewrite Hreg. split; [intros [? ?]; left; auto|].
        intros [(_ & ? & ?) | [? _]]; [auto | discriminate].
      * rewrite Hid. split; [intros ?; right; auto|].
        intros [[? _] | [_ ?]]; [discriminate | assumption].
    + rewrite Hn. split; [intros H; now elim H|].
      intros [(_ & _ & H) | [_ H]]; [now elim H | congruence].
  - intros r Hr. destruct Hsub as [Hsub | (Hn & _)]; [|congruence].
    rewrite Hsub in Hr. destruct (mode s).
    + destruct (handleRegisterFace s) as [s1 o] eqn:E. cbn in Hr. subst o.
      apply handleRegisterFace_posts in E. destruct E as (Hne & _ & _ & ->).
      cbn. split; [reflexivity|]. split; [reflexivity|]. split; [reflexivity|].
      destruct (trim_clean (nameField s)) as [Ha Hb].
      split; [|split; assumption].
      intros Hempty. rewrite Hempty in Hne. discriminate.
    + destruct (handleIdentifyFace s) as [s1 o] eqn:E. cbn in Hr. subst o.
      apply handleIdentifyFace_posts in E. destruct E as (image & Hp & Hne & _ & ->).
      cbn. split; [reflexivity|]. split; [reflexivity|].
      exists image. split; [exact Hp|]. split; [exact Hne | reflexivity].
Qed.

Lemma analysis_submit_posts_iff_witness :
  let nbsp := String "194" (String "160" EmptyString) in
  let ideographicSpace := String "227" (String "128" (String "128" EmptyString)) in
  let images := ["data:image/png;base64,AAAA"%string] in
  let s := setName (nbsp ++ " alice" ++ ideographicSpace)
             (setMode register (setSelectedImages images initial)) in
  (exists r, snd (handleSubmit s) = Some r
             /\ body r = [("name"%string, JString "alice");
                          ("images"%string, JStrings images)])
  /\ snd (handleSubmit (setName nbsp s)) = None.
Proof.
  intros nbsp ideographicSpace images s. split.
  - eexists. split; [reflexivity|].
    destruct (proj2 (analysis_submit_posts_iff s) _ eq_refl) as (_ & _ & Hb & _).
    exact Hb.
  - destruct (snd (handleSubmit (setName nbsp s))) as [r|] eqn:E; [|reflexivity].
    assert (H : snd (handleSubmit (setName nbsp s)) <> None) by (rewrite E; discriminate).
    apply (proj1 (analysis_submit_posts_iff (setName nbsp s))) in H.
    destruct H as [(_ & Hb & _) | (Hm & _)]; discriminate.
Defined.

(** X17: what the answer to a register request does, whatever happened on
    the page since the request was posted ([s] is the state when the
    answer arrives, [name] the name field of the render that posted).  An
    answer with [success] empties the form (name, images, preview, "maximum
    reached" flag), stores the response and reports [name] as it was typed;
    it leaves the error cell as it is at that time, and a submission right
    after it posts nothing.  Any other outcome (a response without
    [success], or no response) leaves the name, the images, the preview and
    the result as they are at that time and sets a non-empty error message;
    submitting again then posts what a submission would have posted before
    the answer, so the same request if name and images are as they were
    when it was posted.  Both clear the busy flag. *)
Theorem register_cycle_resets_or_keeps (name : string) (o : option Response)
    (s : State) :
  let s2 := AnalysisPage.handleRegisterFace_settled name o s in
  isProcessing s2 = false
  /\ (if match o with Some data => success data | None => false end
      then selectedImages s2 = [] /\ nameField s2 = ""%string
           /\ imagePreview s2 = None /\ maxImagesReached s2 = false
           /\ result s2 = o /\ error s2 = error s
           /\ (exists data, o = Some data
               /\ successMsg s2
                  = Some ("Successfully registered " ++ name ++ " using "
                          ++ AnalysisPage.numText (num_images_processed data)
                          ++ " images")%string)
           /\ snd (handleSubmit s2) = None
      else selectedImages s2 = selectedImages s /\ nameField s2 = nameField s
           /\ imagePreview s2 = imagePreview s /\ result s2 = result s
           /\ JS.truthy (error s2) = true
           /\ snd (handleRegisterFace s2) = snd (handleRegisterFace s)
           /\ (forall s0 s1 r,
                 handleRegisterFace s0 = (s1, Some r) ->
                 nameField s = nameField s0 -> selectedImages s = selectedImages s0 ->
                 snd (handleRegisterFace s2) = Some r)).
Proof.
  intros s2. unfold s2, AnalysisPage.handleRegisterFace_settled.
  split; [reflexivity|].
  destruct o as [data|]; [destruct (success data) eqn:Ed|].
  - destruct (results data) as [rs|]; cbn.
    + split; [reflexivity|]. split; [reflexivity|]. split; [reflexivity|].
      split; [reflexivity|]. split; [reflexivity|]. split; [reflexivity|].
      split; [exists data; split; reflexivity | reflexivity].
    + split; [reflexivity|]. split; [reflexivity|]. split; [reflexivity|].
      split; [reflexivity|]. split; [reflexivity|]. split; [reflexivity|].
      split; [exists data; split; reflexivity | reflexivity].
  - pose proof (orDefault_not_empty (message data) "Registration failed") as Hm.
    cbn [selectedImages nameField imagePreview result error setIsProcessing setError].
    split; [reflexivity|]. split; [reflexivity|]. split; [reflexivity|].
    split; [reflexivity|].
    split.
    { cbn. destruct (String.eqb_spec (orDefault (message data) "Registration failed") "");
        [|reflexivity].
      exfalso. apply Hm; [discriminate | assumption]. }
    assert (Hsame : forall e,
               snd (handleRegisterFace (setIsProcessing false (setError e s)))
               = snd (handleRegisterFace s)).
    { intros e. unfold handleRegisterFace.
      cbn [nameField selectedImages setIsProcessing setError].
      destruct (String.eqb (JS.trim (nameField s)) ""); [reflexivity|].
      destruct (selectedImages s); reflexivity. }
    split; [apply Hsame|].
    intros s0 s1 r Hs0 Hn Hi. rewrite Hsame.
    apply handleRegisterFace_posts in Hs0. destruct Hs0 as (Hne & Himg & _ & ->).
    unfold handleRegisterFace. rewrite Hn, Hi, Hne.
    destruct (selectedImages s0); [contradiction | reflexivity].
  - cbn [selectedImages nameField imagePreview result error setIsProcessing setError].
    split; [reflexivity|]. split; [reflexivity|]. split; [reflexivity|].
    split; [reflexivity|]. split; [reflexivity|].
    assert (Hsame : forall e,
               snd (handleRegisterFace (setIsProcessing false (setError e s)))
               = snd (handleRegisterFace s)).
    { intros e. unfold handleRegisterFace.
      cbn [nameField selectedImages setIsProcessing setError].
      destruct (String.eqb (JS.trim (nameField s)) ""); [reflexivity|].
      destruct (selectedImages s); reflexivity. }
    split; [apply Hsame|].
    intros s0 s1 r Hs0 Hn Hi. rewrite Hsame.
    apply handleRegisterFace_posts in Hs0. destruct Hs0 as (Hne & Himg & _ & ->).
    unfold handleRegisterFace. rewrite Hn, Hi, Hne.
    destruct (selectedImages s0); [contradiction | reflexivity].
Qed.

Lemma register_cycle_resets_or_keeps_witness :
  let s0 := setName "  alice "
              (setMode register
                 (setSelectedImages ["data:image/png;base64,AAAA"%string] initial)) in
  let s2 := AnalysisPage.handleRegisterFace_settled (nameField s0) None
              (fst (handleRegisterFace s0)) in
  selectedImages s2 = ["data:image/png;base64,AAAA"%string]
  /\ snd (handleRegisterFace s2) = snd (handleRegisterFace s0).
Proof.
  intros s0 s2.
  destruct (register_cycle_resets_or_keeps (nameField s0) None
              (fst (handleRegisterFace s0)))
    as (_ & Hi & _ & _ & _ & _ & _ & Hr).
  split; [exact Hi|].
  exact (Hr s0 (fst (handleRegisterFace s0))
           {| url := "http://localhost:5001/api/register-face";
              body := [("name"%string, JString "alice");
                       ("images"%string,
                        JStrings ["data:image/png;base64,AAAA"%string])];
              timeout := None |} eq_refl eq_refl eq_refl).
Defined.

(** X18: what the answer to an identify request does, whatever happened
    on the page since the request was posted ([s] is the state when the
    answer arrives).  The busy flag is cleared and the images and the
    preview are left as they are at that time.  An answer with [success]
    stores the response and leaves the error cell as it is; any other
    outcome sets a non-empty error message and leaves the result cell as it
    is.  So if the answer arrives on the state the posting left (nothing
    happened in between), the page then holds either the response or an
    error message, never both and never neither.  The faces handed to the
    camera overlay are replaced only by an answer with [success] that has
    a [results] list; after any other outcome the overlay keeps the faces
    it had. *)
Theorem identify_cycle_result_or_error (o : option Response) (s : State) :
  let s2 := handleIdentifyFace_settled o s in
  let ok := match o with Some data => success data | None => false end in
  isProcessing s2 = false
  /\ selectedImages s2 = selectedImages s /\ imagePreview s2 = imagePreview s
  /\ (if ok then result s2 = o /\ error s2 = error s
      else result s2 = result s /\ JS.truthy (error s2) = true)
  /\ detectedFaces s2
     = match o with
       | Some data =>
           if success data
           then match results data with Some rs => rs | None => detectedFaces s end
           else detectedFaces s
       | None => detectedFaces s
       end
  /\ (forall s0 r, handleIdentifyFace s0 = (s, Some r) ->
        (result s2 = None <-> JS.truthy (error s2) = true)
        /\ (result s2 <> None <-> ok = true)).
Proof.
  intros s2 ok.
  assert (Hmsg : forall msg, JS.truthy (Some (orDefault msg "Identification failed"))
                             = true).
  { intros msg. pose proof (orDefault_not_empty msg "Identification failed") as Hm.
    cbn. destruct (String.eqb_spec (orDefault msg "Identification failed") "");
      [|reflexivity].
    exfalso. apply Hm; [discriminate | assumption]. }
  assert (Hcells : (if ok then result s2 = o /\ error s2 = error s
                    else result s2 = result s /\ JS.truthy (error s2) = true)).
  { unfold ok, s2, handleIdentifyFace_settled.
    destruct o as [data|]; [destruct (success data); [destruct (results data)|]|];
      cbn [result error setIsProcessing setError setResult setDetectedFaces];
      split; try reflexivity. apply Hmsg. }
  split; [reflexivity|].
  split.
  { unfold s2, handleIdentifyFace_settled.
    destruct o as [data|]; [destruct (success data); [destruct (results data)|]|];
      reflexivity. }
  split.
  { unfold s2, handleIdentifyFace_settled.
    destruct o as [data|]; [destruct (success data); [destruct (results data)|]|];
      reflexivity. }
  split; [exact Hcells|].
  split.
  { unfold s2, handleIdentifyFace_settled.
    destruct o as [data|]; [destruct (success data); [destruct (results data)|]|];
      reflexivity. }
  intros s0 r Hs0. apply handleIdentifyFace_posts in Hs0.
  destruct Hs0 as (image & _ & _ & Hs & _).
  assert (Hr : result s = None) by (rewrite Hs; reflexivity).
  assert (He : error s = None) by (rewrite Hs; reflexivity).
  destruct ok eqn:Eok.
  - destruct Hcells as [H1 H2]. rewrite H1, H2, He.
    unfold ok in Eok. destruct o as [data|]; [|discriminate].
    split; split; try discriminate; reflexivity.
  - destruct Hcells as [H1 H2]. rewrite H1, H2, Hr.
    split; split; try reflexivity; try discriminate. intros H; now elim H.
Qed.

Lemma identify_cycle_result_or_error_witness :
  let s0 := handleCameraCapture "data:image/jpeg;base64,AAAA" (Samples.identified 95) in
  let s2 := handleIdentifyFace_settled None (fst (handleIdentifyFace s0)) in
  result s2 = None /\ detectedFaces s2 = detectedFaces (Samples.identified 95).
Proof.
  intros s0 s2.
  destruct (identify_cycle_result_or_error None (fst (handleIdentifyFace s0)))
    as (_ & _ & _ & _ & Hf & Hx).
  split; [|exact Hf].
  destruct (Hx s0 {| url := "http://localhost:5001/api/identify-face";
                     body := [("image"%string,
                               JString "data:image/jpeg;base64,AAAA")];
                     timeout := None |} eq_refl) as [Hr _].
  apply Hr. reflexivity.
Defined.

End SubmitFacts.

(** ** The stand-alone registration page *)

Section RegistrationFacts.

Import FaceRegistration.

Lemma registration_handleSubmit_posts (s s1 : State) (r : Request) :
  handleSubmit s = (s1, Some r) ->
  selectedImages s <> [] /\ String.eqb (nameField s) "" = false
  /\ s1 = {| isProcessing := true; nameField := nameField s;
             message := message s; selectedImages := selectedImages s;
             maxImagesReached := maxImagesReached s; error := error s |}
  /\ r = {| url := "http://localhost:5001/api/register-face";
            body := [("images"%string, JStrings (selectedImages s));
                     ("name"%string, JString (nameField s))];
            timeout := None |}.
Proof.
  unfold handleSubmit.
  destruct (selectedImages s) as [|img imgs]; [discriminate|].
  destruct (String.eqb (nameField s) ""); [discriminate|].
  intros H. inversion H; subst.
  split; [discriminate|]. split; [reflexivity|]. split; reflexivity.
Qed.

(** X19: the registration page posts a request exactly when at least one
    image is selected and the name field is not empty; the request goes to
    [register-face] with the images and the name exactly as typed (it is
    not trimmed, so a name of spaces is sent), and posting does not clear an
    earlier error message. *)
Theorem registration_submit_posts_iff (s : State) :
  (snd (handleSubmit s) <> None <-> selectedImages s <> [] /\ nameField s <> ""%string)
  /\ (forall r, snd (handleSubmit s) = Some r ->
        url r = "http://localhost:5001/api/register-face"%string
        /\ body r = [("images"%string, JStrings (selectedImages s));
                     ("name"%string, JString (nameField s))]
        /\ timeout r = None
        /\ isProcessing (fst (handleSubmit s)) = true
        /\ error (fst (handleSubmit s)) = error s).
Proof.
  split.
  - unfold handleSubmit. destruct (selectedImages s) as [|img imgs]; cbn.
    + split; [intros H; now elim H | intros [H _]; now elim H].
    + destruct (String.eqb_spec (nameField s) ""%string) as [E|E]; cbn.
      * split; [intros H; now elim H | intros [_ H]; contradiction].
      * split; [intros _; split; [discriminate | exact E] | discriminate].
  - intros r Hr. destruct (handleSubmit s) as [s1 o] eqn:E. cbn in Hr. subst o.
    apply registration_handleSubmit_posts in E. destruct E as (_ & _ & -> & ->).
    cbn. repeat split; reflexivity.
Qed.

Lemma registration_submit_posts_iff_witness :
  let s := {| isProcessing := false; nameField := "  ";
              message := ""; selectedImages := ["data:image/png;base64,AAAA"%string];
              maxImagesReached := false; error := Some "Please enter a name"%string |} in
  exists r, snd (handleSubmit s) = Some r
            /\ lookupKey "name" (body r) = Some (JString "  ")
            /\ error (fst (handleSubmit s)) = Some "Please enter a name"%string.
Proof.
  intros s. eexists. split; [reflexivity|].
  destruct (proj2 (registration_submit_posts_iff s) _ eq_refl) as (_ & Hb & _ & _ & He).
  split; [rewrite Hb; reflexivity | exact He].
Defined.



End RegistrationFacts.

(** ** The crowd page *)

Section CrowdFacts.

Import CrowdAnalysis.

Lemma crowd_handleSubmit_posts (s s1 : State) (r : Request) :
  handleSubmit s = (s1, Some r) ->
  exists image,
    imageBase64 s = Some image /\ image <> ""%string
    /\ s1 = {| imageBase64 := imageBase64 s; result := None; isProcessing := true;
               error := None |}
    /\ r = {| url := "http://localhost:5001/api/crowd-count";
              body := [("image"%string, JString image)];
              timeout := None |}.
Proof.
  unfold handleSubmit.
  destruct (imageBase64 s) as [image|]; cbn [JS.truthy negb]; [|discriminate].
  destruct (String.eqb_spec image ""%string) as [|Hne]; cbn [negb]; [discriminate|].
  intros H. inversion H; subst. exists image.
  split; [reflexivity|]. split; [exact Hne|]. split; reflexivity.
Qed.



(** X22: the reset button clears the image, the result and the error but
    cancels nothing: after a reset the submit button is disabled and a
    submission posts nothing, yet a request that was outstanding at the
    time of the reset still publishes its outcome when it settles, so the
    result panel is shown on a page that holds no image. *)
Theorem crowd_reset_does_not_cancel (s s1 : State) (r : Request)
    (data : CrowdAnalysisResult) :
  handleSubmit s = (s1, Some r) ->
  success data = true ->
  let s2 := handleSubmit_settled (Some data) (resetAnalysis s1) in
  (canSubmit (resetAnalysis s1) = false /\ snd (handleSubmit (resetAnalysis s1)) = None)
  /\ showsResult s2 = true /\ result s2 = Some data
  /\ imageBase64 s2 = None /\ canSubmit s2 = false.
Proof.
  intros Hs Hd s2. apply crowd_handleSubmit_posts in Hs.
  destruct Hs as (image & _ & _ & -> & _).
  unfold s2, handleSubmit_settled, showsResult, canSubmit. rewrite Hd. cbn.
  rewrite Hd. repeat split; reflexivity.
Qed.

Lemma crowd_reset_does_not_cancel_witness :
  let s := handleFileUpload (Some "data:image/png;base64,AAAA"%string) initial in
  let data := {| success := true; total_count := Some 3%Z; message := None;
                 annotated_image := None |} in
  let s2 := handleSubmit_settled (Some data) (resetAnalysis (fst (handleSubmit s))) in
  showsResult s2 = true /\ imageBase64 s2 = None.
Proof.
  intros s data s2.
  destruct (crowd_reset_does_not_cancel s (fst (handleSubmit s))
              {| url := "http://localhost:5001/api/crowd-count";
                 body := [("image"%string, JString "data:image/png;base64,AAAA")];
                 timeout := None |} data eq_refl eq_refl) as (_ & Hr & _ & Hi & _).
  split; [exact Hr | exact Hi].
Defined.

End CrowdFacts.

(** ** The image limit over whole sessions *)

Section FormLimit.

Lemma withinLimit_posted (images : list string) (flag : bool) (pending : nat)
    (requests : list Request) (r : Request) :
  AnalysisPage.withinLimit images flag pending requests ->
  (url r = "http://localhost:5001/api/register-face"%string ->
   (1 <= length (AnalysisPage.imagesOf r) <= 5)%nat) ->
  AnalysisPage.withinLimit images flag pending (requests ++ [r]).
Proof.
  intros (Hle & Hflag & Hp & Hreq) Hr.
  split; [exact Hle|]. split; [exact Hflag|]. split; [exact Hp|].
  apply Forall_app. split; [exact Hreq|]. constructor; [exact Hr | constructor].
Qed.

Lemma withinLimit_emptied (images : list string) (flag : bool) (pending : nat)
    (requests : list Request) :
  AnalysisPage.withinLimit images flag pending requests ->
  AnalysisPage.withinLimit [] false pending requests.
Proof.
  intros (_ & _ & Hp & Hreq). split; [cbn; lia|]. split; [reflexivity|].
  split; [exact Hp | exact Hreq].
Qed.

Lemma withinLimit_removed (i : nat) (images : list string) (flag : bool)
    (pending : nat) (requests : list Request) :
  (i < length images)%nat ->
  AnalysisPage.withinLimit images flag pending requests ->
  AnalysisPage.withinLimit (Analysis.removeAt i images) false pending requests.
Proof.
  intros Hi (Hle & _ & Hp & Hreq). unfold AnalysisPage.withinLimit.
  rewrite removeAt_length by exact Hi.
  split; [lia|]. split; [symmetry; apply Nat.leb_gt; lia|].
  split; [exact Hp | exact Hreq].
Qed.

Lemma withinLimit_read (file : string) (images : list string) (flag : bool)
    (pending : nat) (requests : list Request) :
  AnalysisPage.withinLimit images flag (S pending) requests ->
  AnalysisPage.withinLimit (images ++ [file]) (5 <=? length (images ++ [file]))%nat
    pending requests.
Proof.
  intros (Hle & _ & Hp & Hreq). unfold AnalysisPage.withinLimit.
  rewrite length_app. cbn [length].
  split; [lia|]. split; [reflexivity|]. split; [lia | exact Hreq].
Qed.

Lemma withinLimit_selected (files : list string) (images : list string)
    (requests : list Request) :
  (length files <= 1)%nat ->
  AnalysisPage.withinLimit images false 0 requests ->
  AnalysisPage.withinLimit images false (length files) requests.
Proof.
  intros Hf (Hle & Hflag & _ & Hreq).
  pose proof Hflag as Hlt. symmetry in Hlt. apply Nat.leb_gt in Hlt.
  split; [lia|]. split; [exact Hflag|]. split; [exact Hf | exact Hreq].
Qed.

Lemma analysis_handleSubmit_keeps_images (s : Analysis.State) :
  Analysis.selectedImages (fst (Analysis.handleSubmit s)) = Analysis.selectedImages s
  /\ Analysis.maxImagesReached (fst (Analysis.handleSubmit s))
     = Analysis.maxImagesReached s.
Proof.
  unfold Analysis.handleSubmit, Analysis.handleRegisterFace, Analysis.handleIdentifyFace.
  destruct (Analysis.selectedImages s) as [|img imgs] eqn:Ei;
    destruct (negb (JS.truthy (Analysis.imagePreview s)));
    destruct (Analysis.mode s);
    destruct (String.eqb (JS.trim (Analysis.nameField s)) "");
    cbn; rewrite ?Ei; split; reflexivity.
Qed.

Lemma analysis_settle_images (c : AnalysisPage.Call) (o : option Analysis.Response)
    (s : Analysis.State) :
  let s' := AnalysisPage.settle c o s in
  (Analysis.selectedImages s' = [] /\ Analysis.maxImagesReached s' = false)
  \/ (Analysis.selectedImages s' = Analysis.selectedImages s
      /\ Analysis.maxImagesReached s' = Analysis.maxImagesReached s).
Proof.
  destruct c as [name|]; cbn [AnalysisPage.settle].
  - unfold AnalysisPage.handleRegisterFace_settled.
    destruct o as [data|]; [destruct (Analysis.success data);
                            [destruct (Analysis.results data)|]|]; cbn; auto.
  - unfold Analysis.handleIdentifyFace_settled.
    destruct o as [data|]; [destruct (Analysis.success data);
                            [destruct (Analysis.results data)|]|]; cbn; auto.
Qed.

Lemma analysis_step_limit (e : AnalysisPage.Event) (p : AnalysisPage.Page) :
  AnalysisPage.single e p = true ->
  AnalysisPage.limit p -> AnalysisPage.limit (AnalysisPage.step e p).
Proof.
  unfold AnalysisPage.limit. intros He Hp.
  destruct e as [value|m|files|i|index| |i o]; cbn [AnalysisPage.step].
  - exact Hp.
  - exact Hp.
  - destruct (Analysis.maxImagesReached (AnalysisPage.state p)) eqn:Ef;
      [rewrite Ef; exact Hp|].
    cbn [AnalysisPage.state AnalysisPage.posted AnalysisPage.reading].
    cbn [AnalysisPage.single] in He. apply andb_prop in He as [Hone Hnone].
    apply Nat.leb_le in Hone. apply Nat.eqb_eq in Hnone.
    destruct (AnalysisPage.reading p) as [|r rs]; [|discriminate Hnone].
    rewrite Ef in *. pose proof Hp as (_ & Hflag & _).
    symmetry in Hflag. apply Nat.leb_gt in Hflag.
    unfold Analysis.startReaders, Analysis.handleImageUpload.
    rewrite acceptFiles_all by exact Hflag. cbn [app]. rewrite length_map.
    now apply withinLimit_selected.
  - unfold Analysis.readEnd.
    destruct (nth_error (AnalysisPage.reading p) i) as [r|] eqn:Er; [|exact Hp].
    cbn [AnalysisPage.state AnalysisPage.posted AnalysisPage.reading].
    assert (Hi : (i < length (AnalysisPage.reading p))%nat)
      by (apply nth_error_Some; congruence).
    rewrite removeAt_length by exact Hi.
    destruct (length (AnalysisPage.reading p)) as [|n]; [lia|]. cbn [pred].
    replace (Analysis.maxImagesReached
               (Analysis.onloadend (Analysis.startedIn r) (Analysis.dataURL r)
                  (AnalysisPage.state p)))
      with (5 <=? length (Analysis.selectedImages (AnalysisPage.state p)
                          ++ [Analysis.dataURL r]))%nat
      by (unfold Analysis.onloadend;
          destruct (negb (JS.truthy (Analysis.imagePreview (Analysis.startedIn r))));
          reflexivity).
    rewrite onloadend_images. eapply withinLimit_read. exact Hp.
  - destruct (Nat.ltb_spec index
                (length (Analysis.selectedImages (AnalysisPage.state p)))) as [Hlt|];
      [|exact Hp].
    cbn [AnalysisPage.state AnalysisPage.posted AnalysisPage.reading
         AnalysisPage.with_state].
    destruct (removeImage_images index (AnalysisPage.state p)) as [-> ->].
    eapply withinLimit_removed; eassumption.
  - destruct (analysis_handleSubmit_keeps_images (AnalysisPage.state p)) as [K1 K2].
    destruct (Analysis.handleSubmit (AnalysisPage.state p)) as [s' [r|]] eqn:Es;
      cbn [fst] in K1, K2;
      cbn [AnalysisPage.state AnalysisPage.posted AnalysisPage.reading
           AnalysisPage.with_state];
      rewrite K1, K2; [|exact Hp].
    apply withinLimit_posted; [exact Hp|]. intros Hurl.
    assert (Hr : Analysis.handleRegisterFace (AnalysisPage.state p) = (s', Some r)).
    { revert Es Hurl. unfold Analysis.handleSubmit.
      destruct (Analysis.selectedImages (AnalysisPage.state p));
        destruct (negb (JS.truthy (Analysis.imagePreview (AnalysisPage.state p))));
        try discriminate;
        (destruct (Analysis.mode (AnalysisPage.state p)); [auto|]);
        intros Hid Hurl; apply handleIdentifyFace_posts in Hid;
        destruct Hid as (image & _ & _ & _ & ->); discriminate Hurl. }
    apply handleRegisterFace_posts in Hr. destruct Hr as (_ & Hne & _ & ->).
    unfold AnalysisPage.imagesOf. cbn. destruct Hp as (Hle & _).
    destruct (Analysis.selectedImages (AnalysisPage.state p)); [contradiction|].
    cbn in *. lia.
  - destruct (nth_error (AnalysisPage.awaiting p) i) as [c|]; [|exact Hp].
    cbn [AnalysisPage.state AnalysisPage.posted AnalysisPage.reading].
    destruct (analysis_settle_images c o (AnalysisPage.state p)) as [[-> ->]|[-> ->]];
      [eapply withinLimit_emptied; exact Hp | exact Hp].
Qed.

Lemma analysis_run_limit (trace : list AnalysisPage.Event) :
  forall p,
    AnalysisPage.oneAtATime trace p = true ->
    AnalysisPage.limit p -> AnalysisPage.limit (AnalysisPage.run trace p).
Proof.
  induction trace as [|e trace IH]; intros p Ht Hp; [exact Hp|].
  cbn [AnalysisPage.oneAtATime] in Ht. apply andb_prop in Ht as [He Ht].
  cbn [AnalysisPage.run fold_left]. apply IH; [exact Ht|].
  now apply analysis_step_limit.
Qed.

(** X23: on the analysis page in upload mode, as long as every selection
    holds one file and comes when no read is pending, whatever else the
    user does (names typed, modes switched, images removed, forms
    submitted, also by a remove button and while an earlier submission is
    processed) and whenever the reads end and the responses arrive, the
    form never holds more than five images, the "maximum reached" flag
    (which disables the file input) is set exactly while it holds five, and
    every [register-face] request posted carried one to five images. *)
Theorem analysis_form_keeps_limit (trace : list AnalysisPage.Event) :
  AnalysisPage.oneAtATime trace AnalysisPage.opened = true ->
  let p := AnalysisPage.run trace AnalysisPage.opened in
  (length (Analysis.selectedImages (AnalysisPage.state p)) <= 5)%nat
  /\ Analysis.maxImagesReached (AnalysisPage.state p)
     = (5 <=? length (Analysis.selectedImages (AnalysisPage.state p)))%nat
  /\ Forall (fun r => url r = "http://localhost:5001/api/register-face"%string ->
                      (1 <= length (AnalysisPage.imagesOf r) <= 5)%nat)
       (AnalysisPage.posted p).
Proof.
  intros Ht p.
  destruct (analysis_run_limit trace AnalysisPage.opened Ht) as (Hle & Hflag & _ & Hreq).
  { split; [cbn; lia|]. split; [reflexivity|]. split; [cbn; lia | constructor]. }
  fold p in Hle, Hflag, Hreq. split; [lia|]. split; [exact Hflag | exact Hreq].
Qed.

Lemma analysis_form_keeps_limit_witness :
  let trace := [AnalysisPage.SwitchMode Analysis.register;
                AnalysisPage.TypeName "alice";
                AnalysisPage.Select ["f1"%string]; AnalysisPage.ReadEnd 0;
                AnalysisPage.Select ["f2"%string]; AnalysisPage.ReadEnd 0;
                AnalysisPage.Remove 0; AnalysisPage.Submit] in
  let p := AnalysisPage.run trace AnalysisPage.opened in
  map AnalysisPage.imagesOf (AnalysisPage.posted p) = [["f2"%string]]
  /\ (length (Analysis.selectedImages (AnalysisPage.state p)) <= 5)%nat.
Proof.
  intros trace p. split; [reflexivity|].
  destruct (analysis_form_keeps_limit trace eq_refl) as (Hle & _).
  exact Hle.
Defined.

Lemma registration_settle_images (name : string) (o : option (bool * option string))
    (s : FaceRegistration.State) :
  let s' := RegistrationPage.handleSubmit_settled name o s in
  (FaceRegistration.selectedImages s' = []
   /\ FaceRegistration.maxImagesReached s' = false)
  \/ (FaceRegistration.selectedImages s' = FaceRegistration.selectedImages s
      /\ FaceRegistration.maxImagesReached s' = FaceRegistration.maxImagesReached s).
Proof.
  unfold RegistrationPage.handleSubmit_settled.
  destruct o as [[[|] msg]|]; cbn; auto.
Qed.

Lemma registration_step_limit (e : RegistrationPage.Event)
    (p : RegistrationPage.Page) :
  RegistrationPage.single e p = true ->
  RegistrationPage.limit p -> RegistrationPage.limit (RegistrationPage.step e p).
Proof.
  unfold RegistrationPage.limit. intros He Hp.
  destruct e as [value|files|i|index| |i o]; cbn [RegistrationPage.step].
  - exact Hp.
  - destruct (FaceRegistration.maxImagesReached (RegistrationPage.state p)) eqn:Ef;
      [rewrite Ef; exact Hp|].
    cbn [RegistrationPage.state RegistrationPage.posted RegistrationPage.reading].
    cbn [RegistrationPage.single] in He. apply andb_prop in He as [Hone Hnone].
    apply Nat.leb_le in Hone. apply Nat.eqb_eq in Hnone.
    destruct (RegistrationPage.reading p) as [|r rs]; [|discriminate Hnone].
    rewrite Ef in *. pose proof Hp as (_ & Hflag & _).
    symmetry in Hflag. apply Nat.leb_gt in Hflag.
    unfold FaceRegistration.handleImageUpload.
    rewrite acceptFiles_all by exact Hflag. cbn [app].
    now apply withinLimit_selected.
  - unfold FaceRegistration.readEnd.
    destruct (nth_error (RegistrationPage.reading p) i) as [r|] eqn:Er; [|exact Hp].
    cbn [RegistrationPage.state RegistrationPage.posted RegistrationPage.reading
         FaceRegistration.onloadend FaceRegistration.selectedImages
         FaceRegistration.maxImagesReached].
    assert (Hi : (i < length (RegistrationPage.reading p))%nat)
      by (apply nth_error_Some; congruence).
    rewrite removeAt_length by exact Hi.
    destruct (length (RegistrationPage.reading p)) as [|n]; [lia|]. cbn [pred].
    eapply withinLimit_read. exact Hp.
  - destruct (Nat.ltb_spec index
                (length (FaceRegistration.selectedImages (RegistrationPage.state p))))
      as [Hlt|]; [|exact Hp].
    cbn [RegistrationPage.state RegistrationPage.posted RegistrationPage.reading
         RegistrationPage.with_state FaceRegistration.removeImage
         FaceRegistration.selectedImages FaceRegistration.maxImagesReached].
    eapply withinLimit_removed; eassumption.
  - unfold FaceRegistration.handleSubmit.
    destruct (FaceRegistration.selectedImages (RegistrationPage.state p))
      as [|img imgs] eqn:Ei; [cbn; rewrite Ei; exact Hp|].
    destruct (String.eqb (FaceRegistration.nameField (RegistrationPage.state p)) "");
      cbn [RegistrationPage.state RegistrationPage.posted RegistrationPage.reading
           RegistrationPage.with_state FaceRegistration.setError
           FaceRegistration.selectedImages FaceRegistration.maxImagesReached];
      rewrite ?Ei; [exact Hp|].
    apply withinLimit_posted; [exact Hp|]. intros _.
    unfold AnalysisPage.imagesOf. cbn. destruct Hp as (Hle & _). cbn in Hle. lia.
  - destruct (nth_error (RegistrationPage.awaiting p) i) as [name|]; [|exact Hp].
    cbn [RegistrationPage.state RegistrationPage.posted RegistrationPage.reading].
    destruct (registration_settle_images name o (RegistrationPage.state p))
      as [[-> ->]|[-> ->]]; [eapply withinLimit_emptied; exact Hp | exact Hp].
Qed.

Lemma registration_posted_url (trace : list RegistrationPage.Event) :
  forall q,
    Forall (fun r => url r = "http://localhost:5001/api/register-face"%string)
      (RegistrationPage.posted q) ->
    Forall (fun r => url r = "http://localhost:5001/api/register-face"%string)
      (RegistrationPage.posted (RegistrationPage.run trace q)).
Proof.
  induction trace as [|e trace IH]; intros q Hq; [exact Hq|].
  cbn [RegistrationPage.run fold_left]. apply IH.
  destruct e as [value|files|i|index| |i o]; cbn [RegistrationPage.step]; try exact Hq.
  - destruct (FaceRegistration.maxImagesReached (RegistrationPage.state q)); exact Hq.
  - destruct (FaceRegistration.readEnd i (RegistrationPage.reading q)
                (RegistrationPage.state q)); exact Hq.
  - destruct (_ <? _)%nat; exact Hq.
  - destruct (FaceRegistration.handleSubmit (RegistrationPage.state q))
      as [s' [r|]] eqn:Es; [|exact Hq].
    apply registration_handleSubmit_posts in Es. destruct Es as (_ & _ & _ & ->).
    cbn. apply Forall_app. split; [exact Hq|]. constructor; [reflexivity|constructor].
  - destruct (nth_error (RegistrationPage.awaiting q) i); exact Hq.
Qed.

(** X24: the same holds on the stand-alone registration page: as long as
    every selection holds one file and comes when no read is pending,
    whatever else the user does and whenever the reads end and the
    responses arrive, the form never holds more than five images, the
    "maximum reached" flag is set exactly while it holds five, and every
    request posted carried one to five images. *)
Theorem registration_form_keeps_limit (trace : list RegistrationPage.Event) :
  RegistrationPage.oneAtATime trace RegistrationPage.opened = true ->
  let p := RegistrationPage.run trace RegistrationPage.opened in
  (length (FaceRegistration.selectedImages (RegistrationPage.state p)) <= 5)%nat
  /\ FaceRegistration.maxImagesReached (RegistrationPage.state p)
     = (5 <=? length (FaceRegistration.selectedImages (RegistrationPage.state p)))%nat
  /\ Forall (fun r => (1 <= length (AnalysisPage.imagesOf r) <= 5)%nat)
       (RegistrationPage.posted p).
Proof.
  intros Ht p.
  assert (H : forall tr q,
             RegistrationPage.oneAtATime tr q = true ->
             RegistrationPage.limit q ->
             RegistrationPage.limit (RegistrationPage.run tr q)).
  { induction tr as [|e tr IH]; intros q Hq Hl; [exact Hl|].
    cbn [RegistrationPage.oneAtATime] in Hq. apply andb_prop in Hq as [He Hq].
    cbn [RegistrationPage.run fold_left]. apply IH; [exact Hq|].
    now apply registration_step_limit. }
  destruct (H trace RegistrationPage.opened Ht) as (Hle & Hflag & _ & Hreq).
  { split; [cbn; lia|]. split; [reflexivity|]. split; [cbn; lia | constructor]. }
  assert (Hu := registration_posted_url trace RegistrationPage.opened ltac:(constructor)).
  clear H. fold p in Hle, Hflag, Hreq, Hu.
  split; [lia|]. split; [exact Hflag|].
  rewrite List.Forall_forall in Hu, Hreq |- *.
  intros r Hr. apply Hreq; [exact Hr|]. now apply Hu.
Qed.

Lemma registration_form_keeps_limit_witness :
  let trace := [RegistrationPage.TypeName "alice";
                RegistrationPage.Select ["f1"%string]; RegistrationPage.ReadEnd 0;
                RegistrationPage.Select ["f2"%string]; RegistrationPage.ReadEnd 0;
                RegistrationPage.Remove 0; RegistrationPage.Submit] in
  let p := RegistrationPage.run trace RegistrationPage.opened in
  map AnalysisPage.imagesOf (RegistrationPage.posted p) = [["f2"%string]]
  /\ (length (FaceRegistration.selectedImages (RegistrationPage.state p)) <= 5)%nat.
Proof.
  intros trace p. split; [reflexivity|].
  destruct (registration_form_keeps_limit trace eq_refl) as (Hle & _).
  exact Hle.
Defined.

(** *** Selections that overlap *)

Lemma analysis_selects (files : list string) (s : Analysis.State) :
  Analysis.maxImagesReached s = false ->
  (length (Analysis.selectedImages s) < 5)%nat ->
  forall pending awaiting posted,
    AnalysisPage.run (map (fun file => AnalysisPage.Select [file]) files)
      {| AnalysisPage.state := s; AnalysisPage.reading := pending;
         AnalysisPage.awaiting := awaiting; AnalysisPage.posted := posted |}
    = {| AnalysisPage.state := s;
         AnalysisPage.reading :=
           (pending ++ map (fun file => {| Analysis.startedIn := s;
                                           Analysis.dataURL := file |}) files)%list;
         AnalysisPage.awaiting := awaiting; AnalysisPage.posted := posted |}.
Proof.
  intros Hf Hlt. induction files as [|file files IH]; intros pending awaiting posted.
  - cbn. now rewrite app_nil_r.
  - cbn [map AnalysisPage.run fold_left AnalysisPage.step AnalysisPage.state
         AnalysisPage.reading AnalysisPage.awaiting AnalysisPage.posted].
    rewrite Hf. unfold Analysis.startReaders, Analysis.handleImageUpload.
    rewrite acceptFiles_all by exact Hlt.
    change (fold_left (fun q e => AnalysisPage.step e q)
              (map (fun file => AnalysisPage.Select [file]) files))
      with (AnalysisPage.run (map (fun file => AnalysisPage.Select [file]) files)).
    rewrite IH. cbn [map]. now rewrite <- app_assoc.
Qed.

Lemma analysis_reads (readers : list Analysis.Reader) :
  forall s awaiting posted,
    let q := AnalysisPage.run (repeat (AnalysisPage.ReadEnd 0) (length readers))
               {| AnalysisPage.state := s; AnalysisPage.reading := readers;
                  AnalysisPage.awaiting := awaiting; AnalysisPage.posted := posted |} in
    Analysis.selectedImages (AnalysisPage.state q)
    = (Analysis.selectedImages s ++ map Analysis.dataURL readers)%list
    /\ AnalysisPage.reading q = [].
Proof.
  induction readers as [|r readers IH]; intros s awaiting posted.
  - cbn. now rewrite app_nil_r.
  - cbn [length repeat AnalysisPage.run fold_left AnalysisPage.step
         AnalysisPage.state AnalysisPage.reading AnalysisPage.awaiting
         AnalysisPage.posted Analysis.readEnd nth_error Analysis.removeAt].
    change (fold_left (fun q e => AnalysisPage.step e q)
              (repeat (AnalysisPage.ReadEnd 0) (length readers)))
      with (AnalysisPage.run (repeat (AnalysisPage.ReadEnd 0) (length readers))).
    destruct (IH (Analysis.onloadend (Analysis.startedIn r) (Analysis.dataURL r) s)
                awaiting posted) as [Hi Hr].
    cbn zeta in Hi, Hr. rewrite Hi, Hr, onloadend_images.
    cbn [map]. now rewrite <- app_assoc.
Qed.

(** X26: the test of the upload loop reads the image list of the render
    and the image is added only when the read ends, so files selected one
    after the other before any read has ended all pass the test: starting
    below the limit with no read pending, the form ends up holding every
    one of them, however many there are. *)
Theorem hasty_selections_pass_the_limit (files : list string) (p : AnalysisPage.Page) :
  Analysis.maxImagesReached (AnalysisPage.state p) = false ->
  (length (Analysis.selectedImages (AnalysisPage.state p)) < 5)%nat ->
  AnalysisPage.reading p = [] ->
  let q := AnalysisPage.run (AnalysisPage.hasty files) p in
  Analysis.selectedImages (AnalysisPage.state q)
  = (Analysis.selectedImages (AnalysisPage.state p) ++ files)%list
  /\ AnalysisPage.reading q = [].
Proof.
  intros Hf Hlt Hr q. unfold q, AnalysisPage.hasty, AnalysisPage.run.
  rewrite fold_left_app. fold (AnalysisPage.run (map (fun file => AnalysisPage.Select [file]) files) p).
  destruct p as [s pending awaiting posted]. cbn in Hf, Hlt, Hr. subst pending.
  rewrite (analysis_selects files s Hf Hlt). cbn [app].
  set (readers := map (fun file => {| Analysis.startedIn := s;
                                      Analysis.dataURL := file |}) files).
  assert (Hlen : length files = length readers) by (unfold readers; now rewrite length_map).
  rewrite Hlen.
  destruct (analysis_reads readers s awaiting posted) as [Hi Hn].
  cbn zeta in Hi, Hn. unfold AnalysisPage.run in Hi, Hn. rewrite Hi, Hn.
  split; [|reflexivity]. cbn [AnalysisPage.state]. f_equal.
  unfold readers. rewrite map_map. cbn. apply map_id.
Qed.

Lemma hasty_selections_pass_the_limit_witness :
  length (Analysis.selectedImages
            (AnalysisPage.state
               (AnalysisPage.run (AnalysisPage.hasty Samples.sixFiles)
                  AnalysisPage.opened))) = 6%nat.
Proof.
  destruct (hasty_selections_pass_the_limit Samples.sixFiles AnalysisPage.opened)
    as [Hi _]; [reflexivity | cbn; lia | reflexivity |].
  rewrite Hi. reflexivity.
Defined.

Lemma registration_selects (files : list string) (s : FaceRegistration.State) :
  FaceRegistration.maxImagesReached s = false ->
  (length (FaceRegistration.selectedImages s) < 5)%nat ->
  forall pending awaiting posted,
    RegistrationPage.run (map (fun file => RegistrationPage.Select [file]) files)
      {| RegistrationPage.state := s; RegistrationPage.reading := pending;
         RegistrationPage.awaiting := awaiting; RegistrationPage.posted := posted |}
    = {| RegistrationPage.state := s;
         RegistrationPage.reading := (pending ++ files)%list;
         RegistrationPage.awaiting := awaiting; RegistrationPage.posted := posted |}.
Proof.
  intros Hf Hlt. induction files as [|file files IH]; intros pending awaiting posted.
  - cbn. now rewrite app_nil_r.
  - cbn [map RegistrationPage.run fold_left RegistrationPage.step RegistrationPage.state
         RegistrationPage.reading RegistrationPage.awaiting RegistrationPage.posted].
    rewrite Hf. unfold FaceRegistration.handleImageUpload.
    rewrite acceptFiles_all by exact Hlt.
    change (fold_left (fun q e => RegistrationPage.step e q)
              (map (fun file => RegistrationPage.Select [file]) files))
      with (RegistrationPage.run
              (map (fun file => RegistrationPage.Select [file]) files)).
    rewrite IH. now rewrite <- app_assoc.
Qed.

Lemma registration_reads (pending : list string) :
  forall s awaiting posted,
    let q := RegistrationPage.run
               (repeat (RegistrationPage.ReadEnd 0) (length pending))
               {| RegistrationPage.state := s; RegistrationPage.reading := pending;
                  RegistrationPage.awaiting := awaiting;
                  RegistrationPage.posted := posted |} in
    FaceRegistration.selectedImages (RegistrationPage.state q)
    = (FaceRegistration.selectedImages s ++ pending)%list
    /\ RegistrationPage.reading q = [].
Proof.
  induction pending as [|r pending IH]; intros s awaiting posted.
  - cbn. now rewrite app_nil_r.
  - cbn [length repeat RegistrationPage.run fold_left RegistrationPage.step
         RegistrationPage.state RegistrationPage.reading RegistrationPage.awaiting
         RegistrationPage.posted FaceRegistration.readEnd nth_error Analysis.removeAt].
    change (fold_left (fun q e => RegistrationPage.step e q)
              (repeat (RegistrationPage.ReadEnd 0) (length pending)))
      with (RegistrationPage.run
              (repeat (RegistrationPage.ReadEnd 0) (length pending))).
    destruct (IH (FaceRegistration.onloadend r s) awaiting posted) as [Hi Hr].
    cbn zeta in Hi, Hr. rewrite Hi, Hr.
    cbn [FaceRegistration.onloadend FaceRegistration.selectedImages].
    now rewrite <- app_assoc.
Qed.

(** X27: the same on the stand-alone registration page: files selected one
    after the other before any read has ended all pass the test of the
    upload loop, and the form ends up holding every one of them. *)
Theorem registration_hasty_selections_pass_the_limit (files : list string)
    (p : RegistrationPage.Page) :
  FaceRegistration.maxImagesReached (RegistrationPage.state p) = false ->
  (length (FaceRegistration.selectedImages (RegistrationPage.state p)) < 5)%nat ->
  RegistrationPage.reading p = [] ->
  let q := RegistrationPage.run (RegistrationPage.hasty files) p in
  FaceRegistration.selectedImages (RegistrationPage.state q)
  = (FaceRegistration.selectedImages (RegistrationPage.state p) ++ files)%list
  /\ RegistrationPage.reading q = [].
Proof.
  intros Hf Hlt Hr q. unfold q, RegistrationPage.hasty, RegistrationPage.run.
  rewrite fold_left_app.
  fold (RegistrationPage.run (map (fun file => RegistrationPage.Select [file]) files) p).
  destruct p as [s pending awaiting posted]. cbn in Hf, Hlt, Hr. subst pending.
  rewrite (registration_selects files s Hf Hlt). cbn [app].
  destruct (registration_reads files s awaiting posted) as [Hi Hn].
  cbn zeta in Hi, Hn. unfold RegistrationPage.run in Hi, Hn. rewrite Hi, Hn.
  split; reflexivity.
Qed.

Lemma registration_hasty_selections_pass_the_limit_witness :
  length (FaceRegistration.selectedImages
            (RegistrationPage.state
               (RegistrationPage.run (RegistrationPage.hasty Samples.sixFiles)
                  RegistrationPage.opened))) = 6%nat.
Proof.
  destruct (registration_hasty_selections_pass_the_limit Samples.sixFiles
              RegistrationPage.opened)
    as [Hi _]; [reflexivity | cbn; lia | reflexivity |].
  rewrite Hi. reflexivity.
Defined.

End FormLimit.

(** ** Capturing from the camera on the analysis page *)

Section CaptureFacts.

Import Analysis.

(** X25: [handleCameraCapture], the [onCapture] handed to the camera,
    replaces whatever the form held by the captured frame: the image list
    is that frame alone, the preview is that frame and the error is
    cleared, while the "maximum reached" flag is left as it was.
    [handleSubmit] of a render that holds the state it leaves posts that
    frame: to [identify-face] in identify mode, and in register mode to
    [register-face] as the only image, whatever had been uploaded before,
    unless the name is empty or white space only (then nothing is posted).
    (The capture button of the camera stands inside the form, so a click on
    it raises the form's submit event as well; in continuous mode the
    interval calls [onCapture] on its own.) *)
Theorem capture_replaces_form (imageData : string) (s : State) :
  imageData <> ""%string ->
  let s' := handleCameraCapture imageData s in
  selectedImages s' = [imageData]
  /\ imagePreview s' = Some imageData
  /\ error s' = None
  /\ maxImagesReached s' = maxImagesReached s
  /\ snd (handleSubmit s')
     = match mode s with
       | identify =>
           Some {| url := "http://localhost:5001/api/identify-face";
                   body := [("image"%string, JString imageData)];
                   timeout := None |}
       | register =>
           if JS.blank (nameField s) then None
           else Some {| url := "http://localhost:5001/api/register-face";
                        body := [("name"%string, JString (JS.trim (nameField s)));
                                 ("images"%string, JStrings [imageData])];
                        timeout := None |}
       end.
Proof.
  intros Hne s'. unfold s', handleCameraCapture.
  split; [reflexivity|]. split; [reflexivity|]. split; [reflexivity|].
  split; [reflexivity|].
  unfold handleSubmit, handleRegisterFace, handleIdentifyFace.
  cbn [selectedImages imagePreview mode nameField setError setSelectedImages
       setImagePreview JS.truthy].
  destruct (String.eqb_spec imageData ""%string) as [|_]; [contradiction|].
  cbn [negb]. destruct (mode s); [|reflexivity].
  destruct (JS.blank (nameField s)) eqn:Eb.
  - apply trim_empty_iff_blank in Eb. rewrite Eb. reflexivity.
  - apply trim_not_empty in Eb. rewrite Eb. reflexivity.
Qed.

Lemma capture_replaces_form_witness :
  let s := setName "alice"
             (setMode register
                (readAll [0; 0; 0; 0; 0; 0]%nat
                   (startReaders initial (Some Samples.sixFiles)) initial)) in
  let s' := handleCameraCapture "data:image/jpeg;base64,AAAA" s in
  length (selectedImages s) = 6%nat
  /\ selectedImages s' = ["data:image/jpeg;base64,AAAA"%string]
  /\ maxImagesReached s' = true.
Proof.
  intros s s'.
  destruct (capture_replaces_form "data:image/jpeg;base64,AAAA" s)
    as (Hi & _ & _ & Hf & _); [discriminate|].
  split; [reflexivity|]. split; [exact Hi|]. exact (eq_trans Hf eq_refl).
Defined.

End CaptureFacts.
